(** * Nayak Server: a shallow embedding of [nayak-server.py]

    The development follows the source file top to bottom: Python strings
    and byte strings, dictionaries, the global state of the module, a small
    state-and-exception monad for the statements that mutate it, and then
    the functions [user_is_connected], [server_tick], [is_serializable],
    [checkpoint], [load_checkpoint], [handle_client] and [start_server].
    The definitions that only the statements need and the example states
    come next, and the properties last.

    Threads are not modelled: [start_server] returns the sessions it would
    start, and each session is run on its own.  The Flask status page and
    [main] are left out. *)

From Stdlib Require Import ZArith List Bool Lia String Ascii.
From Stdlib Require DecimalString.
Import ListNotations.
Open Scope Z_scope.
Set Warnings "-register-all".

(** ** Python [str] and [bytes] *)

(** A [str] is a sequence of Unicode code points, a [bytes] object a
    sequence of integers in 0..255. *)
Definition str := list Z.
Definition bytes := list Z.

(** An ASCII literal of the source. *)
Definition lit (s : string) : str :=
  map (fun a => Z.of_nat (nat_of_ascii a)) (list_ascii_of_string s).

Fixpoint str_eqb (a b : str) : bool :=
  match a, b with
  | [], [] => true
  | x :: a', y :: b' => (x =? y) && str_eqb a' b'
  | _, _ => false
  end.

(** [str(n)] for an integer. *)
Definition str_of_int (n : Z) : str :=
  lit (DecimalString.NilZero.string_of_int (Z.to_int n)).

(** [s.endswith("\n")] *)
Definition endswith_nl (s : str) : bool :=
  match rev s with
  | c :: _ => c =? 10
  | [] => false
  end.

(** The characters [str.strip()] removes: the ASCII ones (tab to carriage
    return, 0x1c to 0x1f, space) and the Unicode white space above 127. *)
Definition isspace (c : Z) : bool :=
  ((9 <=? c) && (c <=? 13)) || ((28 <=? c) && (c <=? 32))
  || (c =? 133) || (c =? 160) || (c =? 5760)
  || ((8192 <=? c) && (c <=? 8202))
  || (c =? 8232) || (c =? 8233) || (c =? 8239) || (c =? 8287) || (c =? 12288).

Fixpoint lstrip (s : str) : str :=
  match s with
  | c :: r => if isspace c then lstrip r else s
  | [] => []
  end.

Definition strip (s : str) : str := rev (lstrip (rev (lstrip s))).

(** [s.split(' ')]: cut at every single space; never an empty list. *)
Fixpoint split_space (s : str) : list str :=
  match s with
  | [] => [[]]
  | c :: r =>
      if c =? 32 then [] :: split_space r
      else match split_space r with
           | w :: ws => (c :: w) :: ws
           | [] => [[c]]
           end
  end.

(** [' '.join(parts)] *)
Fixpoint join_space (parts : list str) : str :=
  match parts with
  | [] => []
  | [p] => p
  | p :: ps => p ++ 32 :: join_space ps
  end.

(** [b.decode('utf-8')], strict: [None] stands for [UnicodeDecodeError]. *)
Definition is_cont (b : Z) : bool := (128 <=? b) && (b <=? 191).

Fixpoint utf8_decode (bs : bytes) : option str :=
  match bs with
  | [] => Some []
  | b0 :: r =>
      if (0 <=? b0) && (b0 <? 128) then option_map (cons b0) (utf8_decode r)
      else if (194 <=? b0) && (b0 <=? 223) then
        match r with
        | b1 :: r1 =>
            if is_cont b1
            then option_map (cons ((b0 - 192) * 64 + (b1 - 128))) (utf8_decode r1)
            else None
        | _ => None
        end
      else if (224 <=? b0) && (b0 <=? 239) then
        match r with
        | b1 :: b2 :: r2 =>
            let lo := if b0 =? 224 then 160 else 128 in
            let hi := if b0 =? 237 then 159 else 191 in
            if (lo <=? b1) && (b1 <=? hi) && is_cont b2
            then option_map
                   (cons ((b0 - 224) * 4096 + (b1 - 128) * 64 + (b2 - 128)))
                   (utf8_decode r2)
            else None
        | _ => None
        end
      else if (240 <=? b0) && (b0 <=? 244) then
        match r with
        | b1 :: b2 :: b3 :: r3 =>
            let lo := if b0 =? 240 then 144 else 128 in
            let hi := if b0 =? 244 then 143 else 191 in
            if (lo <=? b1) && (b1 <=? hi) && is_cont b2 && is_cont b3
            then option_map
                   (cons ((b0 - 240) * 262144 + (b1 - 128) * 4096
                          + (b2 - 128) * 64 + (b3 - 128)))
                   (utf8_decode r3)
            else None
        | _ => None
        end
      else None
  end.

(** ** Python dictionaries

    A [dict] keeps its keys in insertion order: assigning to a key that is
    present replaces the value where it stands, assigning to a new key
    appends. *)
Definition dict (V : Type) := list (str * V).

Fixpoint dict_get {V} (k : str) (d : dict V) : option V :=
  match d with
  | [] => None
  | (k', v) :: d' => if str_eqb k k' then Some v else dict_get k d'
  end.

Fixpoint dict_set {V} (k : str) (v : V) (d : dict V) : dict V :=
  match d with
  | [] => [(k, v)]
  | (k', v') :: d' =>
      if str_eqb k k' then (k', v) :: d' else (k', v') :: dict_set k v d'
  end.

(** [k in d] *)
Definition dict_mem {V} (k : str) (d : dict V) : bool :=
  match dict_get k d with Some _ => true | None => false end.

Definition dict_keys {V} (d : dict V) : list str := map fst d.

(** ** Values stored in the user directory *)

(** A [datetime] is carried by its two renderings, [str(t)] and
    [t.isoformat()]. *)
Record datetime := { dt_str : str; isoformat : str }.

(** What a field of a user record can hold: [None], a [str], a list, a
    dictionary with string keys, a [datetime] object, or a reference to a
    socket object. *)
Inductive value :=
| VNone
| VStr (s : str)
| VList (l : list value)
| VDict (d : list (str * value))
| VDatetime (t : datetime)
| VSocket (c : nat).

Abbreviation record := (dict value).

Definition datetime_eqb (a b : datetime) : bool :=
  str_eqb (dt_str a) (dt_str b) && str_eqb (isoformat a) (isoformat b).

(** Python's [==] on these values. *)
Fixpoint value_eqb (a b : value) : bool :=
  match a, b with
  | VNone, VNone => true
  | VStr s, VStr t => str_eqb s t
  | VList l, VList m =>
      (fix go (l m : list value) : bool :=
         match l, m with
         | [], [] => true
         | x :: l', y :: m' => value_eqb x y && go l' m'
         | _, _ => false
         end) l m
  | VDict d, VDict e =>
      (List.length d =? List.length e)%nat &&
      (fix go (d : list (str * value)) : bool :=
         match d with
         | [] => true
         | (k, x) :: d' =>
             match dict_get k e with
             | Some y => value_eqb x y && go d'
             | None => false
             end
         end) d
  | VDatetime s, VDatetime t => datetime_eqb s t
  | VSocket c, VSocket c' => (c =? c')%nat
  | _, _ => false
  end.

(** The values [msgpack.packb] and [json.dumps] accept: those built from
    [None], strings, lists and string-keyed dictionaries only.  Both raise
    on a [datetime] or a socket object, at any depth.  (Their limits on the
    depth of nesting, 511 levels for [msgpack], are out of reach of the
    values the server builds and are not modelled.) *)
Fixpoint plain_data (v : value) : bool :=
  match v with
  | VNone | VStr _ => true
  | VList l => forallb plain_data l
  | VDict d => forallb (fun kv => plain_data (snd kv)) d
  | VDatetime _ | VSocket _ => false
  end.

(** ** Sockets, console and the checkpoint file *)

(** What was handed to [conn.send]: [Text s] stands for
    [s.encode('utf-8')], [Raw b] for a [bytes] object built directly. *)
Inductive packet :=
| Text (s : str)
| Raw (b : bytes).

(** A socket object: its descriptor ([-1] once closed), the chunks that
    the coming calls of [recv(1024)] will return, one per call (an exhausted
    queue means the peer has closed: [recv] returns [b'']), and everything
    sent on it so far. *)
Record socket := { fileno : Z; sk_in : list bytes; sk_out : list packet }.

Definition closed_socket : socket :=
  {| fileno := -1; sk_in := []; sk_out := [] |}.

(** The socket objects alive in the process, by identity. *)
Definition socket_store := list (nat * socket).

Fixpoint sock_get (c : nat) (ss : socket_store) : socket :=
  match ss with
  | [] => closed_socket
  | (c', s) :: ss' => if (c =? c')%nat then s else sock_get c ss'
  end.

Fixpoint sock_set (c : nat) (s : socket) (ss : socket_store) : socket_store :=
  match ss with
  | [] => [(c, s)]
  | (c', s') :: ss' =>
      if (c =? c')%nat then (c', s) :: ss' else (c', s') :: sock_set c s ss'
  end.

Inductive exn :=
| IndexError
| KeyError
| AttributeError
| OSError
| UnicodeDecodeError
| ZeroDivisionError
| TypeError
| ValueError.

(** The lines the server prints on its console. *)
Inductive event :=
| PrintCheckpointTo (t : datetime)
| PrintCannotSerialize (obj : value)
| PrintSerializableUsers (t : datetime) (us : dict record)
| PrintUserNotFound (t : datetime) (username : str)
| PrintDoesNotMatch (t : datetime) (username k : str)
| PrintDoesNotExist (t : datetime) (username k : str)
| PrintCheckpointComplete (t : datetime)
| PrintError (e : exn).

(** The file at [checkpoint_filename]: missing, opened for writing and not
    written yet, or holding a packed directory.  [msgpack] gives back the
    plain data it was given, so the packed form is the data itself. *)
Inductive file :=
| NoFile
| EmptyFile
| Packed (us : dict record).

(** ** Periodic tasks and the global state *)

Inductive task_fn := Fcheckpoint.

Record task := { interval : Z; last_run : Z; function : task_fn }.

(** The module's globals, the sockets, the checkpoint file, the wall clock
    ([wall n] is what the [n]-th call of [datetime.now()] returns) and the
    console. *)
Record state := {
  users : dict record;
  server_ticks : Z;
  period_tasks : dict task;
  checkpoint_file : file;
  sockets : socket_store;
  wall : nat -> datetime;
  clock : nat;
  console : list event
}.

Definition set_users (f : dict record -> dict record) (st : state) : state :=
  {| users := f (users st); server_ticks := server_ticks st;
     period_tasks := period_tasks st; checkpoint_file := checkpoint_file st;
     sockets := sockets st; wall := wall st; clock := clock st;
     console := console st |}.

Definition set_server_ticks (f : Z -> Z) (st : state) : state :=
  {| users := users st; server_ticks := f (server_ticks st);
     period_tasks := period_tasks st; checkpoint_file := checkpoint_file st;
     sockets := sockets st; wall := wall st; clock := clock st;
     console := console st |}.

Definition set_period_tasks (f : dict task -> dict task) (st : state) : state :=
  {| users := users st; server_ticks := server_ticks st;
     period_tasks := f (period_tasks st); checkpoint_file := checkpoint_file st;
     sockets := sockets st; wall := wall st; clock := clock st;
     console := console st |}.

Definition set_checkpoint_file (f : file) (st : state) : state :=
  {| users := users st; server_ticks := server_ticks st;
     period_tasks := period_tasks st; checkpoint_file := f;
     sockets := sockets st; wall := wall st; clock := clock st;
     console := console st |}.

Definition set_sockets (f : socket_store -> socket_store) (st : state) : state :=
  {| users := users st; server_ticks := server_ticks st;
     period_tasks := period_tasks st; checkpoint_file := checkpoint_file st;
     sockets := f (sockets st); wall := wall st; clock := clock st;
     console := console st |}.

Definition set_clock (f : nat -> nat) (st : state) : state :=
  {| users := users st; server_ticks := server_ticks st;
     period_tasks := period_tasks st; checkpoint_file := checkpoint_file st;
     sockets := sockets st; wall := wall st; clock := f (clock st);
     console := console st |}.

Definition set_console (f : list event -> list event) (st : state) : state :=
  {| users := users st; server_ticks := server_ticks st;
     period_tasks := period_tasks st; checkpoint_file := checkpoint_file st;
     sockets := sockets st; wall := wall st; clock := clock st;
     console := f (console st) |}.

(** ** Statements: state passing with exceptions

    A statement runs on the state and either returns a value or raises; what
    it wrote before raising stays written. *)
Inductive res (A : Type) :=
| Ok (a : A)
| Raise (e : exn).
Arguments Ok {A} a.
Arguments Raise {A} e.

Definition M (A : Type) := state -> res A * state.

Definition ret {A} (a : A) : M A := fun st => (Ok a, st).
Definition raise {A} (e : exn) : M A := fun st => (Raise e, st).
Definition bind {A B} (m : M A) (k : A -> M B) : M B :=
  fun st =>
    match m st with
    | (Ok a, st') => k a st'
    | (Raise e, st') => (Raise e, st')
    end.
Definition gets {A} (f : state -> A) : M A := fun st => (Ok (f st), st).
Definition modify (f : state -> state) : M unit := fun st => (Ok tt, f st).

Notation "x <- m ;; k" := (bind m (fun x => k))
  (at level 61, m at next level, right associativity).
Notation "m ;; k" := (bind m (fun _ => k))
  (at level 61, right associativity).

(** [try: m except Exception as e: h e] *)
Definition try_except {A} (m : M A) (h : exn -> M A) : M A :=
  fun st =>
    match m st with
    | (Ok a, st') => (Ok a, st')
    | (Raise e, st') => h e st'
    end.

(** [for x in l: body x], over a list taken before the loop starts. *)
Fixpoint for_each {A} (l : list A) (body : A -> M unit) : M unit :=
  match l with
  | [] => ret tt
  | x :: l' => body x ;; for_each l' body
  end.

Definition print (e : event) : M unit :=
  modify (set_console (fun c => c ++ [e])).

(** [datetime.now()] *)
Definition now : M datetime :=
  t <- gets (fun st => wall st (clock st)) ;;
  modify (set_clock S) ;;
  ret t.

(** [conn.send(p)]: [OSError] on a closed socket. *)
Definition send (c : nat) (p : packet) : M unit :=
  s <- gets (fun st => sock_get c (sockets st)) ;;
  if fileno s =? -1 then raise OSError
  else modify (set_sockets (sock_set c
         {| fileno := fileno s; sk_in := sk_in s; sk_out := sk_out s ++ [p] |})).

(** [conn.recv(1024)] *)
Definition recv (c : nat) : M bytes :=
  s <- gets (fun st => sock_get c (sockets st)) ;;
  if fileno s =? -1 then raise OSError
  else match sk_in s with
       | [] => ret []
       | chunk :: rest =>
           modify (set_sockets (sock_set c
             {| fileno := fileno s; sk_in := rest; sk_out := sk_out s |})) ;;
           ret chunk
       end.

(** [conn.close()] *)
Definition close (c : nat) : M unit :=
  s <- gets (fun st => sock_get c (sockets st)) ;;
  modify (set_sockets (sock_set c
    {| fileno := -1; sk_in := sk_in s; sk_out := sk_out s |})).

(** [v.fileno()] and [v.send(p)] on whatever a [conn] field holds. *)
Definition value_fileno (v : value) : M Z :=
  match v with
  | VSocket c => gets (fun st => fileno (sock_get c (sockets st)))
  | _ => raise AttributeError
  end.

Definition value_send (v : value) (p : packet) : M unit :=
  match v with
  | VSocket c => send c p
  | _ => raise AttributeError
  end.

(** [l.append(x)] on whatever a field holds. *)
Definition value_append (v x : value) : M value :=
  match v with
  | VList l => ret (VList (l ++ [x]))
  | _ => raise AttributeError
  end.

(** [users[username]], [users[username][k]] and
    [users[username][k] = v]. *)
Definition user_record (username : str) : M record :=
  us <- gets users ;;
  match dict_get username us with
  | Some r => ret r
  | None => raise KeyError
  end.

Definition user_field (username k : str) : M value :=
  r <- user_record username ;;
  match dict_get k r with
  | Some v => ret v
  | None => raise KeyError
  end.

Definition set_user_field (username k : str) (v : value) : M unit :=
  r <- user_record username ;;
  modify (set_users (dict_set username (dict_set k v r))).

(** ** [user_is_connected] *)

Definition user_is_connected (username : str) : M bool :=
  r <- user_record username ;;
  connected <-
    (match dict_get (lit "conn") r with
     | None => ret false
     | Some VNone => ret false
     | Some conn => fd <- value_fileno conn ;; ret (negb (fd =? -1))
     end) ;;
  if connected then ret true
  else set_user_field username (lit "conn") VNone ;; ret false.

(** ** [is_serializable] and [checkpoint] *)

(** [msgpack.packb(obj)] is tried and its failure caught: since msgpack 1.0
    [PackException] is [Exception] itself, so every failure of [packb] is
    caught here and printed. *)
Definition is_serializable (obj : value) : M bool :=
  if plain_data obj then ret true
  else print (PrintCannotSerialize obj) ;; ret false.

(** A directory as one value, the way [packb] and [json.dumps] get it. *)
Definition directory_value (us : dict record) : value :=
  VDict (map (fun ur => (fst ur, VDict (snd ur))) us).

Definition json_dumps (us : dict record) : M unit :=
  if plain_data (directory_value us) then ret tt else raise TypeError.

Definition packb (us : dict record) : M (dict record) :=
  if plain_data (directory_value us) then ret us else raise TypeError.

Definition unpackb (f : file) : M (dict record) :=
  match f with
  | Packed us => ret us
  | EmptyFile => raise ValueError
  | NoFile => raise OSError
  end.

(** The notice to one user of the first loop of [checkpoint]. *)
Definition checkpoint_notice (timestamp : datetime) : packet :=
  Text (lit "[" ++ dt_str timestamp ++ lit "] SYSTEM-MESSAGE: Checkpoint."
        ++ [13; 10]).

Definition notify (timestamp : datetime) (recipient : str) : M unit :=
  connected <- user_is_connected recipient ;;
  if connected then
    conn <- user_field recipient (lit "conn") ;;
    value_send conn (checkpoint_notice timestamp)
  else ret tt.

(** The loop over [users[user].items()] that fills [serializable_user]. *)
Fixpoint serialize_fields (items : list (str * value))
    (serializable_user : record) : M record :=
  match items with
  | [] => ret serializable_user
  | (key, v) :: items' =>
      if str_eqb (lit "conn") key then
        serialize_fields items' serializable_user
      else
        match v with
        | VDatetime t =>
            serialize_fields items'
              (dict_set key (VStr (isoformat t)) serializable_user)
        | _ =>
            ok <- is_serializable v ;;
            if ok then serialize_fields items' (dict_set key v serializable_user)
            else serialize_fields items' serializable_user
        end
  end.

(** The loop over [users] that fills [serializable_users]. *)
Fixpoint serialize_users (us : list (str * record))
    (serializable_users : dict record) : M (dict record) :=
  match us with
  | [] => ret serializable_users
  | (user, r) :: us' =>
      serializable_user <- serialize_fields r [] ;;
      serialize_users us' (dict_set user serializable_user serializable_users)
  end.

(** The comparison of one live field with the packed copy. *)
Definition verify_field (timestamp : datetime) (username : str)
    (packed_user : record) (item : str * value) : M unit :=
  let (k, v) := item in
  match dict_get k packed_user with
  | Some v' =>
      if negb (value_eqb v v') then print (PrintDoesNotMatch timestamp username k)
      else ret tt
  | None =>
      if negb (str_eqb (lit "conn") k)
      then print (PrintDoesNotExist timestamp username k)
      else ret tt
  end.

Definition verify_user (timestamp : datetime) (packed_users : dict record)
    (item : str * record) : M unit :=
  let (username, info) := item in
  match dict_get username packed_users with
  | None => print (PrintUserNotFound timestamp username)
  | Some packed_user =>
      for_each info (verify_field timestamp username packed_user)
  end.

Definition checkpoint : M unit :=
  timestamp <- now ;;
  print (PrintCheckpointTo timestamp) ;;
  us <- gets users ;;
  for_each (dict_keys us) (notify timestamp) ;;
  us <- gets users ;;
  serializable_users <- serialize_users us [] ;;
  json_dumps serializable_users ;;
  print (PrintSerializableUsers timestamp serializable_users) ;;
  modify (set_checkpoint_file EmptyFile) ;;
  packed <- packb serializable_users ;;
  modify (set_checkpoint_file (Packed packed)) ;;
  f <- gets checkpoint_file ;;
  packed_users <- unpackb f ;;
  (match packed_users with
   | [] => ret tt
   | _ :: _ =>
       us <- gets users ;;
       for_each us (verify_user timestamp packed_users)
   end) ;;
  print (PrintCheckpointComplete timestamp).

(** ** [load_checkpoint] *)

Definition load_checkpoint : M unit :=
  f <- gets checkpoint_file ;;
  match f with
  | NoFile => modify (set_users (fun _ => []))
  | _ => us <- unpackb f ;; modify (set_users (fun _ => us))
  end.

(** ** [server_tick] *)

Definition call (f : task_fn) : M unit :=
  match f with
  | Fcheckpoint => checkpoint
  end.

(** One turn of the loop over [period_tasks.items()]; [%] raises on a zero
    interval and otherwise agrees with [Z.modulo]. *)
Definition run_task (item : str * task) : M unit :=
  let (name, info) := item in
  ticks <- gets server_ticks ;;
  if interval info =? 0 then raise ZeroDivisionError
  else if ticks mod interval info =? 0 then
    modify (set_period_tasks (dict_set name
      {| interval := interval info; last_run := ticks;
         function := function info |})) ;;
    call (function info)
  else ret tt.

Definition server_tick : M unit :=
  modify (set_server_ticks (fun t => t + 1)) ;;
  tasks <- gets period_tasks ;;
  for_each tasks run_task.

(** The globals as the module body and [main] leave them, before
    [load_checkpoint] runs. *)
Definition initial_tasks : dict task :=
  [(lit "checkpoint",
    {| interval := 600; last_run := -1; function := Fcheckpoint |})].

Definition initial_state (f : file) (w : nat -> datetime) : state :=
  {| users := []; server_ticks := 0; period_tasks := initial_tasks;
     checkpoint_file := f; sockets := []; wall := w; clock := 0;
     console := [] |}.

(** ** [json.dumps] and f-string rendering *)

Definition crlf : str := [13; 10].

Definition hex_digit (n : Z) : Z := if n <? 10 then 48 + n else 87 + n.

(** The escape [\uXXXX] of one UTF-16 code unit. *)
Definition u_escape (c : Z) : str :=
  [92; 117; hex_digit (c / 4096 mod 16); hex_digit (c / 256 mod 16);
   hex_digit (c / 16 mod 16); hex_digit (c mod 16)].

(** One character of a JSON string, with [ensure_ascii] on. *)
Definition json_char (c : Z) : str :=
  if c =? 34 then [92; 34]
  else if c =? 92 then [92; 92]
  else if c =? 10 then [92; 110]
  else if c =? 13 then [92; 114]
  else if c =? 9 then [92; 116]
  else if c =? 8 then [92; 98]
  else if c =? 12 then [92; 102]
  else if (32 <=? c) && (c <? 128) then [c]
  else if c <? 65536 then u_escape c
  else u_escape (55296 + (c - 65536) / 1024)
       ++ u_escape (56320 + (c - 65536) mod 1024).

Definition json_string (s : str) : str :=
  34 :: flat_map json_char s ++ [34].

(** [json.dumps(v)] with the default separators; [None] stands for its
    [TypeError]. *)
Fixpoint json_encode (v : value) : option str :=
  match v with
  | VNone => Some (lit "null")
  | VStr s => Some (json_string s)
  | VList l =>
      let fix items (l : list value) (first : bool) : option str :=
        match l with
        | [] => Some []
        | x :: l' =>
            match json_encode x, items l' false with
            | Some sx, Some sl =>
                Some ((if first then [] else lit ", ") ++ sx ++ sl)
            | _, _ => None
            end
        end in
      option_map (fun body => lit "[" ++ body ++ lit "]") (items l true)
  | VDict d =>
      let fix items (d : list (str * value)) (first : bool) : option str :=
        match d with
        | [] => Some []
        | (k, x) :: d' =>
            match json_encode x, items d' false with
            | Some sx, Some sd =>
                Some ((if first then [] else lit ", ")
                      ++ json_string k ++ lit ": " ++ sx ++ sd)
            | _, _ => None
            end
        end in
      option_map (fun body => lit "{" ++ body ++ lit "}") (items d true)
  | VDatetime _ | VSocket _ => None
  end.

(** A value inside an f-string.  The server formats [None], strings and
    [datetime] objects; the [repr] Python would print for a list, a
    dictionary or a socket object is not expanded. *)
Definition format_value (v : value) : str :=
  match v with
  | VNone => lit "None"
  | VStr s => s
  | VDatetime t => dt_str t
  | VList _ => lit "[...]"
  | VDict _ => lit "{...}"
  | VSocket _ => lit "<socket.socket>"
  end.

(** ** [server_metadata] *)

Definition server_metadata : dict value :=
  [ (lit "server_name", VStr (lit "Nayak Server"));
    (lit "server_version", VStr (lit "0.1"));
    (lit "server_description", VStr (lit "The Nayak protocol server."));
    (lit "server_author", VStr (lit "Nayak Team"));
    (lit "server_author_email", VStr (lit "nayak@fastmail.com"));
    (lit "server_website", VStr (lit "https://meta.mn/nayak"));
    (lit "server_license", VStr (lit "GPL v3"));
    (lit "server_license_url",
       VStr (lit "https://www.gnu.org/licenses/gpl-3.0.en.html"));
    (lit "commercial_license",
       VStr (lit "Contact us at nayak@fastmail.com for alternative commercial licensing."));
    (lit "commercial_license_url", VStr (lit "mailto:nayak@fastmail.com"));
    (lit "server_source",
       VStr (lit "https://github.com/mindfulvector/Nayak-Server"));
    (lit "server_source_issue_tracker",
       VStr (lit "https://github.com/mindfulvector/Nayak-Server/issues"));
    (lit "server_source_contributing",
       VStr (lit "Contributions to this project are welcome. Please read the CONTRIBUTING.md file for more information, or type HELP CONTRIBUTING when connected to the server."));
    (lit "server_source_contributors",
       VList [VDict [(lit "name", VStr (lit "Mindful Vector"));
                     (lit "email", VStr (lit "mv@fea.st"))]]) ].

(** [server_metadata[k]] inside an f-string. *)
Definition metadata (k : string) : M str :=
  match dict_get (lit k) server_metadata with
  | Some v => ret (format_value v)
  | None => raise KeyError
  end.

(** [l[n]] *)
Definition list_index {A} (l : list A) (n : nat) : M A :=
  match nth_error l n with
  | Some x => ret x
  | None => raise IndexError
  end.

(** ** [handle_client] *)

(** The loop [while i < len(raw_data)] of [handle_client]: one tick per
    turn, three bytes skipped at an IAC byte, any other byte kept.  The
    index grows at every turn, so [len(raw_data)] turns are enough. *)
Fixpoint scrub_loop (fuel : nat) (raw_data : bytes) (i : nat)
    (processed_data : bytes) : M bytes :=
  match fuel with
  | O => ret processed_data
  | S fuel' =>
      if (i <? List.length raw_data)%nat then
        server_tick ;;
        if nth i raw_data 0 =? 255
        then scrub_loop fuel' raw_data (i + 3) processed_data
        else scrub_loop fuel' raw_data (i + 1)
               (processed_data ++ [nth i raw_data 0])
      else ret processed_data
  end.

Definition scrub (raw_data : bytes) : M bytes :=
  scrub_loop (List.length raw_data) raw_data 0 [].

(** The loop [while not received_data.endswith("\n")] of [handle_client].
    Every turn but the last takes one chunk off the socket's queue, so one
    turn per pending chunk and one more are enough ([read_line_fuel]). *)
Fixpoint read_line (fuel : nat) (conn : nat) (received_data : str) : M str :=
  match fuel with
  | O => ret received_data
  | S fuel' =>
      if endswith_nl received_data then ret received_data
      else
        server_tick ;;
        raw_data <- recv conn ;;
        match raw_data with
        | [] => ret received_data
        | _ :: _ =>
            processed_data <- scrub raw_data ;;
            match utf8_decode processed_data with
            | None => raise UnicodeDecodeError
            | Some data =>
                send conn (Text data) ;;
                read_line fuel' conn (received_data ++ data)
            end
        end
  end.

(** What the body of a [while True] loop ends with. *)
Inductive flow :=
| Continue
| Break.

(** The inbox entry that [SEND] appends. *)
Definition inbox_entry (timestamp : datetime) (message : str) : value :=
  VDict [(lit "timestamp", VDatetime timestamp); (lit "message", VStr message)].

Definition cmd_send (conn : nat) (username : str) (timestamp : datetime)
    (command_parts : list str) : M flow :=
  recipient <- list_index command_parts 1 ;;
  let message := join_space (skipn 2 command_parts) in
  us <- gets users ;;
  if dict_mem recipient us then
    connected <- user_is_connected recipient ;;
    if connected then
      inbox <- user_field recipient (lit "messages_received") ;;
      inbox' <- value_append inbox (inbox_entry timestamp message) ;;
      set_user_field recipient (lit "messages_received") inbox' ;;
      rconn <- user_field recipient (lit "conn") ;;
      value_send rconn
        (Text (lit "[" ++ dt_str timestamp ++ lit "] " ++ username ++ lit ": "
               ++ message ++ crlf)) ;;
      send conn (Text (lit "OK: Message sent to " ++ recipient ++ lit "."
                       ++ crlf)) ;;
      ret Continue
    else
      send conn (Text (lit "ERROR: User `" ++ recipient
                       ++ lit "` is not online." ++ crlf)) ;;
      ret Continue
  else
    send conn (Text (lit "ERROR: User `" ++ recipient
                     ++ lit "` does not exist." ++ crlf)) ;;
    ret Continue.

(** The loop of [WHO] over [users.items()]. *)
Fixpoint who_lines (us : list (str * record)) (num : Z) (response : str)
    : M str :=
  match us with
  | [] => ret response
  | (user, info) :: us' =>
      match dict_get (lit "last_active") info with
      | None => raise KeyError
      | Some la =>
          who_lines us' (num + 1)
            (response ++ lit "#" ++ str_of_int (num + 1) ++ lit " - " ++ user
             ++ lit " - Last active: " ++ format_value la ++ crlf)
      end
  end.

Definition cmd_who (conn : nat) : M flow :=
  us <- gets users ;;
  response <- who_lines us 0 (lit "Online users:" ++ crlf) ;;
  send conn (Text response) ;;
  ret Continue.

Definition help_contributing : str :=
  lit "Contributions to this project are welcome. Please read the CONTRIBUTING.md file for more information." ++ crlf
  ++ lit "You can also visit the source code repository at: https://github.com/mindfulvector/Nayak-Server" ++ crlf
  ++ lit "If you have any questions, please contact us at nayak@fastmail.com" ++ crlf.

Definition help_commands : str :=
  lit "Available commands:" ++ crlf
  ++ lit "SEND <username> <message> - Send a message to a user" ++ crlf
  ++ lit "WHO - List all online users" ++ crlf
  ++ lit "HELP - Display this help message" ++ crlf
  ++ lit "HELP ABOUT - Display information about the server" ++ crlf
  ++ lit "QUIT - Disconnect from the server" ++ crlf
  ++ lit "TICKS - Display the current server tick count" ++ crlf
  ++ lit "TASKS - Display the current periodic tasks and their last run times" ++ crlf.

Definition help_not_found : str :=
  lit "ERROR: HELP topic not found. Some commands do not have additional documentation beyond the command definition in the HELP output. Type HELP for available commands and topics." ++ crlf.

Definition cmd_help (conn : nat) (command_parts : list str) : M flow :=
  (if (1 <? List.length command_parts)%nat then
     topic <- list_index command_parts 1 ;;
     if str_eqb topic (lit "CONTRIBUTING") then
       send conn (Text help_contributing)
     else if str_eqb topic (lit "ABOUT") then
       match json_encode (VDict server_metadata) with
       | Some response => send conn (Text response)
       | None => raise TypeError
       end
     else send conn (Text help_not_found)
   else send conn (Text help_commands)) ;;
  ret Continue.

Definition cmd_ticks (conn : nat) : M flow :=
  ticks <- gets server_ticks ;;
  send conn (Text (lit "OK: Server ticks: " ++ str_of_int ticks ++ crlf)) ;;
  ret Continue.

Definition tasks_lines (tasks : dict task) : str :=
  flat_map (fun item =>
              fst item ++ lit " - Interval: " ++ str_of_int (interval (snd item))
              ++ lit ", Last run: " ++ str_of_int (last_run (snd item)) ++ crlf)
           tasks.

Definition cmd_tasks (conn : nat) : M flow :=
  tasks <- gets period_tasks ;;
  send conn (Text (lit "Periodic tasks:" ++ crlf ++ tasks_lines tasks)) ;;
  ret Continue.

Definition cmd_quit (conn : nat) (username : str) : M flow :=
  set_user_field username (lit "conn") VNone ;;
  send conn (Text (lit "OK: Goodbye." ++ crlf)) ;;
  close conn ;;
  ret Break.

(** The [if]/[elif] chain on [command]. *)
Definition dispatch (conn : nat) (username : str) (timestamp : datetime)
    (command : str) (command_parts : list str) : M flow :=
  if str_eqb command (lit "SEND") then
    cmd_send conn username timestamp command_parts
  else if str_eqb command (lit "WHO") then cmd_who conn
  else if str_eqb command (lit "HELP") then cmd_help conn command_parts
  else if str_eqb command (lit "TICKS") then cmd_ticks conn
  else if str_eqb command (lit "TASKS") then cmd_tasks conn
  else if str_eqb command (lit "QUIT") then cmd_quit conn username
  else if negb (str_eqb command []) then
    send conn (Text (lit "ERROR: Command was not understood. Type HELP for available commands."
                     ++ crlf)) ;;
    ret Continue
  else ret Continue.

(** What [handle_client] does with [received_data] once the read loop is
    left: stamp, log, dispatch. *)
Definition process_line (conn : nat) (username : str) (received_data : str)
    : M flow :=
  timestamp <- now ;;
  set_user_field username (lit "last_active") (VStr (isoformat timestamp)) ;;
  let command_parts := split_space (strip received_data) in
  command <- list_index command_parts 0 ;;
  r <- user_record username ;;
  (if dict_mem (lit "commands") r then ret tt
   else set_user_field username (lit "commands") (VList [])) ;;
  commands <- user_field username (lit "commands") ;;
  commands' <- value_append commands
                 (VList [VStr (isoformat timestamp); VStr received_data]) ;;
  set_user_field username (lit "commands") commands' ;;
  dispatch conn username timestamp command command_parts.

(** One turn of the [while True] loop of [handle_client]: the tick stands
    outside the [try], the rest inside it. *)
Definition session_turn (conn : nat) (username : str) : M flow :=
  server_tick ;;
  try_except
    (pending <- gets (fun st => sk_in (sock_get conn (sockets st))) ;;
     received_data <- read_line (S (List.length pending)) conn [] ;;
     process_line conn username received_data)
    (fun e => print (PrintError e) ;; ret Break).

(** [turns] turns of the loop at most: [Break] when the loop was left,
    [Continue] when it is still running after them. *)
Fixpoint session_loop (turns : nat) (conn : nat) (username : str) : M flow :=
  match turns with
  | O => ret Continue
  | S turns' =>
      f <- session_turn conn username ;;
      match f with
      | Break => ret Break
      | Continue => session_loop turns' conn username
      end
  end.

Definition handle_client (turns : nat) (conn : nat) (username : str) : M flow :=
  t <- now ;;
  set_user_field username (lit "last_active") (VStr (isoformat t)) ;;
  send conn (Text (crlf ++ lit "User " ++ username ++ lit " logged in." ++ crlf)) ;;
  session_loop turns conn username.

(** ** [start_server] *)

(** IAC command and option constants. *)
Definition IAC : Z := 255.
Definition WILL : Z := 251.
Definition ECHO : Z := 1.

Definition generate_iac_packet (command option : Z) : bytes :=
  [IAC; command; option].

(** The loop [while i < len(raw_data)] of [start_server].  Here the
    decoding, the test [if not data: break], the echo and the accumulation
    stand inside the loop body: they run at every turn, on all of
    [processed_data] so far. *)
Fixpoint login_scrub_loop (fuel : nat) (conn : nat) (raw_data : bytes)
    (i : nat) (processed_data : bytes) (received_data : str) : M str :=
  match fuel with
  | O => ret received_data
  | S fuel' =>
      if (i <? List.length raw_data)%nat then
        server_tick ;;
        let step :=
          if nth i raw_data 0 =? 255 then ((i + 3)%nat, processed_data)
          else ((i + 1)%nat, processed_data ++ [nth i raw_data 0]) in
        match utf8_decode (snd step) with
        | None => raise UnicodeDecodeError
        | Some [] => ret received_data
        | Some data =>
            send conn (Text data) ;;
            login_scrub_loop fuel' conn raw_data (fst step) (snd step)
              (received_data ++ data)
        end
      else ret received_data
  end.

(** The loop [while not received_data.endswith("\n")] of [start_server];
    the same number of turns is enough ([read_login_fuel]). *)
Fixpoint read_login (fuel : nat) (conn : nat) (received_data : str) : M str :=
  match fuel with
  | O => ret received_data
  | S fuel' =>
      if endswith_nl received_data then ret received_data
      else
        server_tick ;;
        raw_data <- recv conn ;;
        match raw_data with
        | [] => ret received_data
        | _ :: _ =>
            received_data' <-
              login_scrub_loop (List.length raw_data) conn raw_data 0 []
                received_data ;;
            read_login fuel' conn received_data'
        end
  end.

(** How one turn of the accept loop ends: with [continue] after a
    rejection, without a line to process, or with a thread started on
    [handle_client(conn, username)]. *)
Inductive accepted :=
| Rejected
| NoLine
| Started (conn : nat) (username : str).

(** The record of a new user. *)
Definition new_user (conn : nat) (first_login last_active : datetime) : record :=
  [(lit "conn", VSocket conn);
   (lit "commands", VList []);
   (lit "messages_received", VList []);
   (lit "first_login", VStr (isoformat first_login));
   (lit "last_active", VStr (isoformat last_active))].

Definition reject (conn : nat) (message : string) : M accepted :=
  send conn (Text (lit message ++ crlf)) ;;
  close conn ;;
  ret Rejected.

(** The part of the accept loop under [if received_data:]. *)
Definition login (conn : nat) (received_data : str) : M accepted :=
  match received_data with
  | [] => ret NoLine
  | _ :: _ =>
      let cmd := split_space (strip received_data) in
      cmd0 <- list_index cmd 0 ;;
      if negb (str_eqb cmd0 (lit "LOGIN")) then
        reject conn "ERROR: You must first login to the server. Bye."
      else
        username <- list_index cmd 1 ;;
        if (List.length username <? 4)%nat then
          reject conn "ERROR: Username must be at least 4 characters long. Bye."
        else
          us <- gets users ;;
          if dict_mem username us then
            connected <- user_is_connected username ;;
            if negb connected then
              set_user_field username (lit "conn") (VSocket conn) ;;
              ret (Started conn username)
            else reject conn "ERROR: Username is already online. Bye."
          else
            first_login <- now ;;
            last_active <- now ;;
            modify (set_users (dict_set username
                                 (new_user conn first_login last_active))) ;;
            checkpoint ;;
            ret (Started conn username)
  end.

(** What the server sends on a connection it has just accepted. *)
Definition greet (conn : nat) : M unit :=
  send conn (Raw (generate_iac_packet WILL ECHO)) ;;
  name <- metadata "server_name" ;;
  send conn (Text (lit "Welcome to the " ++ name ++ lit "." ++ crlf)) ;;
  license <- metadata "server_license" ;;
  send conn (Text (lit "Server license: " ++ license ++ crlf)) ;;
  url <- metadata "server_license_url" ;;
  send conn (Text (lit "License URL: " ++ url ++ crlf)) ;;
  commercial <- metadata "commercial_license" ;;
  send conn (Text (lit "Alternative commercial licensing: " ++ commercial ++ crlf)) ;;
  commercial_url <- metadata "commercial_license_url" ;;
  send conn (Text (lit "Alternative commercial licensing URL: "
                   ++ commercial_url ++ crlf)) ;;
  send conn (Text (crlf ++ lit "Please login with the LOGIN command." ++ crlf)).

(** One turn of the accept loop, for the connection [accept()] returned. *)
Definition accept_turn (conn : nat) : M accepted :=
  greet conn ;;
  pending <- gets (fun st => sk_in (sock_get conn (sockets st))) ;;
  received_data <- read_login (S (List.length pending)) conn [] ;;
  login conn received_data.

(** The accept loop over the connections that arrive, in order; it returns
    the sessions it started.  Nothing in [start_server] catches an
    exception: one that is raised ends the loop, and with it the acceptor. *)
Fixpoint start_server (incoming : list nat) : M (list (nat * str)) :=
  match incoming with
  | [] => server_tick ;; ret []
  | conn :: rest =>
      server_tick ;;
      a <- accept_turn conn ;;
      started <- start_server rest ;;
      ret (match a with
           | Started c username => (c, username) :: started
           | _ => started
           end)
  end.

(** ** Definitions used by the statements *)

(** The state after the [else] branch of [user_is_connected]. *)
Definition cleared (username : str) (r : record) (st : state) : state :=
  set_users (dict_set username (dict_set (lit "conn") VNone r)) st.

(** A [conn] field that [user_is_connected] can test: missing, [None] or a
    socket object. *)
Definition conn_ok (r : record) : bool :=
  match dict_get (lit "conn") r with
  | None | Some VNone | Some (VSocket _) => true
  | Some _ => false
  end.

Definition wf_users (us : dict record) : bool :=
  forallb (fun ur => conn_ok (snd ur)) us.

(** No periodic task has interval zero. *)
Definition wf_tasks (ts : dict task) : bool :=
  forallb (fun nt => negb (interval (snd nt) =? 0)) ts.

(** The states the server runs in. *)
Definition settled (st : state) : bool :=
  wf_users (users st) && wf_tasks (period_tasks st).

(** A dictionary holds a key once. *)
Fixpoint unique_keys {V} (d : dict V) : bool :=
  match d with
  | [] => true
  | (k, _) :: d' => negb (dict_mem k d') && unique_keys d'
  end.

(** The directory and every record in it are dictionaries. *)
Definition proper_directory (us : dict record) : bool :=
  unique_keys us && forallb (fun ur => unique_keys (snd ur)) us.

(** What a liveness check may have done to a directory: each record is as
    it was, or has had its [conn] field set to [None]. *)
Definition calmed (us us' : dict record) : Prop :=
  Forall2 (fun ur ur' =>
             fst ur' = fst ur
             /\ (snd ur' = snd ur
                 \/ snd ur' = dict_set (lit "conn") VNone (snd ur)))
          us us'.

(** Sockets keep their descriptor and their pending input. *)
Definition socks_frame (st st' : state) : Prop :=
  forall c,
    fileno (sock_get c (sockets st')) = fileno (sock_get c (sockets st))
    /\ sk_in (sock_get c (sockets st')) = sk_in (sock_get c (sockets st)).

(** What ticks and checkpoints leave in place. *)
Definition quiet (st st' : state) : Prop :=
  calmed (users st) (users st') /\ socks_frame st st'.

(** What [checkpoint] keeps of one field: nothing of [conn], the ISO text of
    a [datetime], the value itself when [msgpack] can pack it. *)
Definition kept_value (key : str) (v : value) : option value :=
  if str_eqb (lit "conn") key then None
  else match v with
       | VDatetime t => Some (VStr (isoformat t))
       | _ => if plain_data v then Some v else None
       end.

(** [serializable_user] after the loop over the fields [items]. *)
Fixpoint kept_fields (items : list (str * value)) (acc : record) : record :=
  match items with
  | [] => acc
  | (key, v) :: items' =>
      kept_fields items'
        (match kept_value key v with
         | Some x => dict_set key x acc
         | None => acc
         end)
  end.

(** What [is_serializable] prints during that loop. *)
Fixpoint complaints (items : list (str * value)) : list event :=
  match items with
  | [] => []
  | (key, v) :: items' =>
      (if str_eqb (lit "conn") key then []
       else match v with
            | VDatetime _ => []
            | _ => if plain_data v then [] else [PrintCannotSerialize v]
            end) ++ complaints items'
  end.

(** [serializable_users] after the loop over the users [us]. *)
Fixpoint kept_users (us : list (str * record)) (acc : dict record)
    : dict record :=
  match us with
  | [] => acc
  | (user, r) :: us' => kept_users us' (dict_set user (kept_fields r []) acc)
  end.

Definition all_complaints (us : list (str * record)) : list event :=
  flat_map (fun ur => complaints (snd ur)) us.

(** The byte-stream scrubber as the specification words it: skip the marker
    and the next two bytes, stop when fewer than two follow, pass every
    other byte through. *)
Fixpoint scrub_spec (raw : bytes) : bytes :=
  match raw with
  | [] => []
  | b :: rest =>
      if b =? 255 then
        match rest with
        | _ :: _ :: rest' => scrub_spec rest'
        | _ => []
        end
      else b :: scrub_spec rest
  end.

(** The input of the scrubbing property: text segments, each followed by a
    marker byte and two more bytes, then a last piece of text. *)
Definition interleaved (segs : list (bytes * (Z * Z))) (tail : bytes) : bytes :=
  flat_map (fun s => fst s ++ [255; fst (snd s); snd (snd s)]) segs ++ tail.

Definition texts (segs : list (bytes * (Z * Z))) : bytes :=
  flat_map (fun s => fst s) segs.

Definition marker_free (text : bytes) : bool :=
  forallb (fun b => negb (b =? 255)) text.

(** Whether the string [s] is stored anywhere inside the value [v]. *)
Fixpoint holds_str (s : str) (v : value) : bool :=
  match v with
  | VStr t => str_eqb s t
  | VList l => existsb (holds_str s) l
  | VDict d => existsb (fun kv => holds_str s (snd kv)) d
  | _ => false
  end.

(** [n] calls of [server_tick] in a row. *)
Fixpoint tick_times (n : nat) : M unit :=
  match n with
  | O => ret tt
  | S n' => server_tick ;; tick_times n'
  end.

(** All non-empty prefixes of a string, shortest first. *)
Fixpoint prefixes (s : str) : list str :=
  match s with
  | [] => []
  | c :: r => [c] :: map (cons c) (prefixes r)
  end.

(** The globals that neither a liveness check nor a send touches. *)
Definition rest_of (st : state) :=
  (server_ticks st, period_tasks st, checkpoint_file st, wall st, clock st,
   console st).

(** What is packed holds plain data only. *)
Definition all_plain (su : dict record) : bool :=
  forallb (fun ur => forallb (fun kv => plain_data (snd kv)) (snd ur)) su.

(** Statements that only print. *)
Definition only_prints (m : M unit) : Prop :=
  forall st, exists evs, m st = (Ok tt, set_console (fun c => c ++ evs) st).

(** The record of [username] once [process_line] has stamped and logged
    the line [data] at time [t]; [l] is the command log so far. *)
Definition logged_record (r : record) (l : list value) (t : datetime)
    (data : str) : record :=
  dict_set (lit "commands")
    (VList (l ++ [VList [VStr (isoformat t); VStr data]]))
    (dict_set (lit "last_active") (VStr (isoformat t)) r).

(** The command log of a record: a list, or missing (then it is created
    empty). *)
Definition command_log (r : record) (l : list value) : Prop :=
  dict_get (lit "commands") r = Some (VList l)
  \/ (dict_get (lit "commands") r = None /\ l = []).

(** The session of [username] on [conn] once its peer has closed: the
    socket is still open on the server's side, nothing is left to read, and
    the user's command log holds [l]. *)
Definition peer_gone (conn : nat) (username : str) (l : list value)
    (st : state) : Prop :=
  settled st = true
  /\ fileno (sock_get conn (sockets st)) <> -1
  /\ sk_in (sock_get conn (sockets st)) = []
  /\ exists r, dict_get username (users st) = Some r
               /\ dict_get (lit "commands") r = Some (VList l).

(** No record of the directory has a [conn] key. *)
Definition no_conn (su : dict record) : bool :=
  forallb (fun ur => negb (dict_mem (lit "conn") (snd ur))) su.

(** The state after [conn.send(p)] on the open socket [c]. *)
Definition sent (c : nat) (p : packet) (st : state) : state :=
  set_sockets
    (sock_set c
       {| fileno := fileno (sock_get c (sockets st));
          sk_in := sk_in (sock_get c (sockets st));
          sk_out := sk_out (sock_get c (sockets st)) ++ [p] |})
    st.

(** ** Example states *)

Definition at_noon : datetime :=
  {| dt_str := lit "2024-05-01 12:00:00"; isoformat := lit "2024-05-01T12:00:00" |}.

Definition noon_wall : nat -> datetime := fun _ => at_noon.

Definition open_socket (fd : Z) (pending : list bytes) : socket :=
  {| fileno := fd; sk_in := pending; sk_out := [] |}.

(** The record of a user that logged in at noon on socket [c]. *)
Definition noon_user (c : nat) : record := new_user c at_noon at_noon.

(** [alice] on socket 1 and [bob] on socket 2, both connected; [pending] is
    what [bob]'s client has sent and the server has not read yet. *)
Definition alice_and_bob (pending : list bytes) : state :=
  {| users := [(lit "alice", noon_user 1); (lit "bob", noon_user 2)];
     server_ticks := 0;
     period_tasks := initial_tasks;
     checkpoint_file := NoFile;
     sockets := [(1%nat, open_socket 7 []); (2%nat, open_socket 8 pending)];
     wall := noon_wall; clock := 0; console := [] |}.

(** [alice] alone, her socket closed behind the server's back. *)
Definition alice_stale : state :=
  {| users := [(lit "alice", noon_user 1)];
     server_ticks := 0;
     period_tasks := initial_tasks;
     checkpoint_file := NoFile;
     sockets := [(1%nat, closed_socket)];
     wall := noon_wall; clock := 0; console := [] |}.

(** A server that has just started and accepts the connection on socket
    [c], on which [pending] arrives. *)
Definition fresh_server (c : nat) (pending : list bytes) : state :=
  {| users := []; server_ticks := 0; period_tasks := initial_tasks;
     checkpoint_file := NoFile;
     sockets := [(c, open_socket 7 pending)];
     wall := noon_wall; clock := 0; console := [] |}.

(** [alice] connected, with one message in her inbox and one command in
    her log. *)
Definition alice_with_mail : state :=
  {| users :=
       [(lit "alice",
         [(lit "conn", VSocket 1);
          (lit "commands",
             VList [VList [VStr (isoformat at_noon); VStr (lit "WHO" ++ [10])]]);
          (lit "messages_received", VList [inbox_entry at_noon (lit "hello")]);
          (lit "first_login", VStr (isoformat at_noon));
          (lit "last_active", VStr (isoformat at_noon))])];
     server_ticks := 0;
     period_tasks := initial_tasks;
     checkpoint_file := NoFile;
     sockets := [(1%nat, open_socket 7 [])];
     wall := noon_wall; clock := 0; console := [] |}.

(** A client that sends the text [s] one byte per packet, as a terminal in
    character mode does. *)
Definition typed (s : str) : list bytes := map (fun c => [c]) s.

(** A server that has just started, with two connections waiting to be
    accepted: socket 0, on which [p0] arrives, and socket 1, on which [p1]
    arrives. *)
Definition two_clients (p0 p1 : list bytes) : state :=
  {| users := []; server_ticks := 0; period_tasks := initial_tasks;
     checkpoint_file := NoFile;
     sockets := [(0%nat, open_socket 7 p0); (1%nat, open_socket 8 p1)];
     wall := noon_wall; clock := 0; console := [] |}.

(** A token: a string without a space. *)
Definition space_free (w : str) : bool := forallb (fun c => negb (c =? 32)) w.

(** Bytes that are ASCII characters. *)
Definition ascii_bytes (bs : bytes) : bool :=
  forallb (fun b => (0 <=? b) && (b <? 128)) bs.

(** What the read loop of [handle_client] makes of the buffer [d] and the
    pending chunks: it takes chunks, appending each to the buffer, until the
    buffer ends with a newline or a chunk is empty or none is left; the
    result is the buffer and the chunks still pending. *)
Fixpoint assemble (chunks : list bytes) (d : str) : str * list bytes :=
  match chunks with
  | [] => (d, [])
  | c :: cs =>
      if endswith_nl d then (d, c :: cs)
      else match c with
           | [] => (d, cs)
           | _ :: _ => assemble cs (d ++ c)
           end
  end.

(** The state once [process_line] has stamped the record [r] of [username]
    and logged the line [data] in it; [l] is the command log so far. *)
Definition logged (username : str) (r : record) (l : list value) (data : str)
    (st : state) : state :=
  set_users (dict_set username (logged_record r l (wall st (clock st)) data))
    (set_clock S st).

(** The commands that the [if]/[elif] chain of [handle_client] knows. *)
Definition known_commands : list str :=
  [lit "SEND"; lit "WHO"; lit "HELP"; lit "TICKS"; lit "TASKS"; lit "QUIT"].

(** The [except] clause of the session loop. *)
Definition session_except (e : exn) : M flow :=
  print (PrintError e) ;; ret Break.

(** A server restarted from the checkpoint that [alice_with_mail] wrote:
    the directory is loaded from the file, then [alice] logs in again on
    socket 1 and a new user [bobby] logs in on socket 2. *)
Definition after_restart : state :=
  match checkpoint_file (snd (checkpoint alice_with_mail)) with
  | Packed saved =>
      let boot :=
        set_sockets (fun _ => [(1%nat, open_socket 7 []); (2%nat, open_socket 8 [])])
          (initial_state (Packed saved) noon_wall) in
      let booted := snd (load_checkpoint boot) in
      let alice_back := snd (login 1 (lit "LOGIN alice" ++ [10]) booted) in
      snd (login 2 (lit "LOGIN bobby" ++ [10]) alice_back)
  | _ => initial_state NoFile noon_wall
  end.

(** The state after [conn.close()] on the socket [c]. *)
Definition closed (c : nat) (st : state) : state :=
  set_sockets
    (sock_set c
       {| fileno := -1;
          sk_in := sk_in (sock_get c (sockets st));
          sk_out := sk_out (sock_get c (sockets st)) |})
    st.

(** What [checkpoint] stores of the record of a new user. *)
Definition saved_new_user (first_login last_active : datetime) : record :=
  [(lit "commands", VList []);
   (lit "messages_received", VList []);
   (lit "first_login", VStr (isoformat first_login));
   (lit "last_active", VStr (isoformat last_active))].

(** The packets of the greeting, in the order [start_server] sends them. *)
Definition greeting : list packet :=
  [Raw [255; 251; 1];
   Text (lit "Welcome to the Nayak Server." ++ crlf);
   Text (lit "Server license: GPL v3" ++ crlf);
   Text (lit "License URL: https://www.gnu.org/licenses/gpl-3.0.en.html" ++ crlf);
   Text (lit "Alternative commercial licensing: Contact us at nayak@fastmail.com for alternative commercial licensing." ++ crlf);
   Text (lit "Alternative commercial licensing URL: mailto:nayak@fastmail.com" ++ crlf);
   Text (crlf ++ lit "Please login with the LOGIN command." ++ crlf)].

(** The state after the packets [ps] have been sent on the open socket
    [c]. *)
Definition sent_all (c : nat) (ps : list packet) (st : state) : state :=
  fold_left (fun s p => sent c p s) ps st.

(** A statement respects the relation [R] when, whatever it returns or
    raises, the state it leaves is related to the state it started in. *)
Definition respects (R : state -> state -> Prop) {A} (m : M A) : Prop :=
  forall st x st', m st = (x, st') -> R st st'.

(** What a tick or a checkpoint may change around a connection: sockets
    keep their descriptor and their pending input, what was sent is only
    added to, and the record of a user whose connection is live is left
    exactly as it is. *)
Definition undisturbed (st st' : state) : Prop :=
  socks_frame st st'
  /\ (forall c, exists more,
        sk_out (sock_get c (sockets st'))
        = sk_out (sock_get c (sockets st)) ++ more)
  /\ (forall u r c,
        dict_get u (users st) = Some r ->
        dict_get (lit "conn") r = Some (VSocket c) ->
        fileno (sock_get c (sockets st)) <> -1 ->
        dict_get u (users st') = Some r).

(** The line that the verification of [checkpoint] prints for a field of
    the live record that the packed record does not hold as it is. *)
Definition verify_complaint (t : datetime) (u k : str) (v : value) : event :=
  match v with
  | VDatetime _ => PrintDoesNotMatch t u k
  | _ => PrintDoesNotExist t u k
  end.

(** A record as a checkpoint file holds it: each key once, no [conn], plain
    data only. *)
Definition restorable (q : record) : bool :=
  unique_keys q
  && forallb (fun kv => negb (str_eqb (lit "conn") (fst kv)) && plain_data (snd kv)) q.

(** The list under the key [k] has only been added to, at its end. *)
Definition grown (k : str) (r r' : record) : Prop :=
  forall l, dict_get k r = Some (VList l) ->
    exists more, dict_get k r' = Some (VList (l ++ more)).

(** What stays of a record: the time of the first login, and every entry
    of the command log and of the inbox, in order. *)
Definition record_persists (r r' : record) : Prop :=
  dict_get (lit "first_login") r' = dict_get (lit "first_login") r
  /\ grown (lit "commands") r r'
  /\ grown (lit "messages_received") r r'.

(** What stays of the directory: every user, with what stays of the
    record. *)
Definition persists (st st' : state) : Prop :=
  forall u r, dict_get u (users st) = Some r ->
    exists r', dict_get u (users st') = Some r' /\ record_persists r r'.

(** * Properties *)

(** ** Strings and dictionaries *)

Lemma str_eqb_eq (a b : str) : str_eqb a b = true <-> a = b.
Proof.
  revert b; induction a as [|x a IH]; intros [|y b]; simpl;
    try (split; (discriminate || reflexivity)).
  rewrite andb_true_iff, Z.eqb_eq, IH.
  split; [intros [-> ->]; reflexivity | intros H; inversion H; auto].
Qed.

Lemma str_eqb_refl (a : str) : str_eqb a a = true.
Proof. apply str_eqb_eq; reflexivity. Qed.

Lemma str_eqb_neq (a b : str) : str_eqb a b = false <-> a <> b.
Proof.
  rewrite <- str_eqb_eq. destruct (str_eqb a b); split; congruence.
Qed.

Lemma str_eqb_sym (a b : str) : str_eqb a b = str_eqb b a.
Proof.
  destruct (str_eqb a b) eqn:E; symmetry.
  - apply str_eqb_eq in E; subst; apply str_eqb_refl.
  - apply str_eqb_neq; apply str_eqb_neq in E; congruence.
Qed.

Section Dict.
Context {V : Type}.
Implicit Types (d : dict V) (k : str) (v : V).

Lemma dict_get_set_eq k v d : dict_get k (dict_set k v d) = Some v.
Proof.
  induction d as [|[k' v'] d IH]; simpl.
  - rewrite str_eqb_refl; reflexivity.
  - destruct (str_eqb k k') eqn:E; simpl; rewrite E; auto.
Qed.

Lemma dict_get_set_neq k k' v d :
  str_eqb k k' = false -> dict_get k (dict_set k' v d) = dict_get k d.
Proof.
  intros N; induction d as [|[k2 v2] d IH]; simpl.
  - rewrite N; reflexivity.
  - destruct (str_eqb k' k2) eqn:E; simpl.
    + apply str_eqb_eq in E; subst k2. rewrite N; reflexivity.
    + rewrite IH; reflexivity.
Qed.

Lemma dict_keys_set_present k v v0 d :
  dict_get k d = Some v0 -> dict_keys (dict_set k v d) = dict_keys d.
Proof.
  unfold dict_keys; induction d as [|[k' v'] d IH]; simpl; [discriminate|].
  destruct (str_eqb k k') eqn:E; simpl; intros H; [reflexivity|].
  rewrite IH; auto.
Qed.

Lemma dict_get_of_key k d :
  In k (dict_keys d) -> exists v, dict_get k d = Some v.
Proof.
  unfold dict_keys; induction d as [|[k' v'] d IH]; simpl; [tauto|].
  intros [->|H].
  - rewrite str_eqb_refl; eauto.
  - destruct (str_eqb k k'); eauto.
Qed.

Lemma dict_get_In k v d : dict_get k d = Some v -> In (k, v) d.
Proof.
  induction d as [|[k' v'] d IH]; simpl; [discriminate|].
  destruct (str_eqb k k') eqn:E.
  - apply str_eqb_eq in E; subst; intros H; inversion H; auto.
  - auto.
Qed.

Lemma forallb_dict_set (P : str * V -> bool) k v d :
  (forall k', P (k', v) = P (k, v)) ->
  P (k, v) = true -> forallb P d = true -> forallb P (dict_set k v d) = true.
Proof.
  intros K Pv; induction d as [|[k' v'] d IH]; simpl.
  - rewrite Pv; auto.
  - rewrite andb_true_iff; intros [H1 H2].
    destruct (str_eqb k k'); simpl.
    + rewrite K, Pv, H2; auto.
    + rewrite H1, IH; auto.
Qed.
End Dict.

Lemma sock_get_set_eq c s ss : sock_get c (sock_set c s ss) = s.
Proof.
  induction ss as [|[c' s'] ss IH]; simpl.
  - rewrite Nat.eqb_refl; reflexivity.
  - destruct (c =? c')%nat eqn:E; simpl; rewrite E; auto.
Qed.

Lemma sock_get_set_neq c c' s ss :
  c <> c' -> sock_get c (sock_set c' s ss) = sock_get c ss.
Proof.
  intros N; induction ss as [|[c2 s2] ss IH]; simpl.
  - apply Nat.eqb_neq in N; rewrite N; reflexivity.
  - destruct (c' =? c2)%nat eqn:E; simpl.
    + apply Nat.eqb_eq in E; subst c2. apply Nat.eqb_neq in N; rewrite N; auto.
    + rewrite IH; reflexivity.
Qed.

(** ** Running statements *)

Lemma bind_ok {A B} (m : M A) (k : A -> M B) st a st' :
  m st = (Ok a, st') -> bind m k st = k a st'.
Proof. unfold bind; intros ->; reflexivity. Qed.

Lemma bind_raise {A B} (m : M A) (k : A -> M B) st e st' :
  m st = (Raise e, st') -> bind m k st = (Raise e, st').
Proof. unfold bind; intros ->; reflexivity. Qed.

(** Runs the first statement of a sequence on a concrete state. *)
Ltac run_head :=
  match goal with
  | |- context [bind ?m ?k ?s] =>
      let r := eval vm_compute in (m s) in
      let E := fresh "E" in
      assert (E : m s = r) by (vm_compute; reflexivity);
      first [ rewrite (bind_ok _ _ _ _ _ E) | rewrite (bind_raise _ _ _ _ _ E) ];
      clear E
  end.

(** ** [user_is_connected] *)

Lemma user_is_connected_live st username r c :
  dict_get username (users st) = Some r ->
  dict_get (lit "conn") r = Some (VSocket c) ->
  fileno (sock_get c (sockets st)) <> -1 ->
  user_is_connected username st = (Ok true, st).
Proof.
  intros Hu Hc Hf. unfold user_is_connected, user_record, bind, gets, ret.
  simpl. rewrite Hu. simpl. rewrite Hc. simpl.
  apply Z.eqb_neq in Hf. rewrite Hf. reflexivity.
Qed.

Lemma user_is_connected_dead st username r :
  dict_get username (users st) = Some r ->
  (dict_get (lit "conn") r = None
   \/ dict_get (lit "conn") r = Some VNone
   \/ exists c, dict_get (lit "conn") r = Some (VSocket c)
                /\ fileno (sock_get c (sockets st)) = -1) ->
  user_is_connected username st = (Ok false, cleared username r st).
Proof.
  intros Hu Hc.
  unfold user_is_connected, set_user_field, user_record, bind, gets, ret, modify.
  simpl. rewrite Hu. simpl.
  destruct Hc as [Hc|[Hc|[c [Hc Hf]]]]; rewrite Hc; simpl;
    try rewrite Hu; try reflexivity.
  apply Z.eqb_eq in Hf. rewrite Hf. simpl. rewrite Hu. reflexivity.
Qed.

Lemma user_is_connected_true_inv st username r st' :
  dict_get username (users st) = Some r ->
  user_is_connected username st = (Ok true, st') ->
  st' = st /\ exists c, dict_get (lit "conn") r = Some (VSocket c)
                        /\ fileno (sock_get c (sockets st)) <> -1.
Proof.
  intros Hu.
  unfold user_is_connected, set_user_field, user_record, bind, gets, ret, modify,
    raise.
  simpl. rewrite Hu. simpl.
  destruct (dict_get (lit "conn") r) as [[| | | | |c]|]; simpl;
    try rewrite Hu; try discriminate.
  destruct (fileno (sock_get c (sockets st)) =? -1) eqn:E; simpl;
    try rewrite Hu; try discriminate.
  intros H; inversion H; subst. split; [reflexivity|].
  exists c; split; [reflexivity|]. apply Z.eqb_neq; assumption.
Qed.

Lemma cleared_conn username r st :
  exists r', dict_get username (users (cleared username r st)) = Some r'
             /\ dict_get (lit "conn") r' = Some VNone.
Proof.
  eexists; split; simpl.
  - apply dict_get_set_eq.
  - apply dict_get_set_eq.
Qed.

(** ** What liveness checks leave in place *)

Lemma dict_set_twice {V} (k : str) (v : V) (d : dict V) :
  dict_set k v (dict_set k v d) = dict_set k v d.
Proof.
  induction d as [|[k' v'] d IH]; simpl.
  - rewrite str_eqb_refl; reflexivity.
  - destruct (str_eqb k k') eqn:E; simpl; rewrite E; [reflexivity|].
    rewrite IH; reflexivity.
Qed.

Lemma calmed_refl us : calmed us us.
Proof. induction us; constructor; auto. Qed.

Lemma calmed_trans us1 us2 us3 :
  calmed us1 us2 -> calmed us2 us3 -> calmed us1 us3.
Proof.
  intros H; revert us3; induction H as [|a b l l' [Hk Hr] _ IH]; intros us3 H3.
  - inversion H3; constructor.
  - inversion H3 as [|b' c l2 l3 [Hk' Hr'] Ht]; subst.
    constructor; [|apply IH; assumption].
    split; [congruence|].
    destruct Hr as [Hr|Hr], Hr' as [Hr'|Hr']; rewrite Hr', ?Hr; auto.
    right; apply dict_set_twice.
Qed.

Lemma calmed_clear us username r :
  dict_get username us = Some r ->
  calmed us (dict_set username (dict_set (lit "conn") VNone r) us).
Proof.
  induction us as [|[k r'] us IH]; simpl; [discriminate|].
  destruct (str_eqb username k) eqn:E; intros H.
  - inversion H; subst. constructor; [simpl; auto | apply calmed_refl].
  - constructor; [simpl; auto | apply IH; assumption].
Qed.

Lemma calmed_keys us us' : calmed us us' -> dict_keys us' = dict_keys us.
Proof.
  unfold dict_keys; induction 1 as [|a b l l' [Hk _] _ IH]; simpl;
    [reflexivity | f_equal; assumption].
Qed.

Lemma calmed_get us us' username r :
  calmed us us' -> dict_get username us = Some r ->
  exists r', dict_get username us' = Some r'
             /\ (r' = r \/ r' = dict_set (lit "conn") VNone r).
Proof.
  induction 1 as [|[k a] [k' b] l l' [Hk Hr] _ IH]; simpl in *; [discriminate|].
  subst k'. destruct (str_eqb username k); [|assumption].
  intros H; inversion H; subst. eauto.
Qed.

Lemma conn_ok_cleared r : conn_ok (dict_set (lit "conn") VNone r) = true.
Proof. unfold conn_ok; rewrite dict_get_set_eq; reflexivity. Qed.

Lemma calmed_wf us us' : calmed us us' -> wf_users us = true -> wf_users us' = true.
Proof.
  unfold wf_users; induction 1 as [|a b l l' [_ Hr] _ IH]; simpl; auto.
  rewrite !andb_true_iff; intros [H1 H2]; split; auto.
  destruct Hr as [->| ->]; auto using conn_ok_cleared.
Qed.

Lemma calmed_field us us' username r k :
  calmed us us' -> dict_get username us = Some r ->
  str_eqb k (lit "conn") = false ->
  exists r', dict_get username us' = Some r' /\ dict_get k r' = dict_get k r.
Proof.
  intros C G N. destruct (calmed_get _ _ _ _ C G) as (r' & G' & [->| ->]); eauto.
  eexists; split; [eassumption|]. apply dict_get_set_neq; assumption.
Qed.

Lemma wf_users_get us username r :
  wf_users us = true -> dict_get username us = Some r -> conn_ok r = true.
Proof.
  unfold wf_users; rewrite forallb_forall; intros W G.
  apply (W (username, r)), dict_get_In, G.
Qed.

Lemma socks_frame_refl st : socks_frame st st.
Proof. intros c; auto. Qed.

Lemma socks_frame_trans st1 st2 st3 :
  socks_frame st1 st2 -> socks_frame st2 st3 -> socks_frame st1 st3.
Proof.
  intros H1 H2 c. destruct (H1 c), (H2 c); split; congruence.
Qed.

Lemma quiet_refl st : quiet st st.
Proof. split; [apply calmed_refl | apply socks_frame_refl]. Qed.

Lemma quiet_trans st1 st2 st3 : quiet st1 st2 -> quiet st2 st3 -> quiet st1 st3.
Proof.
  intros [A B] [C D]; split;
    [eapply calmed_trans | eapply socks_frame_trans]; eauto.
Qed.

(** [send] on an open socket. *)
Lemma send_open st c p :
  fileno (sock_get c (sockets st)) <> -1 ->
  exists st', send c p st = (Ok tt, st')
              /\ users st' = users st /\ socks_frame st st'
              /\ rest_of st' = rest_of st
              /\ sk_out (sock_get c (sockets st'))
                 = sk_out (sock_get c (sockets st)) ++ [p].
Proof.
  intros Hf. unfold send, bind, gets, modify. simpl.
  apply Z.eqb_neq in Hf; rewrite Hf. eexists; split; [reflexivity|].
  simpl. split; [reflexivity|]. split; [|split; [reflexivity|]].
  - intros c'. simpl. destruct (Nat.eq_dec c' c) as [->|N].
    + rewrite sock_get_set_eq; split; reflexivity.
    + rewrite sock_get_set_neq by assumption; split; reflexivity.
  - rewrite sock_get_set_eq; reflexivity.
Qed.

(** A liveness check on a well-formed directory never raises. *)
Lemma user_is_connected_total st username r :
  dict_get username (users st) = Some r -> conn_ok r = true ->
  (user_is_connected username st = (Ok true, st)
   /\ exists c, dict_get (lit "conn") r = Some (VSocket c)
                /\ fileno (sock_get c (sockets st)) <> -1)
  \/ user_is_connected username st = (Ok false, cleared username r st).
Proof.
  intros G W. unfold conn_ok in W.
  destruct (dict_get (lit "conn") r) as [v|] eqn:E.
  - destruct v; try discriminate.
    + right; apply user_is_connected_dead; auto.
    + destruct (Z.eq_dec (fileno (sock_get c (sockets st))) (-1)) as [F|F].
      * right; apply user_is_connected_dead; eauto.
      * left; split; eauto using user_is_connected_live.
  - right; apply user_is_connected_dead; auto.
Qed.

(** ** [checkpoint] never raises on a well-formed directory *)

Lemma notify_ok st timestamp k r :
  dict_get k (users st) = Some r -> conn_ok r = true ->
  exists st', notify timestamp k st = (Ok tt, st')
              /\ quiet st st' /\ rest_of st' = rest_of st.
Proof.
  intros G W. unfold notify.
  destruct (user_is_connected_total st k r G W) as [[E (c & Hc & Hf)]|E].
  - rewrite (bind_ok _ _ _ _ _ E).
    assert (F : user_field k (lit "conn") st = (Ok (VSocket c), st)).
    { unfold user_field, user_record, bind, gets, ret. simpl.
      rewrite G. simpl. rewrite Hc. reflexivity. }
    rewrite (bind_ok _ _ _ _ _ F). simpl.
    destruct (send_open st c (checkpoint_notice timestamp) Hf)
      as (st' & S & U & Fr & R & _).
    exists st'. split; [exact S|]. split; [|exact R].
    split; [rewrite U; apply calmed_refl | exact Fr].
  - rewrite (bind_ok _ _ _ _ _ E). eexists; split; [reflexivity|].
    split; [|reflexivity].
    split; [apply calmed_clear; assumption | intros c; split; reflexivity].
Qed.

Lemma notify_all_ok timestamp keys : forall st,
  wf_users (users st) = true ->
  (forall k, In k keys -> In k (dict_keys (users st))) ->
  exists st', for_each keys (notify timestamp) st = (Ok tt, st')
              /\ quiet st st' /\ rest_of st' = rest_of st.
Proof.
  induction keys as [|k keys IH]; intros st W K; simpl.
  - exists st. split; [reflexivity|]. split; [apply quiet_refl | reflexivity].
  - destruct (dict_get_of_key k (users st)) as (r & G); [apply K; left; auto|].
    destruct (notify_ok st timestamp k r G (wf_users_get _ _ _ W G))
      as (st1 & E1 & Q1 & R1).
    rewrite (bind_ok _ _ _ _ _ E1).
    destruct (IH st1) as (st2 & E2 & Q2 & R2).
    + eapply calmed_wf; [apply Q1 | exact W].
    + intros k' Hk'. rewrite (calmed_keys _ _ (proj1 Q1)). apply K; right; auto.
    + exists st2. split; [exact E2|].
      split; [eapply quiet_trans; eauto | congruence].
Qed.

(** The two serialization loops only print. *)
Lemma set_console_nil st : set_console (fun c => c ++ []) st = st.
Proof. destruct st; unfold set_console; simpl. rewrite app_nil_r; reflexivity. Qed.

Lemma set_console_app a b st :
  set_console (fun c => c ++ b) (set_console (fun c => c ++ a) st)
  = set_console (fun c => c ++ (a ++ b)) st.
Proof. unfold set_console; simpl. rewrite <- app_assoc; reflexivity. Qed.

Lemma is_serializable_run v st :
  is_serializable v st
  = (Ok (plain_data v),
     set_console
       (fun c => c ++ if plain_data v then [] else [PrintCannotSerialize v]) st).
Proof.
  unfold is_serializable. destruct (plain_data v).
  - rewrite set_console_nil; reflexivity.
  - reflexivity.
Qed.

Lemma serialize_fields_run items : forall acc st,
  serialize_fields items acc st
  = (Ok (kept_fields items acc),
     set_console (fun c => c ++ complaints items) st).
Proof.
  induction items as [|[key v] items IH]; intros acc st;
    cbn [serialize_fields kept_fields complaints].
  - unfold ret. rewrite set_console_nil; reflexivity.
  - unfold kept_value. destruct (str_eqb (lit "conn") key).
    + rewrite IH; reflexivity.
    + destruct v; cbv beta iota;
        try (rewrite (bind_ok _ _ _ _ _ (is_serializable_run _ _));
             match goal with
             | |- context [plain_data ?v] => destruct (plain_data v)
             end;
             rewrite IH, set_console_app; reflexivity).
      rewrite IH; reflexivity.
Qed.

Lemma serialize_users_run us : forall acc st,
  serialize_users us acc st
  = (Ok (kept_users us acc),
     set_console (fun c => c ++ all_complaints us) st).
Proof.
  induction us as [|[user r] us IH]; intros acc st;
    cbn [serialize_users kept_users].
  - unfold ret, all_complaints. simpl. rewrite set_console_nil; reflexivity.
  - rewrite (bind_ok _ _ _ _ _ (serialize_fields_run _ _ _)).
    rewrite IH, set_console_app. reflexivity.
Qed.

Lemma plain_directory su : plain_data (directory_value su) = all_plain su.
Proof.
  unfold directory_value, all_plain. cbn [plain_data].
  induction su as [|[u r] su IH]; simpl; [reflexivity|].
  rewrite IH; reflexivity.
Qed.

Lemma kept_fields_plain items : forall acc,
  forallb (fun kv => plain_data (snd kv)) acc = true ->
  forallb (fun kv => plain_data (snd kv)) (kept_fields items acc) = true.
Proof.
  induction items as [|[key v] items IH]; intros acc P; cbn [kept_fields]; auto.
  apply IH. destruct (kept_value key v) as [x|] eqn:K; auto.
  apply forallb_dict_set; auto.
  unfold kept_value in K. destruct (str_eqb (lit "conn") key); [discriminate|].
  destruct v; try (destruct (plain_data _) eqn:Pv; inversion K; subst; exact Pv).
  inversion K; reflexivity.
Qed.

Lemma kept_users_plain us : forall acc,
  all_plain acc = true -> all_plain (kept_users us acc) = true.
Proof.
  induction us as [|[u r] us IH]; intros acc P; cbn [kept_users]; auto.
  apply IH. apply forallb_dict_set; auto.
  apply kept_fields_plain; reflexivity.
Qed.

(** A liveness check changes nothing of what is packed or printed. *)
Lemma kept_fields_cleared r : forall acc,
  kept_fields (dict_set (lit "conn") VNone r) acc = kept_fields r acc.
Proof.
  induction r as [|[k v] r IH]; intros acc.
  - reflexivity.
  - cbn [dict_set]. destruct (str_eqb (lit "conn") k) eqn:E.
    + cbn [kept_fields]. unfold kept_value. rewrite E. reflexivity.
    + cbn [kept_fields]. rewrite IH. reflexivity.
Qed.

Lemma complaints_cleared r :
  complaints (dict_set (lit "conn") VNone r) = complaints r.
Proof.
  induction r as [|[k v] r IH].
  - reflexivity.
  - cbn [dict_set]. destruct (str_eqb (lit "conn") k) eqn:E.
    + cbn [complaints]. rewrite E. reflexivity.
    + cbn [complaints]. rewrite E, IH. reflexivity.
Qed.

Lemma kept_users_calmed us us' :
  calmed us us' -> forall acc, kept_users us' acc = kept_users us acc.
Proof.
  induction 1 as [|[u r] [u' r'] l l' [Hk Hr] _ IH]; intros acc; auto.
  simpl in Hk, Hr. subst u'. cbn [kept_users].
  destruct Hr as [->| ->]; rewrite ?kept_fields_cleared; apply IH.
Qed.

Lemma all_complaints_calmed us us' :
  calmed us us' -> all_complaints us' = all_complaints us.
Proof.
  unfold all_complaints.
  induction 1 as [|[u r] [u' r'] l l' [Hk Hr] _ IH]; auto.
  simpl in Hk, Hr. cbn [flat_map snd]. rewrite IH.
  destruct Hr as [->| ->]; rewrite ?complaints_cleared; reflexivity.
Qed.

Lemma only_prints_ret : only_prints (ret tt).
Proof. intros st; exists []. rewrite set_console_nil; reflexivity. Qed.

Lemma only_prints_print e : only_prints (print e).
Proof. intros st; exists [e]; reflexivity. Qed.

Lemma only_prints_for_each {A} (body : A -> M unit) l :
  (forall x, only_prints (body x)) -> only_prints (for_each l body).
Proof.
  intros B; induction l as [|x l IH]; cbn [for_each].
  - apply only_prints_ret.
  - intros st. destruct (B x st) as (e1 & E1).
    rewrite (bind_ok _ _ _ _ _ E1).
    destruct (IH (set_console (fun c => c ++ e1) st)) as (e2 & E2).
    rewrite E2, set_console_app. eauto.
Qed.

Lemma only_prints_verify_user timestamp packed_users item :
  only_prints (verify_user timestamp packed_users item).
Proof.
  destruct item as [username info]. unfold verify_user.
  destruct (dict_get username packed_users) as [packed_user|].
  - apply only_prints_for_each. intros [k v]. unfold verify_field.
    destruct (dict_get k packed_user) as [v'|].
    + destruct (negb (value_eqb v v'));
        [apply only_prints_print | apply only_prints_ret].
    + destruct (negb (str_eqb (lit "conn") k));
        [apply only_prints_print | apply only_prints_ret].
  - apply only_prints_print.
Qed.

Lemma checkpoint_ok st :
  wf_users (users st) = true ->
  exists st' evs,
    checkpoint st = (Ok tt, st')
    /\ quiet st st'
    /\ server_ticks st' = server_ticks st
    /\ period_tasks st' = period_tasks st
    /\ wall st' = wall st
    /\ checkpoint_file st' = Packed (kept_users (users st) [])
    /\ console st' = console st ++ evs
    /\ incl (all_complaints (users st)) evs.
Proof.
  intros W. unfold checkpoint.
  cbv [now].
  cbv [bind gets modify ret print]. cbv beta iota.
  set (t := wall st (clock st)).
  set (st1 := set_console (fun c => c ++ [PrintCheckpointTo t]) (set_clock S st)).
  destruct (notify_all_ok t (dict_keys (users st1)) st1) as (st2 & E2 & Q2 & R2);
    [exact W | auto |].
  rewrite E2, serialize_users_run.
  assert (K : kept_users (users st2) [] = kept_users (users st) [])
    by (apply kept_users_calmed, Q2).
  assert (C : all_complaints (users st2) = all_complaints (users st))
    by (apply all_complaints_calmed, Q2).
  rewrite K, C.
  unfold json_dumps, packb.
  rewrite plain_directory, kept_users_plain by reflexivity.
  cbv [ret unpackb set_checkpoint_file checkpoint_file]. cbv beta iota.
  unfold rest_of in R2. injection R2 as R21 R22 R23 R24 R25 R26.
  match goal with
  | |- context [let (_, _) := ?m ?s in _] =>
      assert (V : exists evs, m s = (Ok tt, set_console (fun c => c ++ evs) s))
  end.
  { destruct (kept_users (users st) []).
    - exists []. rewrite set_console_nil; reflexivity.
    - apply only_prints_for_each. intros x. apply only_prints_verify_user. }
  destruct V as (evs & V). rewrite V. clear V.
  eexists. eexists. split; [reflexivity|].
  cbn [users server_ticks period_tasks checkpoint_file sockets wall clock console
       set_console].
  split; [exact Q2|].
  split; [exact R21|]. split; [exact R22|]. split; [exact R24|].
  split; [reflexivity|].
  rewrite R26. rewrite <- !app_assoc.
  split; [reflexivity|].
  apply incl_appr, incl_appl, incl_refl.
Qed.

(** ** [server_tick] on a settled state *)

Lemma wf_tasks_get_interval tasks name info :
  wf_tasks tasks = true -> In (name, info) tasks -> interval info <> 0.
Proof.
  unfold wf_tasks; rewrite forallb_forall; intros W I.
  specialize (W _ I). simpl in W. apply negb_true_iff, Z.eqb_neq in W. exact W.
Qed.

Lemma run_tasks_ok tasks : forall st,
  wf_users (users st) = true ->
  wf_tasks tasks = true ->
  wf_tasks (period_tasks st) = true ->
  exists st', for_each tasks run_task st = (Ok tt, st')
              /\ quiet st st'
              /\ server_ticks st' = server_ticks st
              /\ wf_tasks (period_tasks st') = true.
Proof.
  induction tasks as [|[name info] tasks IH]; intros st Wu Wt Ws;
    cbn [for_each].
  - exists st. split; [reflexivity|]. split; [apply quiet_refl|]. auto.
  - assert (Ni : interval info <> 0)
      by (eapply wf_tasks_get_interval; [exact Wt | left; reflexivity]).
    assert (Wt' : wf_tasks tasks = true)
      by (unfold wf_tasks in *; simpl in Wt; apply andb_true_iff in Wt; tauto).
    assert (Step : exists st1, run_task (name, info) st = (Ok tt, st1)
                     /\ quiet st st1 /\ server_ticks st1 = server_ticks st
                     /\ wf_tasks (period_tasks st1) = true).
    { unfold run_task. cbv [bind gets modify ret]. cbv beta iota.
      apply Z.eqb_neq in Ni. rewrite Ni.
      destruct (server_ticks st mod interval info =? 0).
      - destruct (function info). cbv [call].
        match goal with
        | |- context [checkpoint ?s] => destruct (checkpoint_ok s Wu)
            as (st1 & evs & E & Q & T & P & _)
        end.
        exists st1. rewrite E. split; [reflexivity|]. split; [exact Q|].
        split; [exact T|]. rewrite P. cbn [period_tasks set_period_tasks].
        apply forallb_dict_set; auto. simpl. rewrite Ni; reflexivity.
      - exists st. split; [reflexivity|]. split; [apply quiet_refl|]. auto. }
    destruct Step as (st1 & E1 & Q1 & T1 & W1).
    rewrite (bind_ok _ _ _ _ _ E1).
    destruct (IH st1) as (st2 & E2 & Q2 & T2 & W2); auto.
    { eapply calmed_wf; [apply Q1 | exact Wu]. }
    exists st2. split; [exact E2|]. split; [eapply quiet_trans; eauto|].
    split; [congruence | exact W2].
Qed.

Lemma settled_parts st :
  settled st = true <->
  wf_users (users st) = true /\ wf_tasks (period_tasks st) = true.
Proof. unfold settled; apply andb_true_iff. Qed.

Lemma server_tick_ok st :
  settled st = true ->
  exists st', server_tick st = (Ok tt, st')
              /\ quiet st st'
              /\ server_ticks st' = server_ticks st + 1
              /\ settled st' = true.
Proof.
  intros S. apply settled_parts in S. destruct S as [Wu Wt].
  unfold server_tick. cbv [bind gets modify]. cbv beta iota.
  match goal with
  | |- context [for_each ?ts run_task ?s] =>
      destruct (run_tasks_ok ts s Wu Wt Wt) as (st' & E & Q & T & W)
  end.
  exists st'. rewrite E. split; [reflexivity|]. split; [exact Q|].
  split; [exact T|]. apply settled_parts. split; [|exact W].
  eapply calmed_wf; [apply Q | exact Wu].
Qed.

(** ** The scrubbing loop *)

Lemma scrub_spec_marker rest :
  scrub_spec (255 :: rest) = scrub_spec (skipn 2 rest).
Proof. destruct rest as [|x [|y rest]]; reflexivity. Qed.

Lemma skipn_step {A} (d : A) (l : list A) i :
  (i < List.length l)%nat -> skipn i l = nth i l d :: skipn (S i) l.
Proof.
  revert i; induction l as [|x l IH]; intros [|i] H; simpl in *;
    try lia; auto.
  apply IH; lia.
Qed.

Lemma scrub_loop_value fuel : forall raw i acc st v st',
  (List.length raw - i <= fuel)%nat ->
  scrub_loop fuel raw i acc st = (Ok v, st') ->
  v = acc ++ scrub_spec (skipn i raw).
Proof.
  induction fuel as [|fuel IH]; intros raw i acc st v st' F; cbn [scrub_loop].
  - intros H; inversion H; subst.
    rewrite skipn_all2 by lia. simpl. rewrite app_nil_r; reflexivity.
  - destruct (i <? List.length raw)%nat eqn:L.
    + apply Nat.ltb_lt in L. unfold bind at 1.
      destruct (server_tick st) as [[[]|e] st1]; [|discriminate].
      rewrite (skipn_step 0 raw i L).
      destruct (nth i raw 0 =? 255) eqn:B; intros H.
      * apply Z.eqb_eq in B. rewrite B, scrub_spec_marker, skipn_skipn.
        apply IH in H; [|lia]. rewrite H.
        replace (2 + S i)%nat with (i + 3)%nat by lia. reflexivity.
      * apply IH in H; [|lia]. rewrite H, <- app_assoc.
        cbn [scrub_spec app]. rewrite B.
        replace (S i) with (i + 1)%nat by lia. reflexivity.
    + apply Nat.ltb_ge in L. intros H; inversion H; subst.
      rewrite skipn_all2 by lia. simpl. rewrite app_nil_r; reflexivity.
Qed.

Lemma scrub_loop_ok fuel : forall raw i acc st,
  settled st = true ->
  exists v st', scrub_loop fuel raw i acc st = (Ok v, st')
                /\ quiet st st' /\ settled st' = true.
Proof.
  induction fuel as [|fuel IH]; intros raw i acc st S; cbn [scrub_loop].
  - exists acc, st. split; [reflexivity|]. split; [apply quiet_refl | exact S].
  - destruct (i <? List.length raw)%nat.
    + destruct (server_tick_ok st S) as (st1 & E1 & Q1 & _ & S1).
      rewrite (bind_ok _ _ _ _ _ E1).
      destruct (nth i raw 0 =? 255);
        match goal with
        | |- context [scrub_loop fuel raw ?j ?a st1] =>
            destruct (IH raw j a st1 S1) as (v & st2 & E2 & Q2 & S2)
        end;
        exists v, st2; (split; [exact E2|]);
        (split; [eapply quiet_trans; eauto | exact S2]).
    + exists acc, st. split; [reflexivity|].
      split; [apply quiet_refl | exact S].
Qed.

Lemma scrub_spec_text text rest :
  Forall (fun b => b <> 255) text ->
  scrub_spec (text ++ rest) = text ++ scrub_spec rest.
Proof.
  induction 1 as [|b text Hb _ IH]; simpl; [reflexivity|].
  apply Z.eqb_neq in Hb. rewrite Hb, IH. reflexivity.
Qed.

(** ** The user directory: liveness check *)

(** C9: for a username in the directory, [user_is_connected] returns true
    only if the record holds a connection handle whose descriptor is still
    valid (and then it changes nothing); when the handle is absent, [None]
    or a closed socket, it returns false and leaves the record with its
    connection field set to [None], the other fields as they were. *)
Theorem user_is_connected_spec (st : state) (username : str) (r : record) :
  dict_get username (users st) = Some r ->
  (forall st', user_is_connected username st = (Ok true, st') ->
     st' = st
     /\ exists c, dict_get (lit "conn") r = Some (VSocket c)
                  /\ fileno (sock_get c (sockets st)) <> -1)
  /\ (forall c, dict_get (lit "conn") r = Some (VSocket c) ->
        fileno (sock_get c (sockets st)) <> -1 ->
        user_is_connected username st = (Ok true, st))
  /\ (dict_get (lit "conn") r = None
      \/ dict_get (lit "conn") r = Some VNone
      \/ (exists c, dict_get (lit "conn") r = Some (VSocket c)
                    /\ fileno (sock_get c (sockets st)) = -1) ->
      exists st' r',
        user_is_connected username st = (Ok false, st')
        /\ dict_get username (users st') = Some r'
        /\ dict_get (lit "conn") r' = Some VNone
        /\ (forall k, str_eqb k (lit "conn") = false ->
              dict_get k r' = dict_get k r)
        /\ dict_keys (users st') = dict_keys (users st)
        /\ sockets st' = sockets st).
Proof.
  intros G. split; [|split].
  - intros st' E. eapply user_is_connected_true_inv; eauto.
  - intros c Hc Hf. eapply user_is_connected_live; eauto.
  - intros D. exists (cleared username r st), (dict_set (lit "conn") VNone r).
    split; [apply user_is_connected_dead; assumption|].
    split; [simpl; apply dict_get_set_eq|].
    split; [apply dict_get_set_eq|].
    split; [intros k N; apply dict_get_set_neq; assumption|].
    split; [|reflexivity].
    simpl. eapply dict_keys_set_present; eassumption.
Qed.

Lemma user_is_connected_spec_witness :
  dict_get (lit "alice") (users alice_stale) = Some (noon_user 1)
  /\ exists st' r',
       user_is_connected (lit "alice") alice_stale = (Ok false, st')
       /\ dict_get (lit "alice") (users st') = Some r'
       /\ dict_get (lit "conn") r' = Some VNone.
Proof.
  split; [reflexivity|].
  destruct (user_is_connected_spec alice_stale (lit "alice") (noon_user 1))
    as (_ & _ & H); [reflexivity|].
  destruct H as (st' & r' & E & G & C & _).
  - right; right. exists 1%nat. split; reflexivity.
  - exists st', r'. auto.
Defined.

(** ** The byte-stream scrubber *)

Lemma marker_free_Forall text :
  marker_free text = true -> Forall (fun b => b <> 255) text.
Proof.
  unfold marker_free; rewrite forallb_forall, Forall_forall.
  intros H b I. apply Z.eqb_neq, negb_true_iff, H, I.
Qed.

Lemma scrub_spec_interleaved segs tail :
  forallb (fun s => marker_free (fst s)) segs = true ->
  marker_free tail = true ->
  scrub_spec (interleaved segs tail) = texts segs ++ tail.
Proof.
  unfold interleaved, texts. intros S T.
  induction segs as [|[text [x y]] segs IH]; simpl in *.
  - rewrite <- (app_nil_r tail) at 1.
    rewrite scrub_spec_text by (apply marker_free_Forall; assumption).
    simpl. rewrite app_nil_r; reflexivity.
  - apply andb_true_iff in S. destruct S as [S1 S2].
    rewrite <- !app_assoc.
    rewrite scrub_spec_text by (apply marker_free_Forall; assumption).
    cbn [app]. rewrite scrub_spec_marker. cbn [skipn].
    rewrite IH by assumption. reflexivity.
Qed.

(** C8: for every raw chunk, the scrubbing loop of [handle_client] computes
    what the specification words say ([scrub_spec]: skip the marker byte and
    the next two, pass every other byte through in order, stop at the end of
    the chunk when fewer than two bytes follow a marker): whatever it
    returns is [scrub_spec raw], and on a settled state it does return.
    Hence text interleaved with marker triplets yields exactly the text,
    and a marker with fewer than two bytes after it at the end of the chunk
    is dropped with what follows it. *)
Theorem scrub_strips_markers (raw : bytes) (st : state) :
  (forall v st', scrub raw st = (Ok v, st') -> v = scrub_spec raw)
  /\ (settled st = true ->
      exists st', scrub raw st = (Ok (scrub_spec raw), st'))
  /\ (forall segs tail,
        forallb (fun s => marker_free (fst s)) segs = true ->
        marker_free tail = true ->
        raw = interleaved segs tail ->
        scrub_spec raw = texts segs ++ tail)
  /\ (forall text,
        marker_free text = true ->
        raw = text ++ [255] \/ (exists x, raw = text ++ [255; x]) ->
        scrub_spec raw = text).
Proof.
  split; [|split; [|split]].
  - intros v st' E. unfold scrub in E.
    apply scrub_loop_value in E; [|lia]. exact E.
  - intros S. unfold scrub.
    destruct (scrub_loop_ok (List.length raw) raw 0 [] st S)
      as (v & st' & E & _).
    exists st'. rewrite E.
    apply scrub_loop_value in E; [|lia]. rewrite E. reflexivity.
  - intros segs tail S T ->. apply scrub_spec_interleaved; assumption.
  - intros text T [->|[x ->]];
      rewrite scrub_spec_text by (apply marker_free_Forall; assumption);
      simpl; apply app_nil_r.
Qed.

Lemma scrub_strips_markers_witness :
  settled (alice_and_bob []) = true
  /\ exists st',
       scrub ([255; 253; 1] ++ lit "hi" ++ [255; 251; 3] ++ lit "!" ++ [10; 255])
             (alice_and_bob [])
       = (Ok (lit "hi!" ++ [10]), st').
Proof.
  split; [reflexivity|].
  destruct (scrub_strips_markers
              ([255; 253; 1] ++ lit "hi" ++ [255; 251; 3] ++ lit "!" ++ [10; 255])
              (alice_and_bob [])) as (_ & H & _).
  destruct H as (st' & E); [reflexivity|].
  exists st'. exact E.
Defined.

(** ** The checkpoint store *)

Lemma dict_mem_false {V} k (d : dict V) :
  dict_mem k d = false -> dict_get k d = None.
Proof. unfold dict_mem; destruct (dict_get k d); [discriminate | reflexivity]. Qed.

Lemma dict_get_kept_fields items : forall acc k,
  unique_keys items = true ->
  dict_get k (kept_fields items acc)
  = match dict_get k items with
    | Some v => match kept_value k v with
                | Some x => Some x
                | None => dict_get k acc
                end
    | None => dict_get k acc
    end.
Proof.
  induction items as [|[key v] items IH]; intros acc k U; [reflexivity|].
  cbn [unique_keys] in U. apply andb_true_iff in U. destruct U as [U1 U2].
  apply negb_true_iff, dict_mem_false in U1.
  cbn [kept_fields dict_get]. rewrite IH by assumption.
  destruct (str_eqb k key) eqn:E.
  - apply str_eqb_eq in E; subst key. rewrite U1.
    destruct (kept_value k v); [apply dict_get_set_eq | reflexivity].
  - destruct (kept_value key v) as [x|]; [|reflexivity].
    rewrite (dict_get_set_neq k key x acc E). reflexivity.
Qed.

Lemma dict_get_kept_users us : forall acc u,
  unique_keys us = true ->
  dict_get u (kept_users us acc)
  = match dict_get u us with
    | Some r => Some (kept_fields r [])
    | None => dict_get u acc
    end.
Proof.
  induction us as [|[user r] us IH]; intros acc u U; [reflexivity|].
  cbn [unique_keys] in U. apply andb_true_iff in U. destruct U as [U1 U2].
  apply negb_true_iff, dict_mem_false in U1.
  cbn [kept_users dict_get]. rewrite IH by assumption.
  destruct (str_eqb u user) eqn:E.
  - apply str_eqb_eq in E; subst user. rewrite U1. apply dict_get_set_eq.
  - rewrite (dict_get_set_neq u user _ acc E). reflexivity.
Qed.

Lemma complaint_printed k v r :
  In (k, v) r -> str_eqb (lit "conn") k = false ->
  (forall t, v <> VDatetime t) -> plain_data v = false ->
  In (PrintCannotSerialize v) (complaints r).
Proof.
  intros I N D P. induction r as [|[k' v'] r IH]; [contradiction|].
  cbn [complaints]. apply in_or_app. destruct I as [I|I].
  - inversion I; subst. left. rewrite N.
    destruct v; try (rewrite P; left; reflexivity).
    exfalso; apply (D t); reflexivity.
  - right; auto.
Qed.

Lemma all_complaints_In u r us e :
  In (u, r) us -> In e (complaints r) -> In e (all_complaints us).
Proof.
  intros I C. unfold all_complaints. apply in_flat_map.
  exists (u, r); auto.
Qed.

Lemma proper_record us u r :
  proper_directory us = true -> dict_get u us = Some r -> unique_keys r = true.
Proof.
  unfold proper_directory. rewrite andb_true_iff, forallb_forall.
  intros [_ H] G. apply (H (u, r)), dict_get_In, G.
Qed.

(** C5: [checkpoint] on a directory whose records hold values that
    [msgpack] cannot pack never aborts: it returns, the file holds a record
    for every user, and in that record a field other than [conn] is stored
    as the ISO text of a [datetime], as itself when it can be packed, and is
    absent (and reported on the console) when it cannot; [conn] is never
    stored. *)
Theorem checkpoint_drops_unserializable (st : state) :
  wf_users (users st) = true ->
  proper_directory (users st) = true ->
  exists st' saved,
    checkpoint st = (Ok tt, st')
    /\ checkpoint_file st' = Packed saved
    /\ forall username r, dict_get username (users st) = Some r ->
         exists r',
           dict_get username saved = Some r'
           /\ dict_get (lit "conn") r' = None
           /\ forall k v,
                dict_get k r = Some v -> str_eqb k (lit "conn") = false ->
                match v with
                | VDatetime t => dict_get k r' = Some (VStr (isoformat t))
                | _ =>
                    if plain_data v then dict_get k r' = Some v
                    else dict_get k r' = None
                         /\ In (PrintCannotSerialize v) (console st')
                end.
Proof.
  intros W P.
  destruct (checkpoint_ok st W) as (st' & evs & E & _ & _ & _ & _ & F & C & I).
  exists st', (kept_users (users st) []).
  split; [exact E|]. split; [exact F|].
  intros username r G. exists (kept_fields r []).
  assert (U : unique_keys (users st) = true)
    by (unfold proper_directory in P; apply andb_true_iff in P; tauto).
  assert (Ur : unique_keys r = true) by (eapply proper_record; eauto).
  split; [rewrite dict_get_kept_users, G by assumption; reflexivity|].
  split.
  - rewrite dict_get_kept_fields by assumption.
    destruct (dict_get (lit "conn") r); [|reflexivity].
    unfold kept_value. rewrite str_eqb_refl. reflexivity.
  - intros k v Gk N. rewrite dict_get_kept_fields, Gk by assumption.
    rewrite str_eqb_sym in N. unfold kept_value. rewrite N.
    assert (Pr : plain_data v = false ->
                 (forall t, v <> VDatetime t) ->
                 In (PrintCannotSerialize v) (console st')).
    { intros Pv D. rewrite C. apply in_or_app; right. apply I.
      eapply all_complaints_In; [apply dict_get_In; exact G|].
      eapply complaint_printed; eauto using dict_get_In. }
    destruct v; try reflexivity;
      (destruct (plain_data _) eqn:Pv; [reflexivity|];
       split; [reflexivity|]; apply Pr; [reflexivity | intros t; discriminate]).
Qed.

Lemma checkpoint_drops_unserializable_witness :
  wf_users (users alice_with_mail) = true
  /\ proper_directory (users alice_with_mail) = true
  /\ plain_data (VList [inbox_entry at_noon (lit "hello")]) = false
  /\ exists st' saved r',
       checkpoint alice_with_mail = (Ok tt, st')
       /\ checkpoint_file st' = Packed saved
       /\ dict_get (lit "alice") saved = Some r'
       /\ dict_get (lit "messages_received") r' = None
       /\ dict_get (lit "last_active") r' = Some (VStr (isoformat at_noon)).
Proof.
  split; [reflexivity|]. split; [reflexivity|]. split; [reflexivity|].
  destruct (checkpoint_drops_unserializable alice_with_mail)
    as (st' & saved & E & F & H); [reflexivity | reflexivity |].
  destruct (H (lit "alice") _ eq_refl) as (r' & G & _ & Fields).
  exists st', saved, r'. split; [exact E|]. split; [exact F|].
  split; [exact G|]. split.
  - apply (Fields (lit "messages_received")
                  (VList [inbox_entry at_noon (lit "hello")]));
      reflexivity.
  - apply (Fields (lit "last_active") (VStr (isoformat at_noon))); reflexivity.
Defined.

(** ** The tick counter *)

Lemma tick_times_ok n : forall st,
  settled st = true ->
  exists st', tick_times n st = (Ok tt, st')
              /\ quiet st st'
              /\ server_ticks st' = server_ticks st + Z.of_nat n
              /\ settled st' = true.
Proof.
  induction n as [|n IH]; intros st S; cbn [tick_times].
  - exists st. split; [reflexivity|]. split; [apply quiet_refl|].
    split; [simpl; lia | exact S].
  - destruct (server_tick_ok st S) as (st1 & E1 & Q1 & T1 & S1).
    rewrite (bind_ok _ _ _ _ _ E1).
    destruct (IH st1 S1) as (st2 & E2 & Q2 & T2 & S2).
    exists st2. split; [exact E2|]. split; [eapply quiet_trans; eauto|].
    split; [lia | exact S2].
Qed.

(** C1, on the code: the counter is an unbounded integer that
    [server_tick] only increments.  Starting from the state [main] sets up,
    with the counter at 0, 65536 calls leave it at 65536, not at 0; and the
    call made at 65535 moves any settled state to 65536. *)
Theorem server_ticks_do_not_wrap :
  (exists st',
     tick_times (Z.to_nat 65536) (initial_state NoFile noon_wall) = (Ok tt, st')
     /\ server_ticks st' = 65536)
  /\ forall st, settled st = true -> server_ticks st = 65535 ->
       exists st', server_tick st = (Ok tt, st') /\ server_ticks st' = 65536.
Proof.
  split.
  - destruct (tick_times_ok (Z.to_nat 65536) (initial_state NoFile noon_wall))
      as (st' & E & _ & T & _); [reflexivity|].
    exists st'. split; [exact E|]. rewrite T. reflexivity.
  - intros st S T. destruct (server_tick_ok st S) as (st' & E & _ & T' & _).
    exists st'. split; [exact E|]. lia.
Qed.

(** ** The session handler *)

Lemma dict_set_over {V} (k : str) (v v' : V) (d : dict V) :
  dict_set k v (dict_set k v' d) = dict_set k v d.
Proof.
  induction d as [|[k' v0] d IH]; simpl.
  - rewrite str_eqb_refl; reflexivity.
  - destruct (str_eqb k k') eqn:E; simpl; rewrite E; [reflexivity|].
    rewrite IH; reflexivity.
Qed.

Lemma user_record_run st username r :
  dict_get username (users st) = Some r ->
  user_record username st = (Ok r, st).
Proof. intros G. unfold user_record, bind, gets. simpl. rewrite G. reflexivity. Qed.

Lemma user_field_run st username r k v :
  dict_get username (users st) = Some r -> dict_get k r = Some v ->
  user_field username k st = (Ok v, st).
Proof.
  intros G F. unfold user_field.
  rewrite (bind_ok _ _ _ _ _ (user_record_run _ _ _ G)), F. reflexivity.
Qed.

Lemma set_user_field_run st username r k v :
  dict_get username (users st) = Some r ->
  set_user_field username k v st
  = (Ok tt, set_users (dict_set username (dict_set k v r)) st).
Proof.
  intros G. unfold set_user_field.
  rewrite (bind_ok _ _ _ _ _ (user_record_run _ _ _ G)). reflexivity.
Qed.

Lemma process_line_logs st conn username r l data command parts :
  dict_get username (users st) = Some r ->
  command_log r l ->
  split_space (strip data) = command :: parts ->
  process_line conn username data st
  = dispatch conn username (wall st (clock st)) command (command :: parts)
      (set_users
         (dict_set username (logged_record r l (wall st (clock st)) data))
         (set_clock S st)).
Proof.
  intros G L P. unfold process_line. cbv [now].
  cbv [bind gets modify ret] . cbv beta iota.
  set (t := wall st (clock st)).
  rewrite (set_user_field_run (set_clock S st) username r _ _ G).
  rewrite P. cbv [list_index nth_error ret].
  set (r1 := dict_set (lit "last_active") (VStr (isoformat t)) r).
  set (st1 := set_users (dict_set username r1) (set_clock S st)).
  assert (G1 : dict_get username (users st1) = Some r1)
    by (simpl; apply dict_get_set_eq).
  rewrite (user_record_run st1 username r1 G1).
  assert (N : dict_get (lit "commands") r1 = dict_get (lit "commands") r)
    by (apply dict_get_set_neq; reflexivity).
  unfold dict_mem. rewrite N.
  destruct L as [L|[L ->]]; rewrite L.
  - rewrite (user_field_run st1 username r1 _ (VList l) G1)
      by (rewrite N; exact L).
    cbv [value_append ret].
    rewrite (set_user_field_run st1 username r1 _ _ G1).
    unfold st1, logged_record. cbv [set_users users]. cbn [users].
    rewrite dict_set_over. reflexivity.
  - rewrite (set_user_field_run st1 username r1 _ _ G1).
    set (r2 := dict_set (lit "commands") (VList []) r1).
    set (st2 := set_users (dict_set username r2) st1).
    assert (G2 : dict_get username (users st2) = Some r2)
      by (simpl; apply dict_get_set_eq).
    rewrite (user_field_run st2 username r2 _ (VList []) G2)
      by (apply dict_get_set_eq).
    cbv [value_append ret].
    rewrite (set_user_field_run st2 username r2 _ _ G2).
    unfold st2, st1, r2, logged_record. cbv [set_users users]. cbn [users].
    rewrite !dict_set_over. reflexivity.
Qed.

Lemma peer_gone_quiet conn username l st st' :
  peer_gone conn username l st -> quiet st st' -> settled st' = true ->
  peer_gone conn username l st'.
Proof.
  intros (_ & F & I & r & G & C) [Qu Qs] S'.
  destruct (Qs conn) as [F' I'].
  destruct (calmed_field _ _ username r (lit "commands") Qu G eq_refl)
    as (r' & G' & C').
  split; [exact S'|]. split; [congruence|]. split; [congruence|].
  exists r'. split; [exact G' | congruence].
Qed.

Lemma wf_users_set us username r :
  wf_users us = true -> conn_ok r = true ->
  wf_users (dict_set username r us) = true.
Proof.
  intros W C. unfold wf_users. apply forallb_dict_set; auto.
Qed.

Lemma conn_ok_logged r l t data :
  conn_ok (logged_record r l t data) = conn_ok r.
Proof.
  unfold conn_ok, logged_record.
  rewrite !dict_get_set_neq by reflexivity. reflexivity.
Qed.

Lemma recv_nothing st conn :
  fileno (sock_get conn (sockets st)) <> -1 ->
  sk_in (sock_get conn (sockets st)) = [] ->
  recv conn st = (Ok [], st).
Proof.
  intros F I. unfold recv. cbv [bind gets]. cbv beta iota.
  apply Z.eqb_neq in F. rewrite F, I. reflexivity.
Qed.

(** One turn of the session loop after the peer has closed: the loop goes
    on, and the command log has grown by an entry for an empty line. *)
Lemma session_turn_peer_gone conn username l st :
  peer_gone conn username l st ->
  exists st' iso,
    session_turn conn username st = (Ok Continue, st')
    /\ peer_gone conn username (l ++ [VList [VStr iso; VStr []]]) st'.
Proof.
  intros P. destruct P as (S & P).
  assert (P0 : peer_gone conn username l st) by (split; assumption).
  destruct (server_tick_ok st S) as (st1 & E1 & Q1 & _ & S1).
  assert (P1 := peer_gone_quiet _ _ _ _ _ P0 Q1 S1).
  destruct (server_tick_ok st1 S1) as (st2 & E2 & Q2 & _ & S2).
  assert (P2 := peer_gone_quiet _ _ _ _ _ P1 Q2 S2).
  destruct P1 as (_ & F1 & I1 & _).
  destruct P2 as (_ & F2 & I2 & r2 & G2 & C2).
  unfold session_turn. rewrite (bind_ok _ _ _ _ _ E1).
  unfold try_except. unfold bind at 1. cbv [gets]. rewrite I1.
  cbn [List.length read_line endswith_nl rev].
  unfold bind at 1. rewrite (bind_ok _ _ _ _ _ E2).
  rewrite (bind_ok _ _ _ _ _ (recv_nothing st2 conn F2 I2)).
  cbv [ret].
  rewrite (process_line_logs st2 conn username r2 l [] [] [] G2
             (or_introl C2) eq_refl).
  cbv [dispatch]. cbn [str_eqb lit list_ascii_of_string map negb ret].
  eexists. exists (isoformat (wall st2 (clock st2))).
  split; [reflexivity|].
  apply settled_parts in S2. destruct S2 as [Wu Wt].
  split; [|split; [exact F2 | split; [exact I2|]]].
  - apply settled_parts. split; [|exact Wt].
    cbn [users set_users set_clock]. apply wf_users_set; [exact Wu|].
    rewrite conn_ok_logged. eapply wf_users_get; eauto.
  - eexists. split; [cbn [users set_users set_clock]; apply dict_get_set_eq|].
    unfold logged_record. apply dict_get_set_eq.
Qed.

Lemma session_loop_peer_gone conn username n : forall l st,
  peer_gone conn username l st ->
  exists st' l',
    session_loop n conn username st = (Ok Continue, st')
    /\ peer_gone conn username (l ++ l') st'
    /\ List.length l' = n
    /\ Forall (fun e => exists iso, e = VList [VStr iso; VStr []]) l'.
Proof.
  induction n as [|n IH]; intros l st P; cbn [session_loop].
  - exists st, []. rewrite app_nil_r. auto.
  - destruct (session_turn_peer_gone conn username l st P)
      as (st1 & iso & E1 & P1).
    rewrite (bind_ok _ _ _ _ _ E1).
    destruct (IH _ st1 P1) as (st2 & l2 & E2 & P2 & L2 & F2).
    exists st2, (VList [VStr iso; VStr []] :: l2).
    split; [exact E2|]. rewrite <- app_assoc in P2.
    split; [exact P2|]. split; [simpl; congruence|].
    constructor; eauto.
Qed.

(** C3, on the code: an empty read only leaves the inner read loop.  With
    [bob] logged in on a socket whose peer has closed, [handle_client] is
    still in its loop after any number [n] of turns, and each turn has
    appended one entry, for an empty line, to [bob]'s command log. *)
Theorem peer_disconnect_does_not_end_session :
  forall n,
  exists st' log,
    handle_client n 2 (lit "bob") (alice_and_bob []) = (Ok Continue, st')
    /\ user_field (lit "bob") (lit "commands") st' = (Ok (VList log), st')
    /\ List.length log = n
    /\ Forall (fun e => exists iso, e = VList [VStr iso; VStr []]) log.
Proof.
  intros n. unfold handle_client. do 3 run_head.
  match goal with
  | |- context [session_loop n 2 ?u ?s] =>
      destruct (session_loop_peer_gone 2 u n [] s)
        as (st' & log & E & (_ & _ & _ & r & G & C) & L & F)
  end.
  - split; [reflexivity|]. split; [discriminate|]. split; [reflexivity|].
    eexists. split; reflexivity.
  - exists st', log. split; [exact E|].
    split; [apply (user_field_run st' _ r _ _ G C)|]. auto.
Qed.

(** C4, on the code: a [SEND] line without a recipient raises [IndexError]
    at [command_parts[1]]; the [except] clause of the session loop prints it
    and leaves the loop.  [bob] gets the echo of his line and nothing else,
    and his session is over; an unknown command or an unknown recipient, by
    contrast, is answered and the loop goes on. *)
Theorem send_without_recipient_ends_session :
  (forall n, exists st',
     handle_client (S n) 2 (lit "bob") (alice_and_bob [lit "SEND" ++ [10]])
     = (Ok Break, st')
     /\ console st' = [PrintError IndexError]
     /\ sk_out (sock_get 2 (sockets st'))
        = [Text (crlf ++ lit "User bob logged in." ++ crlf);
           Text (lit "SEND" ++ [10])])
  /\ (exists st',
        session_turn 2 (lit "bob") (alice_and_bob [lit "DANCE" ++ [10]])
        = (Ok Continue, st'))
  /\ (exists st',
        session_turn 2 (lit "bob") (alice_and_bob [lit "SEND carol hi" ++ [10]])
        = (Ok Continue, st')).
Proof.
  split; [|split].
  - intros n. unfold handle_client. do 3 run_head.
    cbn [session_loop]. run_head. cbv [ret].
    eexists. split; [reflexivity|]. split; reflexivity.
  - eexists. vm_compute. reflexivity.
  - eexists. vm_compute. reflexivity.
Qed.

(** ** The connection acceptor *)

(** C6, on the code: a login line that is [LOGIN] alone raises
    [IndexError] at [cmd[1]], which nothing in [start_server] catches: no
    error message is sent, the connection is not closed, and the accept loop
    is over, so the next connection is never served.  A username of three
    characters, by contrast, is rejected with the length error, the
    connection is closed, no record is created and the next connection is
    accepted. *)
Theorem login_without_username_kills_acceptor :
  login 0 (lit "LOGIN" ++ [10]) (fresh_server 0 [])
  = (Raise IndexError, fresh_server 0 [])
  /\ (exists st',
        start_server [0%nat; 1%nat]
          (two_clients (typed (lit "LOGIN" ++ [10]))
                       (typed (lit "LOGIN carol" ++ [10])))
        = (Raise IndexError, st')
        /\ users st' = []
        /\ fileno (sock_get 0 (sockets st')) = 7
        /\ last (sk_out (sock_get 0 (sockets st'))) (Raw []) = Text [10]
        /\ sk_out (sock_get 1 (sockets st')) = [])
  /\ (exists st',
        start_server [0%nat; 1%nat]
          (two_clients (typed (lit "LOGIN abc" ++ [10]))
                       (typed (lit "LOGIN carol" ++ [10])))
        = (Ok [(1%nat, lit "carol")], st')
        /\ dict_keys (users st') = [lit "carol"]
        /\ fileno (sock_get 0 (sockets st')) = -1
        /\ last (sk_out (sock_get 0 (sockets st'))) (Raw [])
           = Text (lit "ERROR: Username must be at least 4 characters long. Bye."
                   ++ crlf)).
Proof.
  split; [reflexivity|]. split.
  - eexists. split; [vm_compute; reflexivity|]. repeat split.
  - eexists. split; [vm_compute; reflexivity|]. repeat split.
Qed.

(** C7, on the code: in [start_server] the decoding, the echo and the
    accumulation stand inside the byte loop, so after each byte the whole
    scrubbed prefix of the chunk is echoed and appended again.  A single
    chunk [LOGIN alice\n] is assembled as the concatenation of all its
    prefixes; its first token is not [LOGIN] and the login is rejected. *)
Theorem login_line_in_one_chunk_is_garbled :
  exists st' received_data,
    read_login 2 0 [] (fresh_server 0 [lit "LOGIN alice" ++ [10]])
    = (Ok received_data, st')
    /\ received_data = List.concat (prefixes (lit "LOGIN alice" ++ [10]))
    /\ received_data <> lit "LOGIN alice" ++ [10]
    /\ sk_out (sock_get 0 (sockets st'))
       = map Text (prefixes (lit "LOGIN alice" ++ [10]))
    /\ hd [] (split_space (strip received_data)) = lit "LLOLOGLOGILOGINLOGIN"
    /\ exists st'',
         accept_turn 0 (fresh_server 0 [lit "LOGIN alice" ++ [10]])
         = (Ok Rejected, st'')
         /\ users st'' = []
         /\ last (sk_out (sock_get 0 (sockets st''))) (Raw [])
            = Text (lit "ERROR: You must first login to the server. Bye." ++ crlf).
Proof.
  eexists. eexists. split; [vm_compute; reflexivity|].
  split; [reflexivity|]. split; [discriminate|]. split; [reflexivity|].
  split; [reflexivity|].
  eexists. split; [vm_compute; reflexivity|]. split; reflexivity.
Qed.

(** ** Restart: [load_checkpoint] and the next login *)

Lemma kept_fields_no_conn items : forall acc,
  dict_get (lit "conn") (kept_fields items acc) = dict_get (lit "conn") acc.
Proof.
  induction items as [|[key v] items IH]; intros acc; [reflexivity|].
  cbn [kept_fields]. rewrite IH.
  destruct (kept_value key v) as [x|] eqn:K; [|reflexivity].
  apply dict_get_set_neq. unfold kept_value in K.
  destruct (str_eqb (lit "conn") key); [discriminate | reflexivity].
Qed.

Lemma kept_users_no_conn us : forall acc,
  no_conn acc = true -> no_conn (kept_users us acc) = true.
Proof.
  induction us as [|[u r] us IH]; intros acc N; cbn [kept_users]; auto.
  apply IH. apply forallb_dict_set; auto.
  cbn [snd]. unfold dict_mem. rewrite kept_fields_no_conn. reflexivity.
Qed.

Lemma no_conn_get su username r :
  no_conn su = true -> dict_get username su = Some r ->
  dict_get (lit "conn") r = None.
Proof.
  unfold no_conn. rewrite forallb_forall. intros N G.
  specialize (N _ (dict_get_In _ _ _ G)). cbn [snd] in N.
  apply negb_true_iff in N. apply dict_mem_false, N.
Qed.

(** A [LOGIN] for a user whose record is in the directory and whose
    connection is not live. *)
Lemma login_reconnects st conn line username r :
  line <> [] ->
  split_space (strip line) = [lit "LOGIN"; username] ->
  (4 <= List.length username)%nat ->
  dict_get username (users st) = Some r ->
  user_is_connected username st = (Ok false, cleared username r st) ->
  exists st' r',
    login conn line st = (Ok (Started conn username), st')
    /\ dict_get username (users st') = Some r'
    /\ dict_get (lit "conn") r' = Some (VSocket conn)
    /\ sockets st' = sockets st.
Proof.
  intros NE P L G D. unfold login.
  destruct line as [|c line]; [congruence|].
  rewrite P. cbv [list_index nth_error]. cbv [bind ret gets]. cbv beta iota.
  replace (str_eqb (lit "LOGIN") (lit "LOGIN")) with true by reflexivity.
  cbn [negb]. apply Nat.ltb_ge in L. rewrite L.
  unfold dict_mem. rewrite G, D. cbn [negb].
  assert (G' : dict_get username (users (cleared username r st))
               = Some (dict_set (lit "conn") VNone r))
    by (simpl; apply dict_get_set_eq).
  rewrite (set_user_field_run _ _ _ _ _ G').
  eexists. eexists. split; [reflexivity|].
  split; [simpl; apply dict_get_set_eq|].
  split; [apply dict_get_set_eq | reflexivity].
Qed.

(** C10: the records that [load_checkpoint] restores from a file written
    by [checkpoint] have no [conn] key at all.  On such a record the
    liveness check does not raise: it returns false and leaves the record
    with [conn] set to [None]; and a [LOGIN] line for that username is
    accepted as a reconnect: the new connection is attached to the existing
    record and a session is started on it. *)
Theorem restored_user_reconnects (st : state) :
  wf_users (users st) = true ->
  exists st' saved,
    checkpoint st = (Ok tt, st')
    /\ checkpoint_file st' = Packed saved
    /\ forall boot, checkpoint_file boot = Packed saved ->
       exists booted,
         load_checkpoint boot = (Ok tt, booted)
         /\ users booted = saved
         /\ forall username r, dict_get username (users booted) = Some r ->
              dict_get (lit "conn") r = None
              /\ (exists after r',
                    user_is_connected username booted = (Ok false, after)
                    /\ dict_get username (users after) = Some r'
                    /\ dict_get (lit "conn") r' = Some VNone)
              /\ forall conn line,
                   line <> [] ->
                   split_space (strip line) = [lit "LOGIN"; username] ->
                   (4 <= List.length username)%nat ->
                   exists st2 r2,
                     login conn line booted = (Ok (Started conn username), st2)
                     /\ dict_get username (users st2) = Some r2
                     /\ dict_get (lit "conn") r2 = Some (VSocket conn)
                     /\ sockets st2 = sockets booted.
Proof.
  intros W.
  destruct (checkpoint_ok st W) as (st' & evs & E & _ & _ & _ & _ & F & _).
  exists st', (kept_users (users st) []).
  split; [exact E|]. split; [exact F|].
  intros boot B. exists (set_users (fun _ => kept_users (users st) []) boot).
  split; [unfold load_checkpoint, bind, gets, modify, unpackb, ret; simpl;
          rewrite B; reflexivity|].
  split; [reflexivity|].
  intros username r G. cbn [users set_users] in G.
  assert (C : dict_get (lit "conn") r = None)
    by (eapply no_conn_get;
        [apply (kept_users_no_conn (users st) []); reflexivity | exact G]).
  assert (D : user_is_connected username
                (set_users (fun _ => kept_users (users st) []) boot)
              = (Ok false,
                 cleared username r
                   (set_users (fun _ => kept_users (users st) []) boot)))
    by (apply user_is_connected_dead; [exact G | left; exact C]).
  split; [exact C|]. split.
  - eexists. eexists. split; [exact D|].
    split; [simpl; apply dict_get_set_eq | apply dict_get_set_eq].
  - intros conn line NE P L. eapply login_reconnects; eauto.
Qed.

Lemma restored_user_reconnects_witness :
  wf_users (users alice_with_mail) = true
  /\ exists st' saved booted st2 r2,
       checkpoint alice_with_mail = (Ok tt, st')
       /\ checkpoint_file st' = Packed saved
       /\ load_checkpoint (initial_state (Packed saved) noon_wall) = (Ok tt, booted)
       /\ login 3 (lit "LOGIN alice" ++ [10]) booted
          = (Ok (Started 3 (lit "alice")), st2)
       /\ dict_get (lit "alice") (users st2) = Some r2
       /\ dict_get (lit "conn") r2 = Some (VSocket 3).
Proof.
  split; [reflexivity|].
  destruct (restored_user_reconnects alice_with_mail)
    as (st' & saved & E & F & H); [reflexivity|].
  destruct (H (initial_state (Packed saved) noon_wall)) as (booted & L & U & R);
    [reflexivity|].
  assert (S : saved = kept_users (users alice_with_mail) []).
  { destruct (checkpoint_ok alice_with_mail) as (s & evs & E' & _ & _ & _ & _ & F' & _);
      [reflexivity|].
    rewrite E in E'. inversion E'; subst s. rewrite F in F'.
    inversion F'; reflexivity. }
  destruct (R (lit "alice") (kept_fields (snd (hd (lit "", []) (users alice_with_mail))) []))
    as (_ & _ & Login).
  { rewrite U, S. reflexivity. }
  destruct (Login 3%nat (lit "LOGIN alice" ++ [10]))
    as (st2 & r2 & E2 & G2 & C2 & _);
    [discriminate | reflexivity | simpl; lia |].
  exists st', saved, booted, st2, r2. auto 10.
Defined.

(** ** [SEND] *)

Lemma send_run st c p :
  fileno (sock_get c (sockets st)) <> -1 ->
  send c p st = (Ok tt, sent c p st).
Proof.
  intros F. unfold send, sent, bind, gets, modify. simpl.
  apply Z.eqb_neq in F. rewrite F. reflexivity.
Qed.

Lemma sent_fileno c p st c' :
  fileno (sock_get c' (sockets (sent c p st)))
  = fileno (sock_get c' (sockets st)).
Proof.
  unfold sent. cbn [sockets set_sockets].
  destruct (Nat.eq_dec c' c) as [->|N];
    [rewrite sock_get_set_eq | rewrite sock_get_set_neq by assumption];
    reflexivity.
Qed.

Lemma sent_out c p st :
  sk_out (sock_get c (sockets (sent c p st)))
  = sk_out (sock_get c (sockets st)) ++ [p].
Proof. unfold sent. cbn [sockets set_sockets]. rewrite sock_get_set_eq. reflexivity. Qed.

Lemma sent_keeps c p st c' q :
  In q (sk_out (sock_get c' (sockets st))) ->
  In q (sk_out (sock_get c' (sockets (sent c p st)))).
Proof.
  unfold sent. cbn [sockets set_sockets]. intros I.
  destruct (Nat.eq_dec c' c) as [->|N].
  - rewrite sock_get_set_eq. cbn [sk_out]. apply in_or_app; left; exact I.
  - rewrite sock_get_set_neq by assumption. exact I.
Qed.

(** C2, as the code has it: for a [SEND] line whose recipient is in the
    directory, connected, and has an inbox, the entry appended to the
    recipient's [messages_received] records the timestamp and the message
    (the sender's name is not stored in it; it appears in the line delivered
    to the recipient's connection), and the sender receives the
    confirmation [OK: Message sent to <recipient>.]. *)
Theorem send_appends_timestamp_and_message
    (st : state) (conn rc : nat) (username recipient data : str)
    (words : list str) (r rr : record) (l inbox : list value) :
  dict_get username (users st) = Some r ->
  command_log r l ->
  fileno (sock_get conn (sockets st)) <> -1 ->
  split_space (strip data) = lit "SEND" :: recipient :: words ->
  dict_get recipient (users st) = Some rr ->
  dict_get (lit "conn") rr = Some (VSocket rc) ->
  fileno (sock_get rc (sockets st)) <> -1 ->
  dict_get (lit "messages_received") rr = Some (VList inbox) ->
  exists st' pre,
    process_line conn username data st = (Ok Continue, st')
    /\ user_field recipient (lit "messages_received") st'
       = (Ok (VList (inbox
                     ++ [VDict [(lit "timestamp", VDatetime (wall st (clock st)));
                                (lit "message", VStr (join_space words))]])),
          st')
    /\ In (Text (lit "[" ++ dt_str (wall st (clock st)) ++ lit "] " ++ username
                 ++ lit ": " ++ join_space words ++ crlf))
          (sk_out (sock_get rc (sockets st')))
    /\ sk_out (sock_get conn (sockets st'))
       = pre ++ [Text (lit "OK: Message sent to " ++ recipient ++ lit "." ++ crlf)].
Proof.
  intros G L Fc P Gr Cr Fr Ir.
  rewrite (process_line_logs st conn username r l data _ _ G L P).
  set (t := wall st (clock st)).
  set (st1 := set_users (dict_set username (logged_record r l t data))
                (set_clock S st)).
  assert (R1 : exists rr1, dict_get recipient (users st1) = Some rr1
                 /\ dict_get (lit "conn") rr1 = Some (VSocket rc)
                 /\ dict_get (lit "messages_received") rr1 = Some (VList inbox)).
  { cbn [st1 users set_users set_clock].
    destruct (str_eqb recipient username) eqn:E.
    - apply str_eqb_eq in E. subst recipient.
      rewrite dict_get_set_eq. eexists. split; [reflexivity|].
      assert (rr = r) by congruence. subst rr.
      unfold logged_record. rewrite !dict_get_set_neq by reflexivity. auto.
    - rewrite dict_get_set_neq by exact E. eauto. }
  destruct R1 as (rr1 & G1 & C1 & I1).
  unfold dispatch.
  replace (str_eqb (lit "SEND") (lit "SEND")) with true by reflexivity.
  unfold cmd_send. cbv [list_index nth_error]. cbn [skipn].
  set (message := join_space words).
  set (entry := inbox_entry t message).
  unfold bind at 1. cbv [ret]. unfold bind at 1. cbv [gets].
  unfold dict_mem. rewrite G1.
  rewrite (bind_ok _ _ _ _ _ (user_is_connected_live st1 recipient rr1 rc G1 C1 Fr)).
  rewrite (bind_ok _ _ _ _ _ (user_field_run st1 recipient rr1 _ _ G1 I1)).
  unfold value_append at 1. unfold bind at 1. cbv [ret].
  rewrite (bind_ok _ _ _ _ _ (set_user_field_run st1 recipient rr1 _ _ G1)).
  set (rr2 := dict_set (lit "messages_received") (VList (inbox ++ [entry])) rr1).
  set (st2 := set_users (dict_set recipient rr2) st1).
  assert (G2 : dict_get recipient (users st2) = Some rr2)
    by (simpl; apply dict_get_set_eq).
  assert (C2 : dict_get (lit "conn") rr2 = Some (VSocket rc))
    by (unfold rr2; rewrite dict_get_set_neq by reflexivity; exact C1).
  rewrite (bind_ok _ _ _ _ _ (user_field_run st2 recipient rr2 _ _ G2 C2)).
  unfold value_send.
  match goal with
  | |- context [send rc ?p] => set (delivery := p)
  end.
  rewrite (bind_ok _ _ _ _ _ (send_run st2 rc delivery Fr)).
  match goal with
  | |- context [send conn ?p] => set (confirmation := p)
  end.
  assert (Fc3 : fileno (sock_get conn (sockets (sent rc delivery st2))) <> -1)
    by (rewrite sent_fileno; exact Fc).
  rewrite (bind_ok _ _ _ _ _ (send_run _ conn confirmation Fc3)).
  eexists. eexists. split; [reflexivity|].
  split; [|split].
  - apply (user_field_run _ recipient rr2); [exact G2 | apply dict_get_set_eq].
  - apply sent_keeps. rewrite sent_out. apply in_or_app; right; left; reflexivity.
  - apply sent_out.
Qed.

Lemma send_appends_timestamp_and_message_witness :
  split_space (strip (lit "SEND alice hello" ++ [10]))
  = [lit "SEND"; lit "alice"; lit "hello"]
  /\ dict_get (lit "conn") (noon_user 1) = Some (VSocket 1)
  /\ fileno (sock_get 1 (sockets (alice_and_bob []))) <> -1
  /\ exists st' pre,
       process_line 2 (lit "bob") (lit "SEND alice hello" ++ [10])
         (alice_and_bob [])
       = (Ok Continue, st')
       /\ user_field (lit "alice") (lit "messages_received") st'
          = (Ok (VList [VDict [(lit "timestamp", VDatetime at_noon);
                               (lit "message", VStr (lit "hello"))]]), st')
       /\ sk_out (sock_get 2 (sockets st'))
          = pre ++ [Text (lit "OK: Message sent to alice." ++ crlf)].
Proof.
  split; [reflexivity|]. split; [reflexivity|]. split; [discriminate|].
  destruct (send_appends_timestamp_and_message
              (alice_and_bob []) 2 1 (lit "bob") (lit "alice")
              (lit "SEND alice hello" ++ [10]) [lit "hello"]
              (noon_user 2) (noon_user 1) [] [])
    as (st' & pre & E & I & _ & O);
    try reflexivity; try discriminate.
  - left; reflexivity.
  - exists st', pre. split; [exact E|]. split; [exact I | exact O].
Defined.

(** C2 as stated fails on the code: with [alice] online, [bob]'s line
    [SEND alice hello] is confirmed to [bob] and adds one entry to [alice]'s
    inbox, but that entry is the dictionary of the timestamp and the
    message: [bob]'s name is stored nowhere in it. *)
Lemma send_entry_has_no_sender :
  exists st' entry,
    session_turn 2 (lit "bob") (alice_and_bob [lit "SEND alice hello" ++ [10]])
    = (Ok Continue, st')
    /\ user_field (lit "alice") (lit "messages_received") st'
       = (Ok (VList [entry]), st')
    /\ entry = VDict [(lit "timestamp", VDatetime at_noon);
                      (lit "message", VStr (lit "hello"))]
    /\ holds_str (lit "bob") entry = false
    /\ dict_keys match entry with VDict d => d | _ => [] end
       = [lit "timestamp"; lit "message"]
    /\ last (sk_out (sock_get 2 (sockets st'))) (Raw [])
       = Text (lit "OK: Message sent to alice." ++ crlf).
Proof.
  eexists. eexists. split; [vm_compute; reflexivity|].
  split; [vm_compute; reflexivity|].
  repeat split.
Qed.

(** ** The read loop never runs out of turns *)

Lemma sent_sk_in c p st c' :
  sk_in (sock_get c' (sockets (sent c p st)))
  = sk_in (sock_get c' (sockets st)).
Proof.
  unfold sent. cbn [sockets set_sockets].
  destruct (Nat.eq_dec c' c) as [->|N];
    [rewrite sock_get_set_eq | rewrite sock_get_set_neq by assumption];
    reflexivity.
Qed.

Lemma bind_ext {A B} (m : M A) (k1 k2 : A -> M B) st :
  (forall a st', m st = (Ok a, st') -> k1 a st' = k2 a st') ->
  bind m k1 st = bind m k2 st.
Proof. unfold bind. destruct (m st) as [[a|e] st']; auto. Qed.

Lemma recv_inv conn st raw st' :
  recv conn st = (Ok raw, st') ->
  settled st' = settled st
  /\ (raw <> [] ->
      S (List.length (sk_in (sock_get conn (sockets st'))))
      = List.length (sk_in (sock_get conn (sockets st)))).
Proof.
  unfold recv. cbv [bind gets modify ret raise]. cbv beta iota.
  destruct (fileno (sock_get conn (sockets st)) =? -1); [discriminate|].
  destruct (sk_in (sock_get conn (sockets st))) as [|chunk rest] eqn:I;
    intros H; inversion H; subst.
  - split; [reflexivity | congruence].
  - split; [reflexivity|]. intros _. cbn [sockets set_sockets].
    rewrite sock_get_set_eq. reflexivity.
Qed.

Lemma send_inv c p st st' :
  send c p st = (Ok tt, st') ->
  settled st' = settled st
  /\ forall c', sk_in (sock_get c' (sockets st'))
                = sk_in (sock_get c' (sockets st)).
Proof.
  intros H. destruct (Z.eq_dec (fileno (sock_get c (sockets st))) (-1)) as [F|F].
  - unfold send in H. cbv [bind gets raise] in H. apply Z.eqb_eq in F.
    rewrite F in H. discriminate.
  - rewrite (send_run st c p F) in H. inversion H; subst.
    split; [reflexivity | intros c'; apply sent_sk_in].
Qed.

(** On a settled state the read loop of [handle_client] ends within one
    turn per pending chunk plus one: any larger bound on the number of turns
    gives the same result. *)
Lemma read_line_fuel fuel : forall fuel' conn received_data st,
  settled st = true ->
  (List.length (sk_in (sock_get conn (sockets st))) < fuel)%nat ->
  (List.length (sk_in (sock_get conn (sockets st))) < fuel')%nat ->
  read_line fuel conn received_data st = read_line fuel' conn received_data st.
Proof.
  induction fuel as [|fuel IH]; intros fuel' conn d st S F F'; [lia|].
  destruct fuel' as [|fuel']; [lia|]. cbn [read_line].
  destruct (endswith_nl d); [reflexivity|].
  apply bind_ext. intros [] st1 E1.
  destruct (server_tick_ok st S) as (st1' & E1' & [_ Q1] & _ & S1).
  rewrite E1 in E1'. inversion E1'; subst st1'. clear E1'.
  destruct (Q1 conn) as [_ Qi]. rewrite <- Qi in F, F'.
  apply bind_ext. intros raw st2 R.
  destruct (recv_inv _ _ _ _ R) as [S2 L2].
  destruct raw as [|b raw]; [reflexivity|].
  specialize (L2 ltac:(discriminate)). rewrite S1 in S2.
  apply bind_ext. intros v st3 E3.
  destruct (scrub_loop_ok (List.length (b :: raw)) (b :: raw) 0 [] st2 S2)
    as (v' & st3' & E3' & [_ Q3] & S3).
  unfold scrub in E3. rewrite E3 in E3'. inversion E3'; subst v' st3'.
  destruct (Q3 conn) as [_ Q3i].
  destruct (utf8_decode v) as [data|]; [|reflexivity].
  apply bind_ext. intros [] st4 E4.
  destruct (send_inv _ _ _ _ E4) as [S4 I4].
  apply IH.
  - rewrite S4; exact S3.
  - rewrite I4, Q3i. lia.
  - rewrite I4, Q3i. lia.
Qed.

Lemma login_scrub_loop_inv fuel : forall conn raw i processed d st d' st',
  settled st = true ->
  login_scrub_loop fuel conn raw i processed d st = (Ok d', st') ->
  settled st' = true
  /\ forall c, sk_in (sock_get c (sockets st')) = sk_in (sock_get c (sockets st)).
Proof.
  induction fuel as [|fuel IH]; intros conn raw i processed d st d' st' S;
    cbn [login_scrub_loop].
  - intros H; inversion H; subst. auto.
  - destruct (i <? List.length raw)%nat;
      [|intros H; inversion H; subst; auto].
    destruct (server_tick_ok st S) as (st1 & E1 & [_ Q1] & _ & S1).
    rewrite (bind_ok _ _ _ _ _ E1).
    destruct (utf8_decode _) as [[|c data]|]; [| |discriminate].
    + intros H; inversion H; subst. split; [exact S1|]. intros c; apply Q1.
    + unfold bind at 1.
      destruct (send conn (Text (c :: data)) st1) as [[[]|e] st2] eqn:E2;
        [|discriminate].
      destruct (send_inv _ _ _ _ E2) as [S2 I2]. rewrite S1 in S2.
      intros H. apply IH in H; [|exact S2]. destruct H as [S' I'].
      split; [exact S'|]. intros c'. rewrite I', I2. apply Q1.
Qed.

(** The same for the read loop of [start_server]. *)
Lemma read_login_fuel fuel : forall fuel' conn received_data st,
  settled st = true ->
  (List.length (sk_in (sock_get conn (sockets st))) < fuel)%nat ->
  (List.length (sk_in (sock_get conn (sockets st))) < fuel')%nat ->
  read_login fuel conn received_data st
  = read_login fuel' conn received_data st.
Proof.
  induction fuel as [|fuel IH]; intros fuel' conn d st S F F'; [lia|].
  destruct fuel' as [|fuel']; [lia|]. cbn [read_login].
  destruct (endswith_nl d); [reflexivity|].
  apply bind_ext. intros [] st1 E1.
  destruct (server_tick_ok st S) as (st1' & E1' & [_ Q1] & _ & S1).
  rewrite E1 in E1'. inversion E1'; subst st1'. clear E1'.
  destruct (Q1 conn) as [_ Qi]. rewrite <- Qi in F, F'.
  apply bind_ext. intros raw st2 R.
  destruct (recv_inv _ _ _ _ R) as [S2 L2].
  destruct raw as [|b raw]; [reflexivity|].
  specialize (L2 ltac:(discriminate)). rewrite S1 in S2.
  apply bind_ext. intros d' st3 E3.
  destruct (login_scrub_loop_inv _ _ _ _ _ _ _ _ _ S2 E3) as [S3 I3].
  apply IH.
  - exact S3.
  - rewrite I3. lia.
  - rewrite I3. lia.
Qed.

(** * Further properties of the code *)

(** ** Command lines: [split(' ')] and [' '.join] *)

Lemma split_space_nonempty s : split_space s <> [].
Proof.
  destruct s as [|c r]; simpl; [discriminate|].
  destruct (c =? 32); [discriminate|].
  destruct (split_space r); discriminate.
Qed.

Lemma join_space_cons c w ws :
  join_space ((c :: w) :: ws) = c :: join_space (w :: ws).
Proof. destruct ws; reflexivity. Qed.

Lemma join_space_nil w ws :
  join_space ([] :: w :: ws) = 32 :: join_space (w :: ws).
Proof. reflexivity. Qed.

Lemma join_split_space s : join_space (split_space s) = s.
Proof.
  induction s as [|c r IH]; [reflexivity|]. cbn [split_space].
  destruct (c =? 32) eqn:E.
  - apply Z.eqb_eq in E; subst c.
    destruct (split_space r) as [|w ws] eqn:S;
      [exfalso; exact (split_space_nonempty r S)|].
    rewrite join_space_nil. f_equal. exact IH.
  - destruct (split_space r) as [|w ws] eqn:S;
      [exfalso; exact (split_space_nonempty r S)|].
    rewrite join_space_cons. f_equal. exact IH.
Qed.

Lemma split_space_word w rest :
  space_free w = true ->
  split_space (w ++ 32 :: rest) = w :: split_space rest.
Proof.
  induction w as [|c w IH]; intros F; [reflexivity|].
  cbn [space_free forallb] in F. apply andb_true_iff in F. destruct F as [F1 F2].
  apply negb_true_iff in F1. cbn [app split_space]. rewrite F1, (IH F2).
  reflexivity.
Qed.

(** X1: a command line is cut at every single space and the message of a
    [SEND] is what [' '.join] rebuilds from the parts after the recipient:
    splitting always gives a first part (so [command_parts[0]] never
    raises), joining the parts gives the line back, and for a line
    [SEND <recipient> <message>] the recipient is the second part and the
    message is delivered verbatim, runs of spaces included. *)
Theorem send_message_is_verbatim (recipient message : str) :
  (forall s, exists command parts,
      split_space s = command :: parts
      /\ join_space (split_space s) = s)
  /\ (space_free recipient = true ->
      nth_error (split_space (lit "SEND " ++ recipient ++ 32 :: message)) 0
      = Some (lit "SEND")
      /\ nth_error (split_space (lit "SEND " ++ recipient ++ 32 :: message)) 1
         = Some recipient
      /\ join_space
           (skipn 2 (split_space (lit "SEND " ++ recipient ++ 32 :: message)))
         = message).
Proof.
  split.
  - intros s. destruct (split_space s) as [|command parts] eqn:S;
      [exfalso; exact (split_space_nonempty s S)|].
    exists command, parts. split; [reflexivity|].
    rewrite <- S. apply join_split_space.
  - intros F.
    change (lit "SEND " ++ recipient ++ 32 :: message)
      with (lit "SEND" ++ 32 :: recipient ++ 32 :: message).
    rewrite (split_space_word (lit "SEND")) by reflexivity.
    rewrite (split_space_word recipient) by exact F.
    cbn [nth_error skipn]. repeat split. apply join_split_space.
Qed.

Lemma send_message_is_verbatim_witness :
  space_free (lit "alice") = true
  /\ join_space
       (skipn 2 (split_space (lit "SEND " ++ lit "alice" ++ 32 :: lit "see  you at 5")))
     = lit "see  you at 5".
Proof.
  split; [reflexivity|].
  apply (send_message_is_verbatim (lit "alice") (lit "see  you at 5")).
  reflexivity.
Defined.

(** ** Commands of a session *)

Lemma logged_get username r l data st :
  dict_get username (users (logged username r l data st))
  = Some (logged_record r l (wall st (clock st)) data).
Proof. unfold logged. cbn [users set_users set_clock]. apply dict_get_set_eq. Qed.

Lemma logged_get_other username r l data st other :
  str_eqb other username = false ->
  dict_get other (users (logged username r l data st))
  = dict_get other (users st).
Proof.
  intros N. unfold logged. cbn [users set_users set_clock].
  apply dict_get_set_neq, N.
Qed.

Lemma logged_sockets username r l data st :
  sockets (logged username r l data st) = sockets st.
Proof. reflexivity. Qed.

Lemma process_line_dispatch st conn username r l data command parts :
  dict_get username (users st) = Some r ->
  command_log r l ->
  split_space (strip data) = command :: parts ->
  process_line conn username data st
  = dispatch conn username (wall st (clock st)) command (command :: parts)
      (logged username r l data st).
Proof. apply process_line_logs. Qed.

Lemma dict_get_none_neq {V} (d : dict V) k k' v :
  dict_get k d = None -> dict_get k' d = Some v -> str_eqb k k' = false.
Proof.
  intros N G. destruct (str_eqb k k') eqn:E; [|reflexivity].
  apply str_eqb_eq in E. subst k'. congruence.
Qed.

(** X2: a [SEND] to a name that is not in the directory is answered with
    [ERROR: User `<recipient>` does not exist.] and the session goes on;
    apart from the sender's own log entry and that reply, nothing changes:
    no record is created for the name and the message is dropped. *)
Theorem send_to_unknown_user_is_refused
    (st : state) (conn : nat) (username recipient data : str)
    (words : list str) (r : record) (l : list value) :
  dict_get username (users st) = Some r ->
  command_log r l ->
  fileno (sock_get conn (sockets st)) <> -1 ->
  split_space (strip data) = lit "SEND" :: recipient :: words ->
  dict_get recipient (users st) = None ->
  process_line conn username data st
  = (Ok Continue,
     sent conn (Text (lit "ERROR: User `" ++ recipient
                      ++ lit "` does not exist." ++ crlf))
          (logged username r l data st))
  /\ dict_get recipient
       (users (sent conn (Text (lit "ERROR: User `" ++ recipient
                                ++ lit "` does not exist." ++ crlf))
                 (logged username r l data st))) = None.
Proof.
  intros G L F P N.
  assert (NE : str_eqb recipient username = false)
    by (eapply dict_get_none_neq; eauto).
  assert (N1 : dict_get recipient (users (logged username r l data st)) = None)
    by (rewrite logged_get_other; assumption).
  split; [|exact N1].
  rewrite (process_line_dispatch st conn username r l data _ _ G L P).
  unfold dispatch.
  replace (str_eqb (lit "SEND") (lit "SEND")) with true by reflexivity.
  unfold cmd_send. cbv [list_index nth_error]. cbn [skipn].
  unfold bind at 1. cbv [ret]. unfold bind at 1. cbv [gets].
  unfold dict_mem. rewrite N1.
  rewrite (bind_ok _ _ _ _ _ (send_run (logged username r l data st) conn _ F)).
  reflexivity.
Qed.

Lemma send_to_unknown_user_is_refused_witness :
  exists st',
    process_line 2 (lit "bob") (lit "SEND carol hi" ++ [10]) (alice_and_bob [])
    = (Ok Continue, st')
    /\ dict_get (lit "carol") (users st') = None
    /\ last (sk_out (sock_get 2 (sockets st'))) (Raw [])
       = Text (lit "ERROR: User `carol` does not exist." ++ crlf).
Proof.
  destruct (send_to_unknown_user_is_refused (alice_and_bob []) 2 (lit "bob")
              (lit "carol") (lit "SEND carol hi" ++ [10]) [lit "hi"]
              (noon_user 2) []) as [E N];
    [reflexivity | left; reflexivity | discriminate | reflexivity | reflexivity |].
  eexists. split; [exact E|]. split; [exact N|]. reflexivity.
Defined.

(** X3: a [SEND] to a user whose connection is not live (no [conn] field,
    [None], or a socket that has been closed) is answered with
    [ERROR: User `<recipient>` is not online.]; the liveness check sets the
    recipient's [conn] to [None], and the message is not queued: every other
    field of the recipient, the inbox included, is as before. *)
Theorem send_to_offline_user_is_dropped
    (st : state) (conn : nat) (username recipient data : str)
    (words : list str) (r rr : record) (l : list value) :
  dict_get username (users st) = Some r ->
  command_log r l ->
  fileno (sock_get conn (sockets st)) <> -1 ->
  split_space (strip data) = lit "SEND" :: recipient :: words ->
  str_eqb recipient username = false ->
  dict_get recipient (users st) = Some rr ->
  (dict_get (lit "conn") rr = None
   \/ dict_get (lit "conn") rr = Some VNone
   \/ exists c, dict_get (lit "conn") rr = Some (VSocket c)
                /\ fileno (sock_get c (sockets st)) = -1) ->
  exists st' rr',
    process_line conn username data st = (Ok Continue, st')
    /\ st' = sent conn (Text (lit "ERROR: User `" ++ recipient
                              ++ lit "` is not online." ++ crlf))
               (cleared recipient rr (logged username r l data st))
    /\ dict_get recipient (users st') = Some rr'
    /\ dict_get (lit "conn") rr' = Some VNone
    /\ forall k, str_eqb k (lit "conn") = false ->
         dict_get k rr' = dict_get k rr.
Proof.
  intros G L F P NE Gr D.
  assert (G1 : dict_get recipient (users (logged username r l data st)) = Some rr)
    by (rewrite logged_get_other; assumption).
  rewrite (process_line_dispatch st conn username r l data _ _ G L P).
  unfold dispatch.
  replace (str_eqb (lit "SEND") (lit "SEND")) with true by reflexivity.
  unfold cmd_send. cbv [list_index nth_error]. cbn [skipn].
  unfold bind at 1. cbv [ret]. unfold bind at 1. cbv [gets].
  unfold dict_mem. rewrite G1.
  rewrite (bind_ok _ _ _ _ _
             (user_is_connected_dead (logged username r l data st) recipient rr
                G1 D)).
  rewrite (bind_ok _ _ _ _ _
             (send_run (cleared recipient rr (logged username r l data st))
                conn _ F)).
  eexists. exists (dict_set (lit "conn") VNone rr).
  split; [reflexivity|]. split; [reflexivity|].
  split; [cbn [sent users set_sockets cleared set_users]; apply dict_get_set_eq|].
  split; [apply dict_get_set_eq|].
  intros k Nk. apply dict_get_set_neq, Nk.
Qed.

Lemma send_to_offline_user_is_dropped_witness :
  exists st' rr',
    process_line 2 (lit "bob") (lit "SEND alice hello" ++ [10])
      (set_sockets (sock_set 1 closed_socket) (alice_and_bob []))
    = (Ok Continue, st')
    /\ last (sk_out (sock_get 2 (sockets st'))) (Raw [])
       = Text (lit "ERROR: User `alice` is not online." ++ crlf)
    /\ dict_get (lit "alice") (users st') = Some rr'
    /\ dict_get (lit "conn") rr' = Some VNone
    /\ dict_get (lit "messages_received") rr' = Some (VList []).
Proof.
  destruct (send_to_offline_user_is_dropped
              (set_sockets (sock_set 1 closed_socket) (alice_and_bob []))
              2 (lit "bob") (lit "alice") (lit "SEND alice hello" ++ [10])
              [lit "hello"] (noon_user 2) (noon_user 1) [])
    as (st' & rr' & E & S & G & C & K);
    [reflexivity | left; reflexivity | discriminate | reflexivity | reflexivity
    | reflexivity | right; right; exists 1%nat; split; reflexivity |].
  exists st', rr'. split; [exact E|].
  split; [rewrite S; reflexivity|]. split; [exact G|]. split; [exact C|].
  rewrite (K (lit "messages_received") eq_refl). reflexivity.
Defined.

(** X4: a [SEND] to a connected user whose record has no
    [messages_received] key raises [KeyError] at the append, before
    anything is sent: the recipient gets no message, the sender no reply,
    and the [except] clause of the sender's loop prints the error and ends
    the sender's session. *)
Theorem send_to_user_without_inbox_ends_session
    (st : state) (conn rc : nat) (username recipient data : str)
    (words : list str) (r rr : record) (l : list value) :
  dict_get username (users st) = Some r ->
  command_log r l ->
  split_space (strip data) = lit "SEND" :: recipient :: words ->
  str_eqb recipient username = false ->
  dict_get recipient (users st) = Some rr ->
  dict_get (lit "conn") rr = Some (VSocket rc) ->
  fileno (sock_get rc (sockets st)) <> -1 ->
  dict_get (lit "messages_received") rr = None ->
  process_line conn username data st
  = (Raise KeyError, logged username r l data st)
  /\ try_except (process_line conn username data) session_except st
     = (Ok Break,
        set_console (fun c => c ++ [PrintError KeyError])
          (logged username r l data st))
  /\ sockets (logged username r l data st) = sockets st.
Proof.
  intros G L P NE Gr C F I.
  assert (G1 : dict_get recipient (users (logged username r l data st)) = Some rr)
    by (rewrite logged_get_other; assumption).
  assert (E : process_line conn username data st
              = (Raise KeyError, logged username r l data st)).
  { rewrite (process_line_dispatch st conn username r l data _ _ G L P).
    unfold dispatch.
    replace (str_eqb (lit "SEND") (lit "SEND")) with true by reflexivity.
    unfold cmd_send. cbv [list_index nth_error]. cbn [skipn].
    unfold bind at 1. cbv [ret]. unfold bind at 1. cbv [gets].
    unfold dict_mem. rewrite G1.
    rewrite (bind_ok _ _ _ _ _
               (user_is_connected_live (logged username r l data st)
                  recipient rr rc G1 C F)).
    apply bind_raise. unfold user_field.
    rewrite (bind_ok _ _ _ _ _ (user_record_run _ _ _ G1)), I. reflexivity. }
  split; [exact E|]. split; [|reflexivity].
  unfold try_except. rewrite E. reflexivity.
Qed.

Lemma send_to_user_without_inbox_ends_session_witness :
  (exists ra,
     dict_get (lit "alice") (users after_restart) = Some ra
     /\ dict_get (lit "conn") ra = Some (VSocket 1)
     /\ dict_get (lit "messages_received") ra = None)
  /\ exists st',
       try_except (process_line 2 (lit "bobby") (lit "SEND alice hi" ++ [10]))
         session_except after_restart
       = (Ok Break, st')
       /\ last (console st') (PrintError OSError) = PrintError KeyError
       /\ sockets st' = sockets after_restart.
Proof.
  split.
  - eexists. split; [vm_compute; reflexivity|]. split; reflexivity.
  - edestruct (send_to_user_without_inbox_ends_session after_restart 2 1
                 (lit "bobby") (lit "alice") (lit "SEND alice hi" ++ [10])
                 [lit "hi"]) as (_ & E & S);
      [vm_compute; reflexivity | left; vm_compute; reflexivity | reflexivity
      | reflexivity | vm_compute; reflexivity | reflexivity
      | vm_compute; discriminate | reflexivity |].
    eexists. split; [exact E|]. split; [reflexivity | reflexivity].
Defined.

(** X5: a line whose first word is none of the six commands (the
    comparison is exact, so [quit] or [Send] are not commands) is answered
    with one error line and the session goes on; a blank line is logged and
    not answered at all. *)
Theorem unknown_command_is_answered
    (st : state) (conn : nat) (username data command : str)
    (parts : list str) (r : record) (l : list value) :
  dict_get username (users st) = Some r ->
  command_log r l ->
  fileno (sock_get conn (sockets st)) <> -1 ->
  split_space (strip data) = command :: parts ->
  existsb (str_eqb command) known_commands = false ->
  process_line conn username data st
  = (Ok Continue,
     if str_eqb command [] then logged username r l data st
     else sent conn
            (Text (lit "ERROR: Command was not understood. Type HELP for available commands."
                   ++ crlf))
            (logged username r l data st)).
Proof.
  intros G L F P K.
  rewrite (process_line_dispatch st conn username r l data _ _ G L P).
  cbn [existsb known_commands] in K.
  repeat (apply orb_false_iff in K; destruct K as [? K]).
  unfold dispatch.
  repeat match goal with
         | H : str_eqb command _ = false |- _ => rewrite H; clear H
         end.
  destruct (str_eqb command []); cbn [negb]; [reflexivity|].
  rewrite (bind_ok _ _ _ _ _ (send_run (logged username r l data st) conn _ F)).
  reflexivity.
Qed.

Lemma unknown_command_is_answered_witness :
  exists st',
    process_line 2 (lit "bob") (lit "quit" ++ [10]) (alice_and_bob [])
    = (Ok Continue, st')
    /\ fileno (sock_get 2 (sockets st')) = 8
    /\ last (sk_out (sock_get 2 (sockets st'))) (Raw [])
       = Text (lit "ERROR: Command was not understood. Type HELP for available commands."
               ++ crlf).
Proof.
  eexists. split.
  - apply (unknown_command_is_answered (alice_and_bob []) 2 (lit "bob")
             (lit "quit" ++ [10]) (lit "quit") [] (noon_user 2) []);
      [reflexivity | left; reflexivity | discriminate | reflexivity | reflexivity].
  - split; reflexivity.
Defined.

(** X6: [HELP] never ends the session, whatever follows it: the line is
    answered with exactly one packet.  Without a topic the reply is the
    command list; a topic other than [CONTRIBUTING] and [ABOUT] gets the
    topic-not-found error. *)
Theorem help_always_answers
    (st : state) (conn : nat) (username data : str)
    (parts : list str) (r : record) (l : list value) :
  dict_get username (users st) = Some r ->
  command_log r l ->
  fileno (sock_get conn (sockets st)) <> -1 ->
  split_space (strip data) = lit "HELP" :: parts ->
  exists reply,
    process_line conn username data st
    = (Ok Continue, sent conn (Text reply) (logged username r l data st))
    /\ (parts = [] -> reply = help_commands)
    /\ (forall topic more,
          parts = topic :: more ->
          topic <> lit "CONTRIBUTING" -> topic <> lit "ABOUT" ->
          reply = help_not_found).
Proof.
  intros G L F P.
  rewrite (process_line_dispatch st conn username r l data _ _ G L P).
  unfold dispatch.
  replace (str_eqb (lit "HELP") (lit "SEND")) with false by reflexivity.
  replace (str_eqb (lit "HELP") (lit "WHO")) with false by reflexivity.
  replace (str_eqb (lit "HELP") (lit "HELP")) with true by reflexivity.
  unfold cmd_help.
  destruct parts as [|topic more].
  - cbn [List.length Nat.ltb Nat.leb].
    rewrite (bind_ok _ _ _ _ _ (send_run (logged username r l data st) conn _ F)).
    exists help_commands. split; [reflexivity|]. split; [reflexivity|].
    intros ? ? ?; discriminate.
  - cbn [List.length Nat.ltb Nat.leb]. cbv [list_index nth_error].
    unfold bind at 2. cbv [ret].
    destruct (str_eqb topic (lit "CONTRIBUTING")) eqn:E1.
    + rewrite (bind_ok _ _ _ _ _ (send_run (logged username r l data st) conn _ F)).
      eexists. split; [reflexivity|]. split; [discriminate|].
      intros t m Q N1 _. injection Q as <- <-.
      apply str_eqb_eq in E1. contradiction.
    + destruct (str_eqb topic (lit "ABOUT")) eqn:E2.
      * destruct (json_encode (VDict server_metadata)) as [response|] eqn:J;
          [|vm_compute in J; discriminate].
        rewrite (bind_ok _ _ _ _ _
                   (send_run (logged username r l data st) conn _ F)).
        eexists. split; [reflexivity|]. split; [discriminate|].
        intros t m Q _ N2. injection Q as <- <-.
        apply str_eqb_eq in E2. contradiction.
      * rewrite (bind_ok _ _ _ _ _
                   (send_run (logged username r l data st) conn _ F)).
        eexists. split; [reflexivity|]. split; [discriminate|]. reflexivity.
Qed.

Lemma help_always_answers_witness :
  exists st',
    process_line 2 (lit "bob") (lit "HELP about" ++ [10]) (alice_and_bob [])
    = (Ok Continue, st')
    /\ last (sk_out (sock_get 2 (sockets st'))) (Raw []) = Text help_not_found.
Proof.
  destruct (help_always_answers (alice_and_bob []) 2 (lit "bob")
              (lit "HELP about" ++ [10]) [lit "about"] (noon_user 2) [])
    as (reply & E & _ & N);
    [reflexivity | left; reflexivity | discriminate | reflexivity |].
  eexists. split; [exact E|].
  rewrite (N (lit "about") [] eq_refl); [reflexivity | discriminate | discriminate].
Defined.

(** A [LOGIN] under a name whose record is in the directory and whose
    connection is not live attaches the new connection to that record and
    changes nothing else. *)
Lemma login_takes_over st conn line username more r :
  line <> [] ->
  split_space (strip line) = lit "LOGIN" :: username :: more ->
  (4 <= List.length username)%nat ->
  dict_get username (users st) = Some r ->
  (dict_get (lit "conn") r = None
   \/ dict_get (lit "conn") r = Some VNone
   \/ exists c, dict_get (lit "conn") r = Some (VSocket c)
                /\ fileno (sock_get c (sockets st)) = -1) ->
  login conn line st
  = (Ok (Started conn username),
     set_users (dict_set username (dict_set (lit "conn") (VSocket conn) r)) st).
Proof.
  intros NE P L G D. unfold login.
  destruct line as [|c line]; [congruence|].
  rewrite P. cbv [list_index nth_error]. cbv [bind ret gets]. cbv beta iota.
  replace (str_eqb (lit "LOGIN") (lit "LOGIN")) with true by reflexivity.
  cbn [negb]. apply Nat.ltb_ge in L. rewrite L.
  unfold dict_mem. rewrite G.
  rewrite (user_is_connected_dead st username r G D). cbn [negb].
  assert (G' : dict_get username (users (cleared username r st))
               = Some (dict_set (lit "conn") VNone r))
    by (simpl; apply dict_get_set_eq).
  rewrite (set_user_field_run _ _ _ _ _ G').
  unfold cleared, set_users. cbn [users server_ticks period_tasks checkpoint_file
    sockets wall clock console].
  rewrite !dict_set_over. reflexivity.
Qed.

(** [conn.close()] as a change of state. *)
Lemma close_run c st :
  close c st
  = (Ok tt,
     set_sockets
       (sock_set c {| fileno := -1;
                      sk_in := sk_in (sock_get c (sockets st));
                      sk_out := sk_out (sock_get c (sockets st)) |}) st).
Proof. reflexivity. Qed.

(** X7: [QUIT] sets the user's [conn] to [None], sends [OK: Goodbye.],
    closes the socket and leaves the session loop.  The record stays in the
    directory with its history, and the name is free again: a later [LOGIN]
    under it, on any connection, is accepted and attached to that record. *)
Theorem quit_frees_the_name
    (st : state) (conn : nat) (username data : str)
    (parts : list str) (r : record) (l : list value) :
  dict_get username (users st) = Some r ->
  command_log r l ->
  fileno (sock_get conn (sockets st)) <> -1 ->
  split_space (strip data) = lit "QUIT" :: parts ->
  exists st' r',
    process_line conn username data st = (Ok Break, st')
    /\ fileno (sock_get conn (sockets st')) = -1
    /\ sk_out (sock_get conn (sockets st'))
       = sk_out (sock_get conn (sockets st)) ++ [Text (lit "OK: Goodbye." ++ crlf)]
    /\ dict_get username (users st') = Some r'
    /\ dict_get (lit "conn") r' = Some VNone
    /\ (forall k, str_eqb k (lit "conn") = false ->
          dict_get k r'
          = dict_get k (logged_record r l (wall st (clock st)) data))
    /\ forall conn2 line more,
         line <> [] ->
         split_space (strip line) = lit "LOGIN" :: username :: more ->
         (4 <= List.length username)%nat ->
         login conn2 line st'
         = (Ok (Started conn2 username),
            set_users
              (dict_set username (dict_set (lit "conn") (VSocket conn2) r')) st').
Proof.
  intros G L F P.
  rewrite (process_line_dispatch st conn username r l data _ _ G L P).
  change (dispatch conn username (wall st (clock st)) (lit "QUIT")
            (lit "QUIT" :: parts))
    with (cmd_quit conn username).
  unfold cmd_quit.
  set (r1 := logged_record r l (wall st (clock st)) data).
  set (st1 := logged username r l data st).
  assert (G1 : dict_get username (users st1) = Some r1) by apply logged_get.
  rewrite (bind_ok _ _ _ _ _ (set_user_field_run st1 username r1 _ _ G1)).
  set (st2 := set_users _ st1).
  assert (F2 : fileno (sock_get conn (sockets st2)) <> -1) by exact F.
  rewrite (bind_ok _ _ _ _ _ (send_run st2 conn _ F2)).
  rewrite (bind_ok _ _ _ _ _ (close_run conn _)). cbv [ret].
  eexists. exists (dict_set (lit "conn") VNone r1).
  split; [reflexivity|].
  cbn [sockets set_sockets users]. rewrite sock_get_set_eq. cbn [fileno sk_out].
  split; [reflexivity|]. split; [exact (sent_out conn _ st2)|].
  assert (G3 : dict_get username (users st2)
               = Some (dict_set (lit "conn") VNone r1))
    by (unfold st2; cbn [users set_users]; apply dict_get_set_eq).
  split; [exact G3|]. split; [apply dict_get_set_eq|].
  split; [intros k Nk; apply dict_get_set_neq, Nk|].
  intros conn2 line more NE PL Len.
  apply (login_takes_over _ conn2 line username more); auto.
  right; left. apply dict_get_set_eq.
Qed.

Lemma quit_frees_the_name_witness :
  exists st' st2 r2,
    process_line 1 (lit "alice") (lit "QUIT" ++ [10]) (alice_and_bob [])
    = (Ok Break, st')
    /\ fileno (sock_get 1 (sockets st')) = -1
    /\ login 3 (lit "LOGIN alice" ++ [10]) st'
       = (Ok (Started 3 (lit "alice")), st2)
    /\ dict_get (lit "alice") (users st2) = Some r2
    /\ dict_get (lit "conn") r2 = Some (VSocket 3)
    /\ dict_get (lit "commands") r2
       = Some (VList [VList [VStr (isoformat at_noon); VStr (lit "QUIT" ++ [10])]]).
Proof.
  destruct (quit_frees_the_name (alice_and_bob []) 1 (lit "alice")
              (lit "QUIT" ++ [10]) [] (noon_user 1) [])
    as (st' & r' & E & F & _ & G & C & K & R);
    [reflexivity | left; reflexivity | discriminate | reflexivity |].
  exists st'. eexists. eexists. split; [exact E|]. split; [exact F|].
  split; [apply (R 3%nat (lit "LOGIN alice" ++ [10]) []);
          [discriminate | reflexivity | simpl; lia]|].
  split; [cbn [users set_users]; apply dict_get_set_eq|].
  split; [apply dict_get_set_eq|].
  rewrite dict_get_set_neq by reflexivity.
  rewrite (K (lit "commands") eq_refl). reflexivity.
Defined.

(** ** Logging in *)

Lemma dict_mem_set {V} (k k' : str) (v : V) (d : dict V) :
  dict_mem k' (dict_set k v d) = dict_mem k' d || str_eqb k' k.
Proof.
  unfold dict_mem. induction d as [|[k0 v0] d IH]; cbn [dict_set dict_get].
  - destruct (str_eqb k' k); reflexivity.
  - destruct (str_eqb k k0) eqn:E; cbn [dict_get].
    + apply str_eqb_eq in E. subst k0.
      destruct (str_eqb k' k); [reflexivity | rewrite orb_false_r; reflexivity].
    + destruct (str_eqb k' k0); [reflexivity | exact IH].
Qed.

Lemma unique_keys_set {V} (k : str) (v : V) (d : dict V) :
  unique_keys d = true -> unique_keys (dict_set k v d) = true.
Proof.
  induction d as [|[k0 v0] d IH]; intros U; cbn [dict_set unique_keys].
  - reflexivity.
  - cbn [unique_keys] in U. apply andb_true_iff in U. destruct U as [U1 U2].
    destruct (str_eqb k k0) eqn:E; cbn [unique_keys].
    + rewrite U1, U2. reflexivity.
    + rewrite dict_mem_set, (IH U2).
      apply negb_true_iff in U1. rewrite U1, str_eqb_sym, E. reflexivity.
Qed.

(** X8: the first [LOGIN] under a name creates its record, with the
    connection, an empty command log, an empty inbox and the two login
    times, and saves the directory at once: when [login] returns, the
    checkpoint file holds the new user, with every field but [conn]. *)
Theorem first_login_creates_and_saves
    (st : state) (conn : nat) (line username : str) (more : list str) :
  line <> [] ->
  split_space (strip line) = lit "LOGIN" :: username :: more ->
  (4 <= List.length username)%nat ->
  wf_users (users st) = true ->
  unique_keys (users st) = true ->
  dict_get username (users st) = None ->
  exists st' saved r',
    login conn line st = (Ok (Started conn username), st')
    /\ dict_get username (users st') = Some r'
    /\ (r' = new_user conn (wall st (clock st)) (wall st (S (clock st)))
        \/ r' = dict_set (lit "conn") VNone
                  (new_user conn (wall st (clock st)) (wall st (S (clock st)))))
    /\ checkpoint_file st' = Packed saved
    /\ dict_get username saved
       = Some (saved_new_user (wall st (clock st)) (wall st (S (clock st)))).
Proof.
  intros NE P L W U N. unfold login.
  destruct line as [|c line]; [congruence|].
  rewrite P. cbv [list_index nth_error]. cbv [now bind ret gets modify].
  cbv beta iota.
  replace (str_eqb (lit "LOGIN") (lit "LOGIN")) with true by reflexivity.
  cbn [negb]. apply Nat.ltb_ge in L. rewrite L.
  unfold dict_mem. rewrite N.
  cbn [wall clock set_clock].
  set (t0 := wall st (clock st)). set (t1 := wall st (S (clock st))).
  set (st1 := set_users _ _).
  assert (G1 : dict_get username (users st1) = Some (new_user conn t0 t1))
    by (unfold st1; cbn [users set_users set_clock]; apply dict_get_set_eq).
  assert (W1 : wf_users (users st1) = true)
    by (unfold st1; cbn [users set_users set_clock];
        apply wf_users_set; [exact W | reflexivity]).
  assert (U1 : unique_keys (users st1) = true)
    by (unfold st1; cbn [users set_users set_clock];
        apply unique_keys_set, U).
  destruct (checkpoint_ok st1 W1) as (st' & evs & E & [Qu _] & _ & _ & _ & Fl & _).
  rewrite E.
  destruct (calmed_get _ _ username _ Qu G1) as (r' & G' & R').
  exists st', (kept_users (users st1) []), r'.
  split; [reflexivity|]. split; [exact G'|]. split; [exact R'|].
  split; [exact Fl|].
  rewrite (dict_get_kept_users _ _ _ U1), G1. reflexivity.
Qed.

Lemma first_login_creates_and_saves_witness :
  exists st' saved,
    login 0 (lit "LOGIN carol" ++ [10]) (fresh_server 0 [])
    = (Ok (Started 0 (lit "carol")), st')
    /\ checkpoint_file st' = Packed saved
    /\ dict_get (lit "carol") saved = Some (saved_new_user at_noon at_noon).
Proof.
  destruct (first_login_creates_and_saves (fresh_server 0 [])
              0 (lit "LOGIN carol" ++ [10]) (lit "carol") [])
    as (st' & saved & r' & E & _ & _ & F & S);
    [discriminate | reflexivity | simpl; lia | reflexivity | reflexivity
    | reflexivity |].
  exists st', saved. split; [exact E|]. split; [exact F | exact S].
Defined.

(** A [LOGIN] under a name whose connection is live. *)
Lemma login_online_rejected st conn c line username more r :
  line <> [] ->
  split_space (strip line) = lit "LOGIN" :: username :: more ->
  (4 <= List.length username)%nat ->
  dict_get username (users st) = Some r ->
  dict_get (lit "conn") r = Some (VSocket c) ->
  fileno (sock_get c (sockets st)) <> -1 ->
  fileno (sock_get conn (sockets st)) <> -1 ->
  login conn line st
  = (Ok Rejected,
     closed conn
       (sent conn (Text (lit "ERROR: Username is already online. Bye." ++ crlf))
          st)).
Proof.
  intros NE P L G C Fc F.
  unfold login. destruct line as [|x line]; [congruence|].
  rewrite P. cbv [list_index nth_error]. cbv [bind ret gets]. cbv beta iota.
  replace (str_eqb (lit "LOGIN") (lit "LOGIN")) with true by reflexivity.
  cbn [negb]. apply Nat.ltb_ge in L. rewrite L.
  unfold dict_mem. rewrite G.
  rewrite (user_is_connected_live st username r c G C Fc). cbn [negb].
  unfold reject.
  rewrite (bind_ok _ _ _ _ _ (send_run st conn _ F)).
  rewrite (bind_ok _ _ _ _ _ (close_run conn _)). reflexivity.
Qed.

(** X9: a [LOGIN] under a name that is online is turned away: the new
    connection gets [ERROR: Username is already online. Bye.] and is
    closed, no session is started, and the directory is not touched, so the
    first connection keeps the name. *)
Theorem login_of_online_name_is_rejected
    (st : state) (conn c : nat) (line username : str) (more : list str)
    (r : record) :
  line <> [] ->
  split_space (strip line) = lit "LOGIN" :: username :: more ->
  (4 <= List.length username)%nat ->
  dict_get username (users st) = Some r ->
  dict_get (lit "conn") r = Some (VSocket c) ->
  fileno (sock_get c (sockets st)) <> -1 ->
  fileno (sock_get conn (sockets st)) <> -1 ->
  login conn line st
  = (Ok Rejected,
     closed conn
       (sent conn (Text (lit "ERROR: Username is already online. Bye." ++ crlf))
          st))
  /\ (c <> conn ->
      sock_get c (sockets
        (closed conn
           (sent conn (Text (lit "ERROR: Username is already online. Bye." ++ crlf))
              st)))
      = sock_get c (sockets st)).
Proof.
  intros NE P L G C Fc F. split.
  - apply (login_online_rejected st conn c line username more r); assumption.
  - intros N. unfold closed, sent. cbn [sockets set_sockets].
    rewrite !sock_get_set_neq by exact N. reflexivity.
Qed.

Lemma login_of_online_name_is_rejected_witness :
  exists st',
    login 3 (lit "LOGIN alice" ++ [10])
      (set_sockets (sock_set 3 (open_socket 9 [])) (alice_and_bob []))
    = (Ok Rejected, st')
    /\ fileno (sock_get 3 (sockets st')) = -1
    /\ sk_out (sock_get 3 (sockets st'))
       = [Text (lit "ERROR: Username is already online. Bye." ++ crlf)]
    /\ users st' = users (alice_and_bob [])
    /\ fileno (sock_get 1 (sockets st')) = 7.
Proof.
  eexists. split.
  - apply (login_of_online_name_is_rejected
             (set_sockets (sock_set 3 (open_socket 9 [])) (alice_and_bob []))
             3 1 (lit "LOGIN alice" ++ [10]) (lit "alice") [] (noon_user 1));
      [discriminate | reflexivity | simpl; lia | reflexivity | reflexivity
      | discriminate | discriminate].
  - repeat split.
Defined.

(** X10: a login line that does not start with the word [LOGIN] (the
    comparison is exact), or whose username has fewer than four characters,
    is turned away: one error line is sent, the connection is closed, no
    session is started and the directory is not touched. *)
Theorem login_rejects_bad_lines
    (st : state) (conn : nat) (line cmd0 : str) (rest : list str) :
  line <> [] ->
  fileno (sock_get conn (sockets st)) <> -1 ->
  split_space (strip line) = cmd0 :: rest ->
  (cmd0 <> lit "LOGIN" ->
   login conn line st
   = (Ok Rejected,
      closed conn
        (sent conn
           (Text (lit "ERROR: You must first login to the server. Bye." ++ crlf))
           st)))
  /\ (forall username more,
        cmd0 = lit "LOGIN" -> rest = username :: more ->
        (List.length username < 4)%nat ->
        login conn line st
        = (Ok Rejected,
           closed conn
             (sent conn
                (Text (lit "ERROR: Username must be at least 4 characters long. Bye."
                       ++ crlf))
                st))).
Proof.
  intros NE F P. split.
  - intros N. unfold login. destruct line as [|x line]; [congruence|].
    rewrite P. cbv [list_index nth_error]. unfold bind at 1. cbv [ret].
    apply str_eqb_neq in N. rewrite N. cbn [negb]. unfold reject.
    rewrite (bind_ok _ _ _ _ _ (send_run st conn _ F)).
    rewrite (bind_ok _ _ _ _ _ (close_run conn _)). reflexivity.
  - intros username more -> -> L. unfold login.
    destruct line as [|x line]; [congruence|].
    rewrite P. cbv [list_index nth_error]. unfold bind at 1. cbv [ret].
    replace (str_eqb (lit "LOGIN") (lit "LOGIN")) with true by reflexivity.
    cbn [negb]. unfold bind at 1. apply Nat.ltb_lt in L. rewrite L.
    unfold reject.
    rewrite (bind_ok _ _ _ _ _ (send_run st conn _ F)).
    rewrite (bind_ok _ _ _ _ _ (close_run conn _)). reflexivity.
Qed.

Lemma login_rejects_bad_lines_witness :
  exists st',
    login 0 (lit "login carol" ++ [10]) (fresh_server 0 [])
    = (Ok Rejected, st')
    /\ users st' = []
    /\ fileno (sock_get 0 (sockets st')) = -1
    /\ sk_out (sock_get 0 (sockets st'))
       = [Text (lit "ERROR: You must first login to the server. Bye." ++ crlf)].
Proof.
  eexists. split.
  - apply (login_rejects_bad_lines (fresh_server 0 []) 0
             (lit "login carol" ++ [10]) (lit "login") [lit "carol"]);
      [discriminate | discriminate | reflexivity | discriminate].
  - repeat split.
Defined.

(** ** Accepting a connection *)

Lemma sent_all_fileno c ps : forall st c',
  fileno (sock_get c' (sockets (sent_all c ps st)))
  = fileno (sock_get c' (sockets st)).
Proof.
  induction ps as [|p ps IH]; intros st c'; [reflexivity|].
  cbn [sent_all fold_left]. fold (sent_all c ps (sent c p st)).
  rewrite IH. apply sent_fileno.
Qed.

Lemma sent_all_sk_in c ps : forall st c',
  sk_in (sock_get c' (sockets (sent_all c ps st)))
  = sk_in (sock_get c' (sockets st)).
Proof.
  induction ps as [|p ps IH]; intros st c'; [reflexivity|].
  cbn [sent_all fold_left]. fold (sent_all c ps (sent c p st)).
  rewrite IH. apply sent_sk_in.
Qed.

Lemma sent_all_users c ps : forall st, users (sent_all c ps st) = users st.
Proof.
  induction ps as [|p ps IH]; intros st; [reflexivity|].
  cbn [sent_all fold_left]. fold (sent_all c ps (sent c p st)).
  rewrite IH. reflexivity.
Qed.

Lemma sent_all_settled c ps : forall st, settled (sent_all c ps st) = settled st.
Proof.
  induction ps as [|p ps IH]; intros st; [reflexivity|].
  cbn [sent_all fold_left]. fold (sent_all c ps (sent c p st)).
  rewrite IH. reflexivity.
Qed.



Lemma metadata_run (k : string) (v : value) st :
  dict_get (lit k) server_metadata = Some v ->
  metadata k st = (Ok (format_value v), st).
Proof. intros G. unfold metadata. rewrite G. reflexivity. Qed.

Ltac send_head F :=
  match goal with
  | |- context [bind (send ?c ?p) ?k ?s] =>
      let H := fresh in
      assert (H : fileno (sock_get c (sockets s)) <> -1)
        by (repeat rewrite sent_fileno; exact F);
      rewrite (bind_ok _ _ _ _ _ (send_run s c p H)); clear H
  end.

(** On an open connection the greeting is sent in full. *)
Lemma greet_run conn st :
  fileno (sock_get conn (sockets st)) <> -1 ->
  greet conn st = (Ok tt, sent_all conn greeting st).
Proof.
  intros F. unfold greet.
  send_head F.
  rewrite (bind_ok _ _ _ _ _ (metadata_run "server_name" _ _ eq_refl)).
  send_head F.
  rewrite (bind_ok _ _ _ _ _ (metadata_run "server_license" _ _ eq_refl)).
  send_head F.
  rewrite (bind_ok _ _ _ _ _ (metadata_run "server_license_url" _ _ eq_refl)).
  send_head F.
  rewrite (bind_ok _ _ _ _ _ (metadata_run "commercial_license" _ _ eq_refl)).
  send_head F.
  rewrite (bind_ok _ _ _ _ _ (metadata_run "commercial_license_url" _ _ eq_refl)).
  send_head F.
  rewrite send_run by (repeat rewrite sent_fileno; exact F).
  reflexivity.
Qed.

(** ** The read loop of a session *)

Lemma ascii_not_marker bs :
  ascii_bytes bs = true -> Forall (fun b => b <> 255) bs.
Proof.
  unfold ascii_bytes. rewrite forallb_forall, Forall_forall.
  intros A b I. specialize (A b I). apply andb_true_iff in A.
  destruct A as [_ A]. apply Z.ltb_lt in A. lia.
Qed.

Lemma utf8_decode_ascii bs : ascii_bytes bs = true -> utf8_decode bs = Some bs.
Proof.
  induction bs as [|b bs IH]; intros A; [reflexivity|].
  cbn [ascii_bytes forallb] in A. apply andb_true_iff in A. destruct A as [A1 A2].
  cbn [utf8_decode]. rewrite A1, (IH A2). reflexivity.
Qed.

Lemma scrub_spec_free text :
  Forall (fun b => b <> 255) text -> scrub_spec text = text.
Proof.
  intros F. rewrite <- (app_nil_r text) at 1.
  rewrite (scrub_spec_text text [] F). cbn [scrub_spec]. apply app_nil_r.
Qed.

(** The scrubbing loop on a settled state: the bytes outside the marker
    sequences, and a state that only ticks and checkpoints have changed. *)
Lemma scrub_run raw st :
  settled st = true ->
  exists st', scrub raw st = (Ok (scrub_spec raw), st')
              /\ quiet st st' /\ settled st' = true.
Proof.
  intros S. unfold scrub.
  destruct (scrub_loop_ok (List.length raw) raw 0 [] st S) as (v & st' & E & Q & S').
  assert (V := scrub_loop_value _ _ _ _ _ _ _ (Nat.le_sub_l _ _) E).
  cbn [skipn app] in V. subst v. eauto.
Qed.

Lemma recv_chunk conn st chunk rest :
  fileno (sock_get conn (sockets st)) <> -1 ->
  sk_in (sock_get conn (sockets st)) = chunk :: rest ->
  exists st', recv conn st = (Ok chunk, st')
              /\ users st' = users st
              /\ settled st' = settled st
              /\ fileno (sock_get conn (sockets st'))
                 = fileno (sock_get conn (sockets st))
              /\ sk_in (sock_get conn (sockets st')) = rest
              /\ console st' = console st.
Proof.
  intros F I. unfold recv. cbv [bind gets modify ret]. cbv beta iota.
  apply Z.eqb_neq in F. rewrite F, I.
  eexists. split; [reflexivity|].
  cbn [users sockets set_sockets console]. rewrite sock_get_set_eq.
  repeat split.
Qed.

Lemma endswith_nl_app d c : c <> [] -> endswith_nl (d ++ c) = endswith_nl c.
Proof.
  intros N. unfold endswith_nl. rewrite rev_app_distr.
  destruct (rev c) as [|x r] eqn:E; [|reflexivity].
  apply (f_equal (@rev Z)) in E. rewrite rev_involutive in E. contradiction.
Qed.

(** The read loop of [handle_client] computes [assemble] on the pending
    chunks, as long as they are ASCII. *)
Lemma read_line_assemble conn chunks : forall fuel d st,
  settled st = true ->
  fileno (sock_get conn (sockets st)) <> -1 ->
  sk_in (sock_get conn (sockets st)) = chunks ->
  forallb ascii_bytes chunks = true ->
  (List.length chunks < fuel)%nat ->
  exists st',
    read_line fuel conn d st = (Ok (fst (assemble chunks d)), st')
    /\ settled st' = true
    /\ fileno (sock_get conn (sockets st')) = fileno (sock_get conn (sockets st))
    /\ sk_in (sock_get conn (sockets st')) = snd (assemble chunks d)
    /\ calmed (users st) (users st').
Proof.
  induction chunks as [|c cs IH]; intros fuel d st S F I A L;
    (destruct fuel as [|fuel]; [inversion L|]); cbn [read_line assemble].
  - destruct (endswith_nl d).
    + exists st. cbn [fst snd]. split; [reflexivity|].
      split; [exact S|]. split; [reflexivity|]. split; [exact I | apply calmed_refl].
    + destruct (server_tick_ok st S) as (st1 & E1 & [Qu Qs] & _ & S1).
      destruct (Qs conn) as [F1 I1].
      rewrite (bind_ok _ _ _ _ _ E1).
      rewrite (bind_ok _ _ _ _ _
                 (recv_nothing st1 conn ltac:(congruence) ltac:(congruence))).
      exists st1. cbn [fst snd]. split; [reflexivity|].
      split; [exact S1|]. split; [exact F1|]. split; [congruence | exact Qu].
  - destruct (endswith_nl d).
    + exists st. cbn [fst snd]. split; [reflexivity|].
      split; [exact S|]. split; [reflexivity|]. split; [exact I | apply calmed_refl].
    + destruct (server_tick_ok st S) as (st1 & E1 & [Qu1 Qs1] & _ & S1).
      destruct (Qs1 conn) as [F1 I1].
      rewrite (bind_ok _ _ _ _ _ E1).
      destruct (recv_chunk conn st1 c cs ltac:(congruence) ltac:(congruence))
        as (st2 & E2 & U2 & S2 & F2 & I2 & _).
      rewrite (bind_ok _ _ _ _ _ E2).
      cbn [forallb] in A. apply andb_true_iff in A. destruct A as [Ac As].
      destruct c as [|b c].
      * exists st2. cbn [fst snd]. split; [reflexivity|].
        split; [congruence|]. split; [congruence|]. split; [exact I2|].
        rewrite U2. exact Qu1.
      * destruct (scrub_run (b :: c) st2 ltac:(congruence))
          as (st3 & E3 & [Qu3 Qs3] & S3).
        destruct (Qs3 conn) as [F3 I3].
        rewrite (bind_ok _ _ _ _ _ E3).
        rewrite (scrub_spec_free _ (ascii_not_marker _ Ac)).
        rewrite (utf8_decode_ascii _ Ac).
        assert (F3' : fileno (sock_get conn (sockets st3)) <> -1) by congruence.
        rewrite (bind_ok _ _ _ _ _ (send_run st3 conn _ F3')).
        destruct (IH fuel (d ++ b :: c) (sent conn (Text (b :: c)) st3))
          as (st4 & E4 & S4 & F4 & I4 & Qu4).
        -- exact S3.
        -- rewrite sent_fileno. exact F3'.
        -- rewrite sent_sk_in. congruence.
        -- exact As.
        -- cbn [List.length] in L. lia.
        -- exists st4. split; [exact E4|]. split; [exact S4|].
           split; [rewrite F4, sent_fileno; congruence|].
           split; [exact I4|].
           eapply calmed_trans; [exact Qu1|]. rewrite <- U2.
           eapply calmed_trans; [exact Qu3 | exact Qu4].
Qed.

Lemma assemble_line chunks : forall d last rest,
  endswith_nl d = false ->
  Forall (fun c => c <> [] /\ endswith_nl c = false) chunks ->
  endswith_nl last = true ->
  assemble (chunks ++ last :: rest) d = (d ++ List.concat chunks ++ last, rest).
Proof.
  induction chunks as [|c cs IH]; intros d last rest D C N.
  - cbn [app assemble List.concat]. rewrite D.
    destruct last as [|b last]; [discriminate|].
    destruct rest as [|x rest]; cbn [assemble]; [reflexivity|].
    rewrite endswith_nl_app by discriminate. rewrite N. reflexivity.
  - inversion C as [|? ? [C1 C2] C3]; subst.
    cbn [app assemble List.concat]. rewrite D.
    destruct c as [|b c]; [congruence|].
    rewrite IH; auto.
    + rewrite <- !app_assoc. reflexivity.
    + rewrite endswith_nl_app by discriminate. exact C2.
Qed.

(** X11: a command line that arrives in several packets is put together
    again: the session's read loop takes packets until the text ends with a
    newline, and returns the packets joined in order, each taken once.
    Packets behind the one that ends the line stay pending for the next
    turn. *)
Theorem line_is_assembled_from_packets
    (st : state) (conn : nat) (chunks : list bytes) (last : bytes)
    (rest : list bytes) :
  settled st = true ->
  fileno (sock_get conn (sockets st)) <> -1 ->
  sk_in (sock_get conn (sockets st)) = chunks ++ last :: rest ->
  forallb ascii_bytes (chunks ++ [last]) = true ->
  forallb ascii_bytes rest = true ->
  Forall (fun c => c <> [] /\ endswith_nl c = false) chunks ->
  endswith_nl last = true ->
  exists st',
    read_line (S (List.length (chunks ++ last :: rest))) conn [] st
    = (Ok (List.concat chunks ++ last), st')
    /\ sk_in (sock_get conn (sockets st')) = rest
    /\ fileno (sock_get conn (sockets st')) = fileno (sock_get conn (sockets st))
    /\ settled st' = true.
Proof.
  intros St F I A Ar C N.
  destruct (read_line_assemble conn (chunks ++ last :: rest)
              (S (List.length (chunks ++ last :: rest))) [] st St F I)
    as (st' & E & S' & F' & I' & _).
  - rewrite forallb_app in A |- *. apply andb_true_iff in A.
    destruct A as [A1 A2]. rewrite A1. cbn [forallb andb] in A2 |- *.
    apply andb_true_iff in A2. destruct A2 as [A2 _]. rewrite A2. exact Ar.
  - lia.
  - assert (AL := assemble_line chunks [] last rest eq_refl C N).
    unfold str, bytes in *. rewrite AL in E, I'.
    cbn [fst snd app] in E, I'. eauto.
Qed.

Lemma line_is_assembled_from_packets_witness :
  exists st',
    read_line 4 2 []
      (alice_and_bob [lit "SEND al"; lit "ice hi" ++ [10]; lit "WHO" ++ [10]])
    = (Ok (lit "SEND alice hi" ++ [10]), st')
    /\ sk_in (sock_get 2 (sockets st')) = [lit "WHO" ++ [10]].
Proof.
  destruct (line_is_assembled_from_packets
              (alice_and_bob [lit "SEND al"; lit "ice hi" ++ [10]; lit "WHO" ++ [10]])
              2 [lit "SEND al"] (lit "ice hi" ++ [10]) [lit "WHO" ++ [10]])
    as (st' & E & I & _);
    [reflexivity | discriminate | reflexivity | reflexivity | reflexivity
    | repeat constructor; discriminate | reflexivity |].
  exists st'. split; [exact E | exact I].
Defined.

(** ** Relations that ticks and checkpoints respect *)

Section Respect.

Variable R : state -> state -> Prop.

Hypothesis R_trans : forall a b c, R a b -> R b c -> R a c.

Hypothesis R_frame : forall st st',
  users st' = users st -> sockets st' = sockets st -> R st st'.

Hypothesis R_clear : forall st u r,
  dict_get u (users st) = Some r ->
  (dict_get (lit "conn") r = None
   \/ dict_get (lit "conn") r = Some VNone
   \/ exists c, dict_get (lit "conn") r = Some (VSocket c)
                /\ fileno (sock_get c (sockets st)) = -1) ->
  R st (cleared u r st).

Hypothesis R_send : forall st c p,
  fileno (sock_get c (sockets st)) <> -1 -> R st (sent c p st).

Lemma R_refl st : R st st.
Proof. apply R_frame; reflexivity. Qed.

Lemma respects_ret {A} (a : A) : respects R (ret a).
Proof. intros st x st' E. injection E as _ <-. apply R_refl. Qed.

Lemma respects_raise {A} e : respects R (@raise A e).
Proof. intros st x st' E. injection E as _ <-. apply R_refl. Qed.

Lemma respects_gets {A} (f : state -> A) : respects R (gets f).
Proof. intros st x st' E. injection E as _ <-. apply R_refl. Qed.

Lemma respects_modify (f : state -> state) :
  (forall st, users (f st) = users st) ->
  (forall st, sockets (f st) = sockets st) ->
  respects R (modify f).
Proof. intros U S st x st' E. injection E as _ <-. apply R_frame; auto. Qed.

Lemma respects_bind {A B} (m : M A) (k : A -> M B) :
  respects R m -> (forall a, respects R (k a)) -> respects R (bind m k).
Proof.
  intros Hm Hk st x st' E. unfold bind in E.
  destruct (m st) as [[a|e] st1] eqn:E1.
  - eapply R_trans; [eapply Hm; exact E1 | eapply Hk; exact E].
  - injection E as _ <-. eapply Hm; exact E1.
Qed.

Lemma respects_try_except {A} (m : M A) (h : exn -> M A) :
  respects R m -> (forall e, respects R (h e)) -> respects R (try_except m h).
Proof.
  intros Hm Hh st x st' E. unfold try_except in E.
  destruct (m st) as [[a|e] st1] eqn:E1.
  - injection E as _ <-. eapply Hm; exact E1.
  - eapply R_trans; [eapply Hm; exact E1 | eapply Hh; exact E].
Qed.

Lemma respects_for_each {A} (body : A -> M unit) l :
  (forall x, respects R (body x)) -> respects R (for_each l body).
Proof.
  intros Hb. induction l as [|x l IH]; cbn [for_each].
  - apply respects_ret.
  - apply respects_bind; [apply Hb | intros _; exact IH].
Qed.

Lemma respects_print e : respects R (print e).
Proof. apply respects_modify; reflexivity. Qed.

Lemma respects_now : respects R now.
Proof.
  unfold now. apply respects_bind; [apply respects_gets|]. intros t.
  apply respects_bind; [apply respects_modify; reflexivity|]. intros _.
  apply respects_ret.
Qed.

Lemma respects_send c p : respects R (send c p).
Proof.
  intros st x st' E. unfold send, bind, gets in E.
  destruct (fileno (sock_get c (sockets st)) =? -1) eqn:F.
  - injection E as _ <-. apply R_refl.
  - injection E as _ <-. apply Z.eqb_neq in F. apply (R_send st c p F).
Qed.

Lemma respects_user_record u : respects R (user_record u).
Proof.
  unfold user_record. apply respects_bind; [apply respects_gets|]. intros us.
  destruct (dict_get u us); [apply respects_ret | apply respects_raise].
Qed.

Lemma respects_user_field u k : respects R (user_field u k).
Proof.
  unfold user_field. apply respects_bind; [apply respects_user_record|].
  intros r. destruct (dict_get k r); [apply respects_ret | apply respects_raise].
Qed.

Lemma respects_value_send v p : respects R (value_send v p).
Proof.
  destruct v; cbn [value_send];
    try apply respects_raise. apply respects_send.
Qed.

Lemma respects_user_is_connected u : respects R (user_is_connected u).
Proof.
  intros st x st' E.
  destruct (dict_get u (users st)) as [r|] eqn:G.
  - destruct (dict_get (lit "conn") r) as [v|] eqn:C.
    + destruct v.
      * rewrite (user_is_connected_dead st u r G) in E by auto.
        injection E as _ <-. apply R_clear; auto.
      * unfold user_is_connected in E.
        rewrite (bind_ok _ _ _ _ _ (user_record_run st u r G)), C in E.
        injection E as _ <-. apply R_refl.
      * unfold user_is_connected in E.
        rewrite (bind_ok _ _ _ _ _ (user_record_run st u r G)), C in E.
        injection E as _ <-. apply R_refl.
      * unfold user_is_connected in E.
        rewrite (bind_ok _ _ _ _ _ (user_record_run st u r G)), C in E.
        injection E as _ <-. apply R_refl.
      * unfold user_is_connected in E.
        rewrite (bind_ok _ _ _ _ _ (user_record_run st u r G)), C in E.
        injection E as _ <-. apply R_refl.
      * destruct (Z.eq_dec (fileno (sock_get c (sockets st))) (-1)) as [F|F].
        -- rewrite (user_is_connected_dead st u r G) in E by eauto.
           injection E as _ <-. apply R_clear; eauto.
        -- rewrite (user_is_connected_live st u r c G C F) in E.
           injection E as _ <-. apply R_refl.
    + rewrite (user_is_connected_dead st u r G) in E by auto.
      injection E as _ <-. apply R_clear; auto.
  - unfold user_is_connected, user_record, bind, gets in E. rewrite G in E.
    injection E as _ <-. apply R_refl.
Qed.

Lemma respects_notify t u : respects R (notify t u).
Proof.
  unfold notify. apply respects_bind; [apply respects_user_is_connected|].
  intros [|]; [|apply respects_ret].
  apply respects_bind; [apply respects_user_field|]. intros v.
  apply respects_value_send.
Qed.

Lemma respects_only_prints (m : M unit) : only_prints m -> respects R m.
Proof.
  intros P st x st' E. destruct (P st) as (evs & E'). rewrite E' in E.
  injection E as _ <-. apply R_frame; reflexivity.
Qed.

Lemma respects_serialize_users us acc : respects R (serialize_users us acc).
Proof.
  intros st x st' E. rewrite serialize_users_run in E.
  injection E as _ <-. apply R_frame; reflexivity.
Qed.

Lemma respects_checkpoint : respects R checkpoint.
Proof.
  unfold checkpoint.
  apply respects_bind; [apply respects_now|]. intros t.
  apply respects_bind; [apply respects_print|]. intros _.
  apply respects_bind; [apply respects_gets|]. intros us.
  apply respects_bind;
    [apply respects_for_each; intros u; apply respects_notify|]. intros _.
  apply respects_bind; [apply respects_gets|]. intros us'.
  apply respects_bind; [apply respects_serialize_users|]. intros su.
  apply respects_bind.
  { unfold json_dumps. destruct (plain_data _);
      [apply respects_ret | apply respects_raise]. }
  intros _.
  apply respects_bind; [apply respects_print|]. intros _.
  apply respects_bind; [apply respects_modify; reflexivity|]. intros _.
  apply respects_bind.
  { unfold packb. destruct (plain_data _);
      [apply respects_ret | apply respects_raise]. }
  intros packed.
  apply respects_bind; [apply respects_modify; reflexivity|]. intros _.
  apply respects_bind; [apply respects_gets|]. intros f.
  apply respects_bind.
  { destruct f; cbn [unpackb];
      [apply respects_raise | apply respects_raise | apply respects_ret]. }
  intros packed_users.
  apply respects_bind; [|intros _; apply respects_print].
  destruct packed_users; [apply respects_ret|].
  apply respects_bind; [apply respects_gets|]. intros us2.
  apply respects_for_each. intros item.
  apply respects_only_prints, only_prints_verify_user.
Qed.

Lemma respects_run_task item : respects R (run_task item).
Proof.
  destruct item as [name info]. unfold run_task.
  apply respects_bind; [apply respects_gets|]. intros ticks.
  destruct (interval info =? 0); [apply respects_raise|].
  destruct (ticks mod interval info =? 0); [|apply respects_ret].
  apply respects_bind; [apply respects_modify; reflexivity|]. intros _.
  destruct (function info). apply respects_checkpoint.
Qed.

Lemma respects_server_tick : respects R server_tick.
Proof.
  unfold server_tick.
  apply respects_bind; [apply respects_modify; reflexivity|]. intros _.
  apply respects_bind; [apply respects_gets|]. intros tasks.
  apply respects_for_each, respects_run_task.
Qed.

Lemma respects_scrub_loop fuel : forall raw i acc,
  respects R (scrub_loop fuel raw i acc).
Proof.
  induction fuel as [|fuel IH]; intros raw i acc; cbn [scrub_loop].
  - apply respects_ret.
  - destruct (i <? List.length raw)%nat; [|apply respects_ret].
    apply respects_bind; [apply respects_server_tick|]. intros _.
    destruct (nth i raw 0 =? 255); apply IH.
Qed.

Lemma respects_scrub raw : respects R (scrub raw).
Proof. apply respects_scrub_loop. Qed.

End Respect.

(** ** Ticks and checkpoints around a live connection *)

Lemma undisturbed_trans a b c : undisturbed a b -> undisturbed b c -> undisturbed a c.
Proof.
  intros (S1 & O1 & L1) (S2 & O2 & L2). split; [|split].
  - eapply socks_frame_trans; eauto.
  - intros k. destruct (O1 k) as (m1 & E1). destruct (O2 k) as (m2 & E2).
    exists (m1 ++ m2). rewrite E2, E1, app_assoc. reflexivity.
  - intros u r k G C F. apply (L2 u r k); [eapply L1; eauto | exact C|].
    destruct (S1 k) as [Fk _]. congruence.
Qed.

Lemma undisturbed_frame st st' :
  users st' = users st -> sockets st' = sockets st -> undisturbed st st'.
Proof.
  intros U S. split; [|split].
  - intros c. rewrite S. split; reflexivity.
  - intros c. exists []. rewrite S, app_nil_r. reflexivity.
  - intros u r c G _ _. rewrite U. exact G.
Qed.

Lemma undisturbed_clear st u r :
  dict_get u (users st) = Some r ->
  (dict_get (lit "conn") r = None
   \/ dict_get (lit "conn") r = Some VNone
   \/ exists c, dict_get (lit "conn") r = Some (VSocket c)
                /\ fileno (sock_get c (sockets st)) = -1) ->
  undisturbed st (cleared u r st).
Proof.
  intros G D. split; [|split].
  - intros c. split; reflexivity.
  - intros c. exists []. rewrite app_nil_r. reflexivity.
  - intros u' r' c G' C' F'. cbn [cleared users set_users].
    destruct (str_eqb u' u) eqn:E.
    + apply str_eqb_eq in E. subst u'. assert (r' = r) by congruence. subst r'.
      exfalso. destruct D as [D|[D|(c0 & D & F0)]]; congruence.
    + rewrite dict_get_set_neq by exact E. exact G'.
Qed.

Lemma undisturbed_send st c p :
  fileno (sock_get c (sockets st)) <> -1 -> undisturbed st (sent c p st).
Proof.
  intros F. split; [|split].
  - intros c'. split; [apply sent_fileno | apply sent_sk_in].
  - intros c'. destruct (Nat.eq_dec c' c) as [->|N].
    + exists [p]. apply sent_out.
    + exists []. unfold sent. cbn [sockets set_sockets].
      rewrite sock_get_set_neq by exact N. rewrite app_nil_r. reflexivity.
  - intros u r k G _ _. exact G.
Qed.

Lemma server_tick_undisturbed st x st' :
  server_tick st = (x, st') -> undisturbed st st'.
Proof.
  apply (respects_server_tick undisturbed undisturbed_trans undisturbed_frame
           undisturbed_clear undisturbed_send).
Qed.

Lemma checkpoint_undisturbed st x st' :
  checkpoint st = (x, st') -> undisturbed st st'.
Proof.
  apply (respects_checkpoint undisturbed undisturbed_trans undisturbed_frame
           undisturbed_clear undisturbed_send).
Qed.

Lemma scrub_undisturbed raw st x st' :
  scrub raw st = (x, st') -> undisturbed st st'.
Proof.
  apply (respects_scrub undisturbed undisturbed_trans undisturbed_frame
           undisturbed_clear undisturbed_send).
Qed.



(** ** Connections that end without a word *)



(** X14: input that is not valid UTF-8 ends the session on the spot: the
    decoding error is caught by the [except] clause, printed, and the loop
    is left.  Nothing is echoed for that packet or logged, and nothing is
    cleaned up: the socket is not closed and the user's record keeps the
    connection, so the name stays taken, and a [LOGIN] under it from
    another connection is turned away as already online. *)
Theorem undecodable_input_strands_the_user
    (st : state) (conn : nat) (username : str) (r : record)
    (raw : bytes) (rest : list bytes) :
  settled st = true ->
  dict_get username (users st) = Some r ->
  dict_get (lit "conn") r = Some (VSocket conn) ->
  fileno (sock_get conn (sockets st)) <> -1 ->
  sk_in (sock_get conn (sockets st)) = raw :: rest ->
  raw <> [] ->
  utf8_decode (scrub_spec raw) = None ->
  exists st',
    session_turn conn username st = (Ok Break, st')
    /\ last (console st') (PrintError OSError) = PrintError UnicodeDecodeError
    /\ fileno (sock_get conn (sockets st')) = fileno (sock_get conn (sockets st))
    /\ dict_get username (users st') = Some r
    /\ forall conn2 line more,
         fileno (sock_get conn2 (sockets st')) <> -1 ->
         line <> [] ->
         split_space (strip line) = lit "LOGIN" :: username :: more ->
         (4 <= List.length username)%nat ->
         login conn2 line st'
         = (Ok Rejected,
            closed conn2
              (sent conn2
                 (Text (lit "ERROR: Username is already online. Bye." ++ crlf))
                 st')).
Proof.
  intros St G C F I NE D.
  destruct (server_tick_ok st St) as (st1 & E1 & _ & _ & S1).
  destruct (server_tick_undisturbed st _ st1 E1) as (Qs1 & _ & L1).
  destruct (Qs1 conn) as [F1 I1].
  assert (G1 := L1 username r conn G C F).
  destruct (server_tick_ok st1 S1) as (st2 & E2 & _ & _ & S2).
  destruct (server_tick_undisturbed st1 _ st2 E2) as (Qs2 & _ & L2).
  destruct (Qs2 conn) as [F2 I2].
  assert (G2 := L2 username r conn G1 C ltac:(congruence)).
  destruct (recv_chunk conn st2 raw rest ltac:(congruence) ltac:(congruence))
    as (st3 & E3 & U3 & S3 & F3 & I3 & _).
  destruct (scrub_run raw st3 ltac:(congruence)) as (st4 & E4 & _ & S4).
  destruct (scrub_undisturbed raw st3 _ st4 E4) as (Qs4 & _ & L4).
  destruct (Qs4 conn) as [F4 I4].
  assert (G4 : dict_get username (users st4) = Some r).
  { apply (L4 username r conn); [rewrite U3; exact G2 | exact C | congruence]. }
  assert (R : read_line (S (List.length (raw :: rest))) conn [] st1
              = (Raise UnicodeDecodeError, st4)).
  { cbn [read_line endswith_nl rev].
    rewrite (bind_ok _ _ _ _ _ E2), (bind_ok _ _ _ _ _ E3).
    destruct raw as [|b raw]; [congruence|].
    rewrite (bind_ok _ _ _ _ _ E4), D. reflexivity. }
  unfold session_turn. rewrite (bind_ok _ _ _ _ _ E1).
  unfold try_except. unfold bind at 1. cbv [gets]. rewrite I1, I.
  rewrite (bind_raise _ _ _ _ _ R).
  eexists. split; [reflexivity|].
  cbn [console set_console sockets users].
  split; [apply last_last|]. split; [congruence|]. split; [exact G4|].
  intros conn2 line more F' NL P Len.
  apply (login_online_rejected _ conn2 conn line username more r); auto.
  cbn [sockets set_console]. congruence.
Qed.

Lemma undecodable_input_strands_the_user_witness :
  exists st' st2,
    session_turn 1 (lit "alice")
      (set_sockets (fun _ => [(1%nat, open_socket 7 [[200]; lit "WHO" ++ [10]]);
                              (3%nat, open_socket 9 [])])
         (alice_and_bob []))
    = (Ok Break, st')
    /\ console st' = [PrintError UnicodeDecodeError]
    /\ fileno (sock_get 1 (sockets st')) = 7
    /\ dict_get (lit "alice") (users st') = Some (noon_user 1)
    /\ login 3 (lit "LOGIN alice" ++ [10]) st' = (Ok Rejected, st2)
    /\ sk_out (sock_get 3 (sockets st2))
       = [Text (lit "ERROR: Username is already online. Bye." ++ crlf)].
Proof.
  destruct (undecodable_input_strands_the_user
              (set_sockets
                 (fun _ => [(1%nat, open_socket 7 [[200]; lit "WHO" ++ [10]]);
                            (3%nat, open_socket 9 [])])
                 (alice_and_bob []))
              1 (lit "alice") (noon_user 1) [200] [lit "WHO" ++ [10]])
    as (st' & E & _ & F & G & R);
    [reflexivity | reflexivity | reflexivity | discriminate | reflexivity
    | discriminate | reflexivity |].
  exists st'. eexists. split; [exact E|].
  split; [injection E as <-; vm_compute; reflexivity|].
  split; [exact F|]. split; [exact G|].
  split; [apply (R 3%nat (lit "LOGIN alice" ++ [10]) []);
          [injection E as <-; vm_compute; discriminate | discriminate
          | reflexivity | simpl; lia]|].
  injection E as <-. vm_compute. reflexivity.
Defined.

(** ** What a checkpoint tells and keeps *)








(** X16: with one periodic task, a tick runs it exactly when the counter,
    once incremented, is a multiple of the task's interval.  On any other
    tick nothing but the counter changes; on such a tick the task's
    [last_run] is set to the new count and the directory is saved. *)
Theorem checkpoint_runs_on_multiples_of_interval
    (st : state) (name : str) (info : task) :
  wf_users (users st) = true ->
  period_tasks st = [(name, info)] ->
  interval info <> 0 ->
  ((server_ticks st + 1) mod interval info <> 0 ->
   server_tick st = (Ok tt, set_server_ticks (fun t => t + 1) st))
  /\ ((server_ticks st + 1) mod interval info = 0 ->
      exists st',
        server_tick st = (Ok tt, st')
        /\ server_ticks st' = server_ticks st + 1
        /\ period_tasks st'
           = [(name, {| interval := interval info;
                        last_run := server_ticks st + 1;
                        function := function info |})]
        /\ checkpoint_file st' = Packed (kept_users (users st) [])).
Proof.
  intros W P N. apply Z.eqb_neq in N.
  unfold server_tick. cbv [bind gets modify]. cbv beta iota.
  cbn [period_tasks set_server_ticks]. rewrite P. cbn [for_each].
  unfold run_task. cbv [bind gets modify ret]. cbv beta iota.
  cbn [server_ticks set_server_ticks]. rewrite N.
  split; intros D.
  - apply Z.eqb_neq in D. rewrite D. reflexivity.
  - apply Z.eqb_eq in D. rewrite D.
    destruct (function info) eqn:Fn. cbv [call].
    match goal with
    | |- context [checkpoint ?s] =>
        destruct (checkpoint_ok s W) as (st' & evs & E & _ & T & Pt & _ & Fl & _)
    end.
    rewrite E. exists st'. split; [reflexivity|].
    split; [exact T|]. split; [|exact Fl].
    rewrite Pt. cbn [period_tasks set_period_tasks set_server_ticks].
    rewrite P. cbn [dict_set]. rewrite str_eqb_refl. reflexivity.
Qed.

Lemma checkpoint_runs_on_multiples_of_interval_witness :
  server_tick (set_server_ticks (fun _ => 600) (alice_and_bob []))
  = (Ok tt, set_server_ticks (fun _ => 601) (alice_and_bob []))
  /\ exists st',
       server_tick (set_server_ticks (fun _ => 1199) (alice_and_bob []))
       = (Ok tt, st')
       /\ period_tasks st'
          = [(lit "checkpoint",
              {| interval := 600; last_run := 1200; function := Fcheckpoint |})].
Proof.
  split.
  - apply (checkpoint_runs_on_multiples_of_interval
             (set_server_ticks (fun _ => 600) (alice_and_bob []))
             (lit "checkpoint")
             {| interval := 600; last_run := -1; function := Fcheckpoint |});
      [reflexivity | reflexivity | discriminate | discriminate].
  - destruct (checkpoint_runs_on_multiples_of_interval
                (set_server_ticks (fun _ => 1199) (alice_and_bob []))
                (lit "checkpoint")
                {| interval := 600; last_run := -1; function := Fcheckpoint |})
      as [_ H]; [reflexivity | reflexivity | discriminate |].
    destruct H as (st' & E & _ & P & _); [reflexivity|].
    exists st'. split; [exact E | exact P].
Defined.

Lemma inbox_entry_not_plain t m inbox :
  In (inbox_entry t m) inbox -> plain_data (VList inbox) = false.
Proof.
  intros I. cbn [plain_data]. apply not_true_is_false. intros A.
  rewrite forallb_forall in A. specialize (A _ I). discriminate.
Qed.

(** X17: received messages do not survive a restart.  An inbox entry holds
    a [datetime] object, which [msgpack] cannot pack, so once a user has
    received a message the checkpoint holds that user without the
    [messages_received] field; in the directory loaded from that file,
    looking the field up raises [KeyError]. *)
Theorem received_messages_do_not_survive_restart
    (st : state) (u : str) (r : record) (inbox : list value)
    (t : datetime) (m : str) :
  wf_users (users st) = true ->
  proper_directory (users st) = true ->
  dict_get u (users st) = Some r ->
  dict_get (lit "messages_received") r = Some (VList inbox) ->
  In (inbox_entry t m) inbox ->
  exists st' saved r',
    checkpoint st = (Ok tt, st')
    /\ checkpoint_file st' = Packed saved
    /\ dict_get u saved = Some r'
    /\ dict_get (lit "messages_received") r' = None
    /\ forall boot, checkpoint_file boot = Packed saved ->
       exists booted,
         load_checkpoint boot = (Ok tt, booted)
         /\ users booted = saved
         /\ user_field u (lit "messages_received") booted
            = (Raise KeyError, booted).
Proof.
  intros W PD G I E.
  destruct (checkpoint_ok st W) as (st' & evs & C & _ & _ & _ & _ & Fl & _).
  assert (U : unique_keys (users st) = true)
    by (unfold proper_directory in PD; apply andb_true_iff in PD; tauto).
  assert (Gs : dict_get u (kept_users (users st) []) = Some (kept_fields r []))
    by (rewrite (dict_get_kept_users _ _ _ U), G; reflexivity).
  assert (N : dict_get (lit "messages_received") (kept_fields r []) = None).
  { rewrite (dict_get_kept_fields _ _ _ (proper_record _ _ _ PD G)), I.
    unfold kept_value.
    replace (str_eqb (lit "conn") (lit "messages_received")) with false
      by reflexivity.
    rewrite (inbox_entry_not_plain t m inbox E). reflexivity. }
  exists st', (kept_users (users st) []), (kept_fields r []).
  split; [exact C|]. split; [exact Fl|]. split; [exact Gs|]. split; [exact N|].
  intros boot B. unfold load_checkpoint. unfold bind at 1. cbv [gets].
  rewrite B. cbv [unpackb bind ret modify]. cbv beta iota.
  exists (set_users (fun _ => kept_users (users st) []) boot).
  split; [reflexivity|]. split; [reflexivity|].
  unfold user_field.
  rewrite (bind_ok _ _ _ _ _
             (user_record_run
                (set_users (fun _ => kept_users (users st) []) boot) u _ Gs)), N.
  reflexivity.
Qed.

Lemma received_messages_do_not_survive_restart_witness :
  exists st' saved r',
    checkpoint alice_with_mail = (Ok tt, st')
    /\ checkpoint_file st' = Packed saved
    /\ dict_get (lit "alice") saved = Some r'
    /\ dict_get (lit "messages_received") r' = None.
Proof.
  destruct (received_messages_do_not_survive_restart alice_with_mail
              (lit "alice")
              [(lit "conn", VSocket 1);
               (lit "commands",
                  VList [VList [VStr (isoformat at_noon); VStr (lit "WHO" ++ [10])]]);
               (lit "messages_received", VList [inbox_entry at_noon (lit "hello")]);
               (lit "first_login", VStr (isoformat at_noon));
               (lit "last_active", VStr (isoformat at_noon))]
              [inbox_entry at_noon (lit "hello")] at_noon (lit "hello"))
    as (st' & saved & r' & C & F & G & N & _);
    [reflexivity | reflexivity | reflexivity | reflexivity | left; reflexivity |].
  exists st', saved, r'. auto.
Defined.

Lemma for_each_prints_In {A} (body : A -> M unit) l x e :
  (forall y, only_prints (body y)) ->
  In x l ->
  (forall s, exists ev1,
      body x s = (Ok tt, set_console (fun c => c ++ ev1) s) /\ In e ev1) ->
  forall s, exists evs,
    for_each l body s = (Ok tt, set_console (fun c => c ++ evs) s) /\ In e evs.
Proof.
  intros P I B. induction l as [|a l IH]; [destruct I|]. intros s.
  cbn [for_each]. destruct I as [->|I].
  - destruct (B s) as (ev1 & E1 & I1). rewrite (bind_ok _ _ _ _ _ E1).
    destruct (only_prints_for_each body l P (set_console (fun c => c ++ ev1) s))
      as (ev2 & E2).
    rewrite E2, set_console_app. exists (ev1 ++ ev2).
    split; [reflexivity | apply in_or_app; left; exact I1].
  - destruct (P a s) as (ev1 & E1). rewrite (bind_ok _ _ _ _ _ E1).
    destruct (IH I (set_console (fun c => c ++ ev1) s)) as (ev2 & E2 & I2).
    rewrite E2, set_console_app. exists (ev1 ++ ev2).
    split; [reflexivity | apply in_or_app; right; exact I2].
Qed.

Lemma only_prints_verify_field t u packed item :
  only_prints (verify_field t u packed item).
Proof.
  destruct item as [k v]. unfold verify_field.
  destruct (dict_get k packed) as [v'|].
  - destruct (negb (value_eqb v v'));
      [apply only_prints_print | apply only_prints_ret].
  - destruct (negb (str_eqb (lit "conn") k));
      [apply only_prints_print | apply only_prints_ret].
Qed.

Lemma verify_field_complains t u r k v s :
  unique_keys r = true ->
  dict_get k r = Some v ->
  str_eqb k (lit "conn") = false ->
  plain_data v = false ->
  verify_field t u (kept_fields r []) (k, v) s
  = (Ok tt, set_console (fun c => c ++ [verify_complaint t u k v]) s).
Proof.
  intros U G N P. unfold verify_field.
  rewrite (dict_get_kept_fields _ _ _ U), G. unfold kept_value.
  rewrite str_eqb_sym in N. rewrite N.
  destruct v; try discriminate; try (rewrite P); reflexivity.
Qed.

(** X18: the verification at the end of a checkpoint reports every field
    it did not store as it is: for a field (other than [conn]) that
    [msgpack] cannot pack, [checkpoint] prints an error line, [does not
    match] for a [datetime] (stored as text) and [does not EXIST] for a
    field that was dropped, and then prints [Checkpoint complete.] all the
    same. *)
Theorem checkpoint_reports_what_it_changed
    (st : state) (u k : str) (r : record) (v : value) :
  wf_users (users st) = true ->
  proper_directory (users st) = true ->
  dict_get u (users st) = Some r ->
  dict_get k r = Some v ->
  str_eqb k (lit "conn") = false ->
  plain_data v = false ->
  exists st',
    checkpoint st = (Ok tt, st')
    /\ In (verify_complaint (wall st (clock st)) u k v) (console st')
    /\ last (console st') (PrintError OSError)
       = PrintCheckpointComplete (wall st (clock st)).
Proof.
  intros W PD G Gk Nk Pv. unfold checkpoint.
  cbv [now].
  cbv [bind gets modify ret print]. cbv beta iota.
  set (t := wall st (clock st)).
  set (st1 := set_console (fun c => c ++ [PrintCheckpointTo t]) (set_clock S st)).
  destruct (notify_all_ok t (dict_keys (users st1)) st1) as (st2 & E2 & Q2 & R2);
    [exact W | auto |].
  rewrite E2, serialize_users_run.
  assert (K : kept_users (users st2) [] = kept_users (users st) [])
    by (apply kept_users_calmed, Q2).
  assert (C : all_complaints (users st2) = all_complaints (users st))
    by (apply all_complaints_calmed, Q2).
  rewrite K, C.
  unfold json_dumps, packb.
  rewrite plain_directory, kept_users_plain by reflexivity.
  cbv [ret unpackb set_checkpoint_file checkpoint_file]. cbv beta iota.
  assert (U : unique_keys (users st) = true)
    by (unfold proper_directory in PD; apply andb_true_iff in PD; tauto).
  assert (Ur := proper_record _ _ _ PD G).
  assert (Gs : dict_get u (kept_users (users st) []) = Some (kept_fields r []))
    by (rewrite (dict_get_kept_users _ _ _ U), G; reflexivity).
  destruct (calmed_field _ _ u r k (proj1 Q2) G Nk) as (r2 & G2 & Gk2).
  rewrite Gk in Gk2.
  match goal with
  | |- context [let (_, _) := ?m ?s in _] =>
      assert (V : exists evs,
                 m s = (Ok tt, set_console (fun c => c ++ evs) s)
                 /\ In (verify_complaint t u k v) evs)
  end.
  { destruct (kept_users (users st) []) as [|p packed] eqn:Ku;
      [discriminate|]. rewrite <- Ku in *.
    apply (for_each_prints_In _ _ (u, r2)).
    - intros y. apply only_prints_verify_user.
    - apply dict_get_In. exact G2.
    - intros s. unfold verify_user. rewrite Gs.
      apply (for_each_prints_In _ _ (k, v)).
      + intros y. apply only_prints_verify_field.
      + apply dict_get_In. exact Gk2.
      + intros s'. eexists. split;
          [apply verify_field_complains; assumption | left; reflexivity]. }
  destruct V as (evs & V & I). rewrite V. clear V.
  eexists. split; [reflexivity|].
  cbn [console set_console].
  split; [|apply last_last].
  apply in_or_app. left. apply in_or_app. right. exact I.
Qed.

Lemma checkpoint_reports_what_it_changed_witness :
  exists st',
    checkpoint alice_with_mail = (Ok tt, st')
    /\ In (PrintDoesNotExist at_noon (lit "alice") (lit "messages_received"))
          (console st')
    /\ last (console st') (PrintError OSError) = PrintCheckpointComplete at_noon.
Proof.
  apply (checkpoint_reports_what_it_changed alice_with_mail (lit "alice")
           (lit "messages_received")
           [(lit "conn", VSocket 1);
            (lit "commands",
               VList [VList [VStr (isoformat at_noon); VStr (lit "WHO" ++ [10])]]);
            (lit "messages_received", VList [inbox_entry at_noon (lit "hello")]);
            (lit "first_login", VStr (isoformat at_noon));
            (lit "last_active", VStr (isoformat at_noon))]
           (VList [inbox_entry at_noon (lit "hello")]));
    reflexivity.
Defined.

(** ** Saving what was restored *)

Lemma dict_set_fresh {V} (k : str) (v : V) (d : dict V) :
  dict_get k d = None -> dict_set k v d = d ++ [(k, v)].
Proof.
  induction d as [|[k0 v0] d IH]; cbn [dict_get dict_set app]; intros N.
  - reflexivity.
  - destruct (str_eqb k k0); [discriminate|]. rewrite (IH N). reflexivity.
Qed.

Lemma dict_mem_app_mid {V} (acc : dict V) k v rest :
  dict_mem k (acc ++ (k, v) :: rest) = true.
Proof.
  unfold dict_mem. induction acc as [|[k0 v0] acc IH]; cbn [app dict_get].
  - rewrite str_eqb_refl. reflexivity.
  - destruct (str_eqb k k0); [reflexivity | exact IH].
Qed.

Lemma unique_keys_app_get {V} (acc : dict V) k v rest :
  unique_keys (acc ++ (k, v) :: rest) = true -> dict_get k acc = None.
Proof.
  induction acc as [|[k0 v0] acc IH]; cbn [app unique_keys dict_get]; intros U.
  - reflexivity.
  - apply andb_true_iff in U. destruct U as [U1 U2].
    destruct (str_eqb k k0) eqn:E; [|exact (IH U2)].
    apply str_eqb_eq in E. subst k0.
    rewrite dict_mem_app_mid in U1. discriminate.
Qed.

Lemma forallb_dict_put {V} (P : str * V -> bool) k v (d : dict V) :
  P (k, v) = true -> forallb P d = true -> forallb P (dict_set k v d) = true.
Proof.
  intros Pk. induction d as [|[k0 v0] d IH]; cbn [dict_set forallb]; intros F.
  - rewrite Pk. reflexivity.
  - apply andb_true_iff in F. destruct F as [F1 F2].
    destruct (str_eqb k k0) eqn:E; cbn [forallb].
    + apply str_eqb_eq in E. subst k0. rewrite Pk, F2. reflexivity.
    + rewrite F1, (IH F2). reflexivity.
Qed.

Lemma kept_fields_stable items : forall acc,
  unique_keys (acc ++ items) = true ->
  forallb (fun kv => negb (str_eqb (lit "conn") (fst kv)) && plain_data (snd kv))
          items = true ->
  kept_fields items acc = acc ++ items.
Proof.
  induction items as [|[k v] items IH]; intros acc U F; cbn [kept_fields].
  - rewrite app_nil_r. reflexivity.
  - cbn [forallb fst snd] in F. apply andb_true_iff in F. destruct F as [F1 F2].
    apply andb_true_iff in F1. destruct F1 as [Fk Fv].
    apply negb_true_iff in Fk.
    assert (Kv : kept_value k v = Some v).
    { unfold kept_value. rewrite Fk.
      destruct v; try discriminate; try (rewrite Fv); reflexivity. }
    rewrite Kv, (dict_set_fresh _ _ _ (unique_keys_app_get _ _ _ _ U)).
    rewrite IH; [rewrite <- app_assoc; reflexivity | | exact F2].
    rewrite <- app_assoc. exact U.
Qed.

Lemma restorable_fixed q : restorable q = true -> kept_fields q [] = q.
Proof.
  unfold restorable. intros R. apply andb_true_iff in R. destruct R as [U F].
  apply (kept_fields_stable q []); assumption.
Qed.

Lemma kept_users_stable us : forall acc,
  unique_keys (acc ++ us) = true ->
  forallb (fun ur => restorable (snd ur)) us = true ->
  kept_users us acc = acc ++ us.
Proof.
  induction us as [|[u q] us IH]; intros acc U F; cbn [kept_users].
  - rewrite app_nil_r. reflexivity.
  - cbn [forallb snd] in F. apply andb_true_iff in F. destruct F as [F1 F2].
    rewrite (restorable_fixed q F1).
    rewrite (dict_set_fresh _ _ _ (unique_keys_app_get _ _ _ _ U)).
    rewrite IH; [rewrite <- app_assoc; reflexivity | | exact F2].
    rewrite <- app_assoc. exact U.
Qed.

Lemma unique_keys_kept_fields items : forall acc,
  unique_keys acc = true -> unique_keys (kept_fields items acc) = true.
Proof.
  induction items as [|[k v] items IH]; intros acc U; cbn [kept_fields]; auto.
  apply IH. destruct (kept_value k v); [apply unique_keys_set|]; exact U.
Qed.

Lemma clean_kept_fields items : forall acc,
  forallb (fun kv => negb (str_eqb (lit "conn") (fst kv)) && plain_data (snd kv))
          acc = true ->
  forallb (fun kv => negb (str_eqb (lit "conn") (fst kv)) && plain_data (snd kv))
          (kept_fields items acc) = true.
Proof.
  induction items as [|[k v] items IH]; intros acc F; cbn [kept_fields]; auto.
  apply IH. destruct (kept_value k v) as [x|] eqn:K; [|exact F].
  apply forallb_dict_put; [|exact F]. cbn [fst snd].
  unfold kept_value in K. destruct (str_eqb (lit "conn") k); [discriminate|].
  cbn [negb andb].
  destruct v; try (destruct (plain_data _) eqn:Pv; inversion K; subst; exact Pv).
  inversion K. reflexivity.
Qed.

Lemma restorable_kept_fields r : restorable (kept_fields r []) = true.
Proof.
  unfold restorable.
  rewrite unique_keys_kept_fields, clean_kept_fields; reflexivity.
Qed.

Lemma unique_keys_kept_users us : forall acc,
  unique_keys acc = true -> unique_keys (kept_users us acc) = true.
Proof.
  induction us as [|[u r] us IH]; intros acc U; cbn [kept_users]; auto.
  apply IH, unique_keys_set, U.
Qed.

Lemma restorable_kept_users us : forall acc,
  forallb (fun ur => restorable (snd ur)) acc = true ->
  forallb (fun ur => restorable (snd ur)) (kept_users us acc) = true.
Proof.
  induction us as [|[u r] us IH]; intros acc F; cbn [kept_users]; auto.
  apply IH, forallb_dict_put; [apply restorable_kept_fields | exact F].
Qed.

(** What [checkpoint] writes is a fixed point of what it keeps. *)
Lemma kept_users_twice us :
  kept_users (kept_users us []) [] = kept_users us [].
Proof.
  apply (kept_users_stable (kept_users us []) []).
  - apply unique_keys_kept_users. reflexivity.
  - apply restorable_kept_users. reflexivity.
Qed.

Lemma no_conn_wf su : no_conn su = true -> wf_users su = true.
Proof.
  unfold no_conn, wf_users. rewrite !forallb_forall. intros N ur I.
  specialize (N ur I). apply negb_true_iff, dict_mem_false in N.
  unfold conn_ok. rewrite N. reflexivity.
Qed.

(** X19: save, restart, save again: the directory that [load_checkpoint]
    reads from a file written by [checkpoint] is saved by the next
    [checkpoint] exactly as it was read.  A restart loses what the first
    save could not pack, and nothing more after that. *)
Theorem restored_directory_is_saved_unchanged (st : state) :
  wf_users (users st) = true ->
  exists st1 saved,
    checkpoint st = (Ok tt, st1)
    /\ checkpoint_file st1 = Packed saved
    /\ forall boot, checkpoint_file boot = Packed saved ->
       exists booted st2,
         load_checkpoint boot = (Ok tt, booted)
         /\ users booted = saved
         /\ checkpoint booted = (Ok tt, st2)
         /\ checkpoint_file st2 = Packed saved.
Proof.
  intros W.
  destruct (checkpoint_ok st W) as (st1 & evs & C & _ & _ & _ & _ & Fl & _).
  exists st1, (kept_users (users st) []). split; [exact C|]. split; [exact Fl|].
  intros boot B.
  set (booted := set_users (fun _ => kept_users (users st) []) boot).
  assert (L : load_checkpoint boot = (Ok tt, booted)).
  { unfold load_checkpoint. unfold bind at 1. cbv [gets]. rewrite B.
    reflexivity. }
  assert (Wb : wf_users (users booted) = true).
  { apply no_conn_wf. apply (kept_users_no_conn (users st) []). reflexivity. }
  destruct (checkpoint_ok booted Wb) as (st2 & evs2 & C2 & _ & _ & _ & _ & Fl2 & _).
  exists booted, st2. split; [exact L|]. split; [reflexivity|].
  split; [exact C2|]. rewrite Fl2. cbn [booted users set_users].
  rewrite kept_users_twice. reflexivity.
Qed.

Lemma restored_directory_is_saved_unchanged_witness :
  exists st1 saved booted st2,
    checkpoint alice_with_mail = (Ok tt, st1)
    /\ checkpoint_file st1 = Packed saved
    /\ load_checkpoint (initial_state (Packed saved) noon_wall) = (Ok tt, booted)
    /\ checkpoint booted = (Ok tt, st2)
    /\ checkpoint_file st2 = Packed saved.
Proof.
  destruct (restored_directory_is_saved_unchanged alice_with_mail)
    as (st1 & saved & C & F & R); [reflexivity|].
  destruct (R (initial_state (Packed saved) noon_wall) eq_refl)
    as (booted & st2 & L & _ & C2 & F2).
  exists st1, saved, booted, st2. auto.
Defined.

(** ** What no session and no login ever removes *)

Lemma grown_refl k r : grown k r r.
Proof. intros l G. exists []. rewrite app_nil_r. exact G. Qed.

Lemma grown_trans k r1 r2 r3 : grown k r1 r2 -> grown k r2 r3 -> grown k r1 r3.
Proof.
  intros G1 G2 l G. destruct (G1 l G) as (m1 & E1).
  destruct (G2 _ E1) as (m2 & E2). exists (m1 ++ m2).
  rewrite app_assoc. exact E2.
Qed.

Lemma grown_other k k' v r :
  str_eqb k k' = false -> grown k r (dict_set k' v r).
Proof.
  intros N l G. exists []. rewrite app_nil_r, dict_get_set_neq by exact N.
  exact G.
Qed.

Lemma grown_append k l x r :
  dict_get k r = Some (VList l) -> grown k r (dict_set k (VList (l ++ [x])) r).
Proof.
  intros G l' G'. assert (l' = l) by congruence. subst l'.
  exists [x]. apply dict_get_set_eq.
Qed.

Lemma grown_create k v r : dict_get k r = None -> grown k r (dict_set k v r).
Proof. intros N l G. congruence. Qed.

Lemma record_persists_refl r : record_persists r r.
Proof. split; [reflexivity|]. split; apply grown_refl. Qed.

Lemma record_persists_trans r1 r2 r3 :
  record_persists r1 r2 -> record_persists r2 r3 -> record_persists r1 r3.
Proof.
  intros (F1 & C1 & I1) (F2 & C2 & I2). split; [congruence|].
  split; eapply grown_trans; eauto.
Qed.

(** Setting [conn] or [last_active] keeps the history. *)
Lemma record_persists_set k v r :
  str_eqb (lit "first_login") k = false ->
  str_eqb (lit "commands") k = false ->
  str_eqb (lit "messages_received") k = false ->
  record_persists r (dict_set k v r).
Proof.
  intros N1 N2 N3. split; [apply dict_get_set_neq, N1|].
  split; apply grown_other; assumption.
Qed.

Lemma record_persists_append k l x r :
  k = lit "commands" \/ k = lit "messages_received" ->
  dict_get k r = Some (VList l) ->
  record_persists r (dict_set k (VList (l ++ [x])) r).
Proof.
  intros [->| ->] G.
  - split; [apply dict_get_set_neq; reflexivity|].
    split; [apply grown_append, G | apply grown_other; reflexivity].
  - split; [apply dict_get_set_neq; reflexivity|].
    split; [apply grown_other; reflexivity | apply grown_append, G].
Qed.

Lemma record_persists_create_log v r :
  dict_get (lit "commands") r = None ->
  record_persists r (dict_set (lit "commands") v r).
Proof.
  intros N. split; [apply dict_get_set_neq; reflexivity|].
  split; [apply grown_create, N | apply grown_other; reflexivity].
Qed.

Lemma persists_refl st : persists st st.
Proof. intros u r G. exists r. split; [exact G | apply record_persists_refl]. Qed.

Lemma persists_trans a b c : persists a b -> persists b c -> persists a c.
Proof.
  intros P1 P2 u r G. destruct (P1 u r G) as (r1 & G1 & R1).
  destruct (P2 u r1 G1) as (r2 & G2 & R2). exists r2.
  split; [exact G2 | eapply record_persists_trans; eauto].
Qed.

Lemma persists_users st st' : users st' = users st -> persists st st'.
Proof. intros U u r G. exists r. rewrite U. split; [exact G | apply record_persists_refl]. Qed.

Lemma persists_frame st st' :
  users st' = users st -> sockets st' = sockets st -> persists st st'.
Proof. intros U _. apply persists_users, U. Qed.

(** Replacing the record of one user by one that keeps its history. *)
Lemma persists_update st st' u r r1 :
  dict_get u (users st) = Some r ->
  record_persists r r1 ->
  users st' = dict_set u r1 (users st) ->
  persists st st'.
Proof.
  intros G R U u' r' G'. rewrite U.
  destruct (str_eqb u' u) eqn:E.
  - apply str_eqb_eq in E. subst u'. assert (r' = r) by congruence. subst r'.
    exists r1. split; [apply dict_get_set_eq | exact R].
  - exists r'. rewrite dict_get_set_neq by exact E.
    split; [exact G' | apply record_persists_refl].
Qed.

(** Adding a user. *)
Lemma persists_insert st st' u r1 :
  dict_get u (users st) = None ->
  users st' = dict_set u r1 (users st) ->
  persists st st'.
Proof.
  intros N U u' r' G'. rewrite U. exists r'.
  rewrite dict_get_set_neq; [split; [exact G' | apply record_persists_refl]|].
  eapply dict_get_none_neq in N; [|exact G'].
  rewrite str_eqb_sym. exact N.
Qed.

Lemma persists_clear st u r :
  dict_get u (users st) = Some r ->
  (dict_get (lit "conn") r = None
   \/ dict_get (lit "conn") r = Some VNone
   \/ exists c, dict_get (lit "conn") r = Some (VSocket c)
                /\ fileno (sock_get c (sockets st)) = -1) ->
  persists st (cleared u r st).
Proof.
  intros G _. apply (persists_update st _ u r (dict_set (lit "conn") VNone r) G).
  - apply record_persists_set; reflexivity.
  - reflexivity.
Qed.

Lemma persists_send st c p :
  fileno (sock_get c (sockets st)) <> -1 -> persists st (sent c p st).
Proof. intros _. apply persists_users. reflexivity. Qed.

Lemma persists_ret {A} (a : A) : respects persists (ret a).
Proof. apply respects_ret, persists_frame. Qed.

Lemma persists_raise {A} e : respects persists (@raise A e).
Proof. apply respects_raise, persists_frame. Qed.

Lemma persists_gets {A} (f : state -> A) : respects persists (gets f).
Proof. apply respects_gets, persists_frame. Qed.

Lemma persists_bind {A B} (m : M A) (k : A -> M B) :
  respects persists m -> (forall a, respects persists (k a)) ->
  respects persists (bind m k).
Proof. apply respects_bind, persists_trans. Qed.

(** Sequencing, with what the first statement returned at hand. *)
Lemma persists_bind_at {A B} (m : M A) (k : A -> M B) st :
  (forall x st', m st = (x, st') -> persists st st') ->
  (forall a st1, m st = (Ok a, st1) ->
     forall y st2, k a st1 = (y, st2) -> persists st1 st2) ->
  forall x st', bind m k st = (x, st') -> persists st st'.
Proof.
  intros Hm Hk x st' E. unfold bind in E.
  destruct (m st) as [[a|e] st1] eqn:E1.
  - eapply persists_trans; [eapply Hm; reflexivity | eapply Hk; eauto].
  - injection E as _ <-. eapply Hm; reflexivity.
Qed.

Lemma persists_try_except {A} (m : M A) (h : exn -> M A) :
  respects persists m -> (forall e, respects persists (h e)) ->
  respects persists (try_except m h).
Proof. apply respects_try_except, persists_trans. Qed.

Lemma persists_modify_sockets f :
  (forall st, users (f st) = users st) -> respects persists (modify f).
Proof.
  intros U st x st' E. injection E as _ <-. apply persists_users, U.
Qed.

Lemma persists_print e : respects persists (print e).
Proof. apply persists_modify_sockets. reflexivity. Qed.

Lemma persists_now : respects persists now.
Proof. apply respects_now; [exact persists_trans | exact persists_frame]. Qed.

Lemma persists_send_stmt c p : respects persists (send c p).
Proof. apply respects_send; [exact persists_frame | exact persists_send]. Qed.

Lemma persists_recv c : respects persists (recv c).
Proof.
  intros st x st' E. apply persists_users. unfold recv, bind, gets in E.
  destruct (fileno (sock_get c (sockets st)) =? -1);
    [injection E as _ <-; reflexivity|].
  destruct (sk_in (sock_get c (sockets st)));
    injection E as _ <-; reflexivity.
Qed.

Lemma persists_close c : respects persists (close c).
Proof. intros st x st' E. injection E as _ <-. apply persists_users. reflexivity. Qed.

Lemma persists_list_index {A} (l : list A) n : respects persists (list_index l n).
Proof.
  unfold list_index. destruct (nth_error l n);
    [apply persists_ret | apply persists_raise].
Qed.

Lemma persists_user_record u : respects persists (user_record u).
Proof.
  apply respects_user_record; [exact persists_trans | exact persists_frame].
Qed.

Lemma persists_user_field u k : respects persists (user_field u k).
Proof.
  apply respects_user_field; [exact persists_trans | exact persists_frame].
Qed.

Lemma persists_value_send v p : respects persists (value_send v p).
Proof.
  apply respects_value_send; [exact persists_frame | exact persists_send].
Qed.

Lemma persists_user_is_connected u : respects persists (user_is_connected u).
Proof.
  apply respects_user_is_connected;
    [exact persists_frame | exact persists_clear].
Qed.

Lemma persists_checkpoint : respects persists checkpoint.
Proof.
  apply respects_checkpoint;
    [exact persists_trans | exact persists_frame | exact persists_clear
    | exact persists_send].
Qed.

Lemma persists_server_tick : respects persists server_tick.
Proof.
  apply respects_server_tick;
    [exact persists_trans | exact persists_frame | exact persists_clear
    | exact persists_send].
Qed.

Lemma persists_scrub raw : respects persists (scrub raw).
Proof.
  apply respects_scrub;
    [exact persists_trans | exact persists_frame | exact persists_clear
    | exact persists_send].
Qed.

Lemma user_record_inv u st r st' :
  user_record u st = (Ok r, st') ->
  st' = st /\ dict_get u (users st) = Some r.
Proof.
  unfold user_record, bind, gets. destruct (dict_get u (users st)) as [r0|];
    [|discriminate].
  intros E. injection E as <- <-. auto.
Qed.

Lemma user_field_inv u k st v st' :
  user_field u k st = (Ok v, st') ->
  st' = st /\ exists r, dict_get u (users st) = Some r /\ dict_get k r = Some v.
Proof.
  unfold user_field. unfold bind at 1.
  destruct (user_record u st) as [[r|e] st1] eqn:E1; [|discriminate].
  apply user_record_inv in E1. destruct E1 as [-> G].
  destruct (dict_get k r) as [v0|] eqn:K; [|discriminate].
  intros E. injection E as <- <-. eauto.
Qed.

(** An assignment to a field of a user that keeps the record's history. *)
Lemma persists_set_user_field u k v st x st' :
  (forall r, dict_get u (users st) = Some r ->
     record_persists r (dict_set k v r)) ->
  set_user_field u k v st = (x, st') -> persists st st'.
Proof.
  intros H. unfold set_user_field. unfold bind at 1.
  destruct (user_record u st) as [[r|e] st1] eqn:E1.
  - apply user_record_inv in E1. destruct E1 as [-> G].
    intros E. injection E as _ <-.
    apply (persists_update st _ u r (dict_set k v r) G (H r G)). reflexivity.
  - intros E. injection E as _ <-.
    eapply persists_user_record. exact E1.
Qed.

Lemma persists_set_plain u k v :
  str_eqb (lit "first_login") k = false ->
  str_eqb (lit "commands") k = false ->
  str_eqb (lit "messages_received") k = false ->
  respects persists (set_user_field u k v).
Proof.
  intros N1 N2 N3 st x st'. apply persists_set_user_field.
  intros r _. apply record_persists_set; assumption.
Qed.

(** The three statements that append to a list field. *)
Lemma persists_append_field {B} u k x (rest : M B) :
  k = lit "commands" \/ k = lit "messages_received" ->
  respects persists rest ->
  respects persists
    (l <- user_field u k ;;
     l' <- value_append l x ;;
     set_user_field u k l' ;;
     rest).
Proof.
  intros K Hr st. apply persists_bind_at.
  - intros y s. apply persists_user_field.
  - intros v st1 E1. apply user_field_inv in E1.
    destruct E1 as (-> & r & G & F).
    destruct v; cbn [value_append];
      try (intros y st2 E; injection E as _ <-; apply persists_refl).
    apply persists_bind_at.
    + intros y s E. injection E as _ <-. apply persists_refl.
    + intros v' st1 E1. injection E1 as <- <-.
      apply persists_bind_at.
      * intros y s. apply persists_set_user_field.
        intros r0 G0. assert (r0 = r) by congruence. subst r0.
        apply record_persists_append; assumption.
      * intros _ st1 _. apply Hr.
Qed.

Ltac pstep :=
  first
    [ apply persists_ret | apply persists_raise | apply persists_gets
    | apply persists_send_stmt | apply persists_close | apply persists_recv
    | apply persists_print | apply persists_now | apply persists_list_index
    | apply persists_user_record | apply persists_user_field
    | apply persists_value_send | apply persists_user_is_connected
    | apply persists_checkpoint | apply persists_server_tick
    | apply persists_scrub
    | apply persists_set_plain; reflexivity
    | apply persists_bind; [|intros ?]
    | match goal with
      | |- respects _ (if ?b then _ else _) => destruct b
      | |- respects _ (match ?x with _ => _ end) => destruct x
      end ].

Ltac psteps := repeat pstep.

Lemma persists_who_lines us : forall num response,
  respects persists (who_lines us num response).
Proof.
  induction us as [|[user info] us IH]; intros num response; cbn [who_lines].
  - apply persists_ret.
  - destruct (dict_get (lit "last_active") info); [apply IH | apply persists_raise].
Qed.

Lemma persists_cmd_send conn username timestamp command_parts :
  respects persists (cmd_send conn username timestamp command_parts).
Proof.
  unfold cmd_send.
  apply persists_bind; [apply persists_list_index|]. intros recipient.
  apply persists_bind; [apply persists_gets|]. intros us.
  destruct (dict_mem recipient us); [|psteps].
  apply persists_bind; [apply persists_user_is_connected|]. intros [|]; [|psteps].
  apply persists_append_field; [right; reflexivity|]. psteps.
Qed.

Lemma persists_dispatch conn username timestamp command command_parts :
  respects persists (dispatch conn username timestamp command command_parts).
Proof.
  unfold dispatch.
  destruct (str_eqb command (lit "SEND")); [apply persists_cmd_send|].
  destruct (str_eqb command (lit "WHO")).
  { unfold cmd_who. psteps. apply persists_who_lines. }
  destruct (str_eqb command (lit "HELP")).
  { unfold cmd_help. psteps. }
  destruct (str_eqb command (lit "TICKS")); [unfold cmd_ticks; psteps|].
  destruct (str_eqb command (lit "TASKS")); [unfold cmd_tasks; psteps|].
  destruct (str_eqb command (lit "QUIT")); [unfold cmd_quit; psteps|].
  psteps.
Qed.

Lemma persists_process_line conn username received_data :
  respects persists (process_line conn username received_data).
Proof.
  unfold process_line.
  apply persists_bind; [apply persists_now|]. intros timestamp.
  apply persists_bind; [apply persists_set_plain; reflexivity|]. intros _.
  apply persists_bind; [apply persists_list_index|]. intros command.
  intros st. apply persists_bind_at.
  { intros y s. apply persists_user_record. }
  intros r st1 E1. apply user_record_inv in E1. destruct E1 as [-> G].
  apply persists_bind_at.
  { unfold dict_mem. destruct (dict_get (lit "commands") r) eqn:C.
    - intros y s. apply persists_ret.
    - intros y s. apply persists_set_user_field.
      intros r0 G0. assert (r0 = r) by congruence. subst r0.
      apply record_persists_create_log, C. }
  intros _ st1 _.
  apply persists_append_field; [left; reflexivity|].
  apply persists_dispatch.
Qed.

Lemma persists_read_line fuel : forall conn received_data,
  respects persists (read_line fuel conn received_data).
Proof.
  induction fuel as [|fuel IH]; intros conn received_data; cbn [read_line].
  - apply persists_ret.
  - destruct (endswith_nl received_data); [apply persists_ret|].
    apply persists_bind; [apply persists_server_tick|]. intros _.
    apply persists_bind; [apply persists_recv|]. intros raw.
    destruct raw; [apply persists_ret|].
    apply persists_bind; [apply persists_scrub|]. intros processed.
    destruct (utf8_decode processed); [|apply persists_raise].
    apply persists_bind; [apply persists_send_stmt|]. intros _. apply IH.
Qed.

Lemma persists_session_turn conn username :
  respects persists (session_turn conn username).
Proof.
  unfold session_turn.
  apply persists_bind; [apply persists_server_tick|]. intros _.
  apply persists_try_except.
  - apply persists_bind; [apply persists_gets|]. intros pending.
    apply persists_bind; [apply persists_read_line|]. intros data.
    apply persists_process_line.
  - intros e. psteps.
Qed.

Lemma persists_session_loop turns : forall conn username,
  respects persists (session_loop turns conn username).
Proof.
  induction turns as [|turns IH]; intros conn username; cbn [session_loop].
  - apply persists_ret.
  - apply persists_bind; [apply persists_session_turn|].
    intros [|]; [apply IH | apply persists_ret].
Qed.

Lemma persists_handle_client turns conn username :
  respects persists (handle_client turns conn username).
Proof.
  unfold handle_client. psteps. apply persists_session_loop.
Qed.

Lemma persists_login conn received_data :
  respects persists (login conn received_data).
Proof.
  unfold login. destruct received_data as [|c d]; [apply persists_ret|].
  apply persists_bind; [apply persists_list_index|]. intros cmd0.
  destruct (negb (str_eqb cmd0 (lit "LOGIN"))); [unfold reject; psteps|].
  apply persists_bind; [apply persists_list_index|]. intros username.
  destruct (List.length username <? 4)%nat; [unfold reject; psteps|].
  intros st. apply persists_bind_at.
  { intros y s. apply persists_gets. }
  intros us st1 E1. injection E1 as <- <-.
  unfold dict_mem. destruct (dict_get username (users st)) eqn:G.
  - apply persists_bind; [apply persists_user_is_connected|].
    intros [|]; cbn [negb]; [unfold reject; psteps | psteps].
  - unfold now. cbv [bind gets modify ret]. cbv beta iota.
    intros y st2 E.
    match type of E with
    | context [checkpoint ?s] =>
        destruct (checkpoint s) as [[[]|e] st3] eqn:C;
        injection E as _ <-;
        (eapply persists_trans; [|eapply persists_checkpoint; exact C]);
        (eapply (persists_insert st s username); [exact G | reflexivity])
    end.
Qed.

Lemma persists_login_scrub_loop fuel : forall conn raw i processed received,
  respects persists (login_scrub_loop fuel conn raw i processed received).
Proof.
  induction fuel as [|fuel IH]; intros conn raw i processed received;
    cbn [login_scrub_loop].
  - apply persists_ret.
  - destruct (i <? List.length raw)%nat; [|apply persists_ret].
    apply persists_bind; [apply persists_server_tick|]. intros _.
    destruct (utf8_decode _) as [[|c d]|];
      [apply persists_ret | | apply persists_raise].
    apply persists_bind; [apply persists_send_stmt|]. intros _. apply IH.
Qed.

Lemma persists_read_login fuel : forall conn received,
  respects persists (read_login fuel conn received).
Proof.
  induction fuel as [|fuel IH]; intros conn received; cbn [read_login].
  - apply persists_ret.
  - destruct (endswith_nl received); [apply persists_ret|].
    apply persists_bind; [apply persists_server_tick|]. intros _.
    apply persists_bind; [apply persists_recv|]. intros raw.
    destruct raw; [apply persists_ret|].
    apply persists_bind; [apply persists_login_scrub_loop|]. intros d.
    apply IH.
Qed.

Lemma persists_metadata k : respects persists (metadata k).
Proof.
  unfold metadata. destruct (dict_get (lit k) server_metadata);
    [apply persists_ret | apply persists_raise].
Qed.

Lemma persists_accept_turn conn : respects persists (accept_turn conn).
Proof.
  unfold accept_turn.
  apply persists_bind.
  { unfold greet.
    repeat first [ apply persists_metadata | apply persists_send_stmt
                 | apply persists_bind; [|intros ?] ]. }
  intros _.
  apply persists_bind; [apply persists_gets|]. intros pending.
  apply persists_bind; [apply persists_read_login|]. intros d.
  apply persists_login.
Qed.

Lemma persists_start_server incoming : respects persists (start_server incoming).
Proof.
  induction incoming as [|conn rest IH]; cbn [start_server].
  - psteps.
  - apply persists_bind; [apply persists_server_tick|]. intros _.
    apply persists_bind; [apply persists_accept_turn|]. intros a.
    apply persists_bind; [exact IH|]. intros started. apply persists_ret.
Qed.

(** X20: nothing that a session or the acceptor does removes a user or any
    of a user's history.  Whatever [handle_client] or [start_server] returns
    or raises, and from whatever state, every user that was in the directory
    is still in it, with the same [first_login], and with a command log and
    an inbox that hold all the entries they held, in order, followed by the
    new ones. *)
Theorem history_is_never_removed :
  (forall turns conn username st x st',
     handle_client turns conn username st = (x, st') -> persists st st')
  /\ (forall incoming st x st',
        start_server incoming st = (x, st') -> persists st st').
Proof.
  split.
  - intros turns conn username. apply persists_handle_client.
  - intros incoming. apply persists_start_server.
Qed.

Lemma history_is_never_removed_witness :
  exists x st' r',
    handle_client 3 1 (lit "alice")
      (set_sockets
         (fun _ => [(1%nat, open_socket 7 [lit "SEND alice again" ++ [10];
                                           [195]])])
         alice_with_mail)
    = (x, st')
    /\ dict_get (lit "alice") (users st') = Some r'
    /\ dict_get (lit "first_login") r' = Some (VStr (isoformat at_noon))
    /\ exists more,
         dict_get (lit "messages_received") r'
         = Some (VList (inbox_entry at_noon (lit "hello") :: more)).
Proof.
  destruct (handle_client 3 1 (lit "alice")
              (set_sockets
                 (fun _ => [(1%nat, open_socket 7 [lit "SEND alice again" ++ [10];
                                                   [195]])])
                 alice_with_mail)) as [x st'] eqn:E.
  destruct (proj1 history_is_never_removed _ _ _ _ _ _ E (lit "alice") _ eq_refl)
    as (r' & G & F & _ & I).
  exists x, st', r'. split; [reflexivity|]. split; [exact G|].
  split; [exact F|]. destruct (I _ eq_refl) as (more & Im).
  exists more. exact Im.
Defined.

(** ** [WHO] *)






(** ** A login line typed one character at a time *)

Lemma login_scrub_byte st conn b d :
  settled st = true ->
  fileno (sock_get conn (sockets st)) <> -1 ->
  ((0 <=? b) && (b <? 128)) = true ->
  exists st',
    login_scrub_loop 1 conn [b] 0 [] d st = (Ok (d ++ [b]), st')
    /\ settled st' = true
    /\ calmed (users st) (users st')
    /\ forall c,
         fileno (sock_get c (sockets st')) = fileno (sock_get c (sockets st))
         /\ sk_in (sock_get c (sockets st')) = sk_in (sock_get c (sockets st)).
Proof.
  intros St F A. cbn [login_scrub_loop List.length Nat.ltb Nat.leb nth].
  destruct (server_tick_ok st St) as (st1 & E1 & [Qu Qs] & _ & S1).
  rewrite (bind_ok _ _ _ _ _ E1).
  assert (N : (b =? 255) = false).
  { apply andb_true_iff in A. destruct A as [_ A]. apply Z.ltb_lt in A.
    apply Z.eqb_neq. lia. }
  rewrite N. cbn [fst snd app utf8_decode]. rewrite A. cbn [option_map].
  assert (F1 : fileno (sock_get conn (sockets st1)) <> -1)
    by (destruct (Qs conn) as [F1 _]; congruence).
  rewrite (bind_ok _ _ _ _ _ (send_run st1 conn _ F1)). cbv [ret].
  eexists. split; [reflexivity|]. split; [exact S1|]. split; [exact Qu|].
  intros c. rewrite sent_fileno, sent_sk_in. apply Qs.
Qed.

Lemma endswith_nl_last d c : endswith_nl (d ++ [c]) = (c =? 10).
Proof. unfold endswith_nl. rewrite rev_app_distr. reflexivity. Qed.

Lemma read_login_typed conn (line : str) :
  forall (fuel : nat) (d : str) (rest : list bytes) (st : state),
  settled st = true ->
  fileno (sock_get conn (sockets st)) <> -1 ->
  sk_in (sock_get conn (sockets st)) = typed (line ++ [10]) ++ rest ->
  ascii_bytes line = true ->
  forallb (fun b => negb (b =? 10)) line = true ->
  endswith_nl d = false ->
  (List.length (typed (line ++ [10%Z]) ++ rest) < fuel)%nat ->
  exists st',
    read_login fuel conn d st = (Ok (d ++ line ++ [10]), st')
    /\ settled st' = true
    /\ calmed (users st) (users st')
    /\ fileno (sock_get conn (sockets st')) = fileno (sock_get conn (sockets st))
    /\ sk_in (sock_get conn (sockets st')) = rest.
Proof.
  induction line as [|b line IH]; intros fuel d rest st St F I A N D L;
    (destruct fuel as [|fuel]; [inversion L|]);
    cbn [read_login]; rewrite D;
    destruct (server_tick_ok st St) as (st1 & E1 & [Qu1 Qs1] & _ & S1);
    destruct (Qs1 conn) as [F1 I1];
    rewrite (bind_ok _ _ _ _ _ E1).
  - change (typed ([] ++ [10]) ++ rest) with ([10] :: rest) in I.
    destruct (recv_chunk conn st1 [10] rest ltac:(congruence) (eq_trans I1 I))
      as (st2 & E2 & U2 & S2 & F2 & I2 & _).
    rewrite (bind_ok _ _ _ _ _ E2).
    destruct (login_scrub_byte st2 conn 10 d ltac:(congruence)
                ltac:(congruence) eq_refl) as (st3 & E3 & S3 & Qu3 & Qs3).
    cbn [List.length]. rewrite (bind_ok _ _ _ _ _ E3).
    destruct (Qs3 conn) as [F3 I3].
    exists st3. split.
    + destruct fuel as [|fuel]; cbn [read_login app]; [reflexivity|].
      rewrite endswith_nl_last. reflexivity.
    + split; [exact S3|].
      split; [eapply calmed_trans; [exact Qu1|]; rewrite <- U2; exact Qu3|].
      split; congruence.
  - change (typed ((b :: line) ++ [10]) ++ rest)
      with ([b] :: (typed (line ++ [10]) ++ rest)) in I, L.
    cbn [ascii_bytes forallb] in A, N.
    apply andb_true_iff in A. destruct A as [Ab A].
    apply andb_true_iff in N. destruct N as [Nb N].
    destruct (recv_chunk conn st1 [b] (typed (line ++ [10]) ++ rest)
                ltac:(congruence) (eq_trans I1 I))
      as (st2 & E2 & U2 & S2 & F2 & I2 & _).
    rewrite (bind_ok _ _ _ _ _ E2).
    destruct (login_scrub_byte st2 conn b d ltac:(congruence)
                ltac:(congruence) Ab) as (st3 & E3 & S3 & Qu3 & Qs3).
    cbn [List.length]. rewrite (bind_ok _ _ _ _ _ E3).
    destruct (Qs3 conn) as [F3 I3].
    destruct (IH fuel (d ++ [b]) rest st3) as (st4 & E4 & S4 & Qu4 & F4 & I4);
      auto; try congruence.
    + rewrite endswith_nl_last. apply negb_true_iff, Nb.
    + cbn [List.length] in L. lia.
    + exists st4. split; [rewrite E4, <- app_assoc; reflexivity|].
      split; [exact S4|].
      split; [eapply calmed_trans; [exact Qu1|]; rewrite <- U2;
              eapply calmed_trans; [exact Qu3 | exact Qu4]|].
      split; congruence.
Qed.

(** X22: a login line typed one character per packet, as a terminal in
    character mode sends it, reaches the login step intact: after the
    greeting the read loop puts the characters together, one at a time, up
    to the newline, and what is parsed is the line as it was typed.  Packets
    behind the newline are left unread. *)
Theorem typed_login_line_is_read
    (st : state) (conn : nat) (line : str) (rest : list bytes) :
  settled st = true ->
  fileno (sock_get conn (sockets st)) <> -1 ->
  sk_in (sock_get conn (sockets st)) = typed (line ++ [10]) ++ rest ->
  ascii_bytes line = true ->
  forallb (fun b => negb (b =? 10)) line = true ->
  exists st1,
    accept_turn conn st = login conn (line ++ [10]) st1
    /\ sk_in (sock_get conn (sockets st1)) = rest
    /\ fileno (sock_get conn (sockets st1)) = fileno (sock_get conn (sockets st))
    /\ calmed (users st) (users st1).
Proof.
  intros St F I A N. unfold accept_turn.
  rewrite (bind_ok _ _ _ _ _ (greet_run conn st F)).
  set (st0 := sent_all conn greeting st).
  assert (S0 : settled st0 = true)
    by (unfold st0; rewrite sent_all_settled; exact St).
  assert (F0 : fileno (sock_get conn (sockets st0)) <> -1)
    by (unfold st0; rewrite sent_all_fileno; exact F).
  assert (I0 : sk_in (sock_get conn (sockets st0)) = typed (line ++ [10]) ++ rest)
    by (unfold st0; rewrite sent_all_sk_in; exact I).
  unfold bind at 1. cbv [gets]. rewrite I0.
  destruct (read_login_typed conn line
              (S (List.length (typed (line ++ [10]) ++ rest))) [] rest st0
              S0 F0 I0 A N eq_refl (Nat.lt_succ_diag_r _))
    as (st1 & E1 & _ & Qu & F1 & I1).
  rewrite (bind_ok _ _ _ _ _ E1). cbn [app].
  exists st1. split; [reflexivity|]. split; [exact I1|].
  split; [rewrite F1; unfold st0; apply sent_all_fileno|].
  unfold st0 in Qu. rewrite sent_all_users in Qu. exact Qu.
Qed.

Lemma typed_login_line_is_read_witness :
  (exists st1,
     accept_turn 0 (fresh_server 0 (typed (lit "LOGIN carol" ++ [10])))
     = login 0 (lit "LOGIN carol" ++ [10]) st1)
  /\ exists st',
       accept_turn 0 (fresh_server 0 (typed (lit "LOGIN carol" ++ [10])))
       = (Ok (Started 0 (lit "carol")), st')
       /\ dict_keys (users st') = [lit "carol"].
Proof.
  split.
  - destruct (typed_login_line_is_read
                (fresh_server 0 (typed (lit "LOGIN carol" ++ [10]))) 0
                (lit "LOGIN carol") [])
      as (st1 & E & _);
      [reflexivity | discriminate | reflexivity | reflexivity | reflexivity |].
    exists st1. exact E.
  - eexists. split; vm_compute; reflexivity.
Defined.
